(** * The snapshot lifecycle pipeline of the Brightdata email extractor

    A shallow embedding of the three pipeline stages (batch submission,
    validation-aware retrieval, e-mail extraction) and of the query
    deduplicator, with the properties the specification states about them.

    Sources embedded here:
    - [email_scraper.py]: [BrightdataClient.get_snapshot_data],
      [create_payload] and [send_request], the methods of [SupabaseClient],
      [EmailScraperEngine.process_queries];
    - [worker.py]: [validate_env], [extract_emails_from_text],
      [extract_emails_from_json], [process_stage2], [process_stage3];
    - [stage2_server.py]: [Stage2Service.run_once];
    - [stage3_server.py]: [Stage3Service.run_once] and [loop];
    - [app.py]: [validate_environment], [load_csv_queries],
      [filter_queries], [process_automated_pipeline],
      [process_unprocessed_snapshots], [process_all_responses_for_emails],
      [process_responses_for_emails].

    Conventions.  A Python [str] is a [string] whose characters are the code
    points 0..255; [json.dumps] only ever produces code points 32..126, so
    the UTF-8 byte length of a serialized payload is its number of
    characters.  Python integers that count things are [nat].  The pipeline
    functions take their two clients as arguments, as in the source; the
    clients of [email_scraper.py] act on a world made of the three tables
    and of a clock, and the surroundings (the answers of the collection
    service, the failures of the store) are a function of that clock.
    Logging, progress display and [time.sleep] have no effect on any value
    the pipeline computes and are left out. *)

From Stdlib Require Import ZArith NArith Ascii DecimalString Lia.
From stdpp Require Import base tactics option list gmap strings.

Local Open Scope N_scope.
Local Set Warnings "-register-all".

(** ** Characters and strings *)

Module Str.

Definition code (c : ascii) : N := N_of_ascii c.

Definition in_range (lo hi : N) (c : ascii) : bool :=
  (lo <=? code c) && (code c <=? hi).

Definition is_ascii_upper (c : ascii) : bool := in_range 65 90 c.
Definition is_ascii_lower (c : ascii) : bool := in_range 97 122 c.
Definition is_ascii_letter (c : ascii) : bool :=
  is_ascii_upper c || is_ascii_lower c.
Definition is_ascii_digit (c : ascii) : bool := in_range 48 57 c.

(** [str.lower()] on one code point below 256: A-Z and the Latin-1
    capitals (U+00C0..U+00DE except the multiplication sign U+00D7) move
    up by 32, everything else is unchanged. *)
Definition char_lower (c : ascii) : ascii :=
  if is_ascii_upper c || (in_range 192 222 c && negb (code c =? 215))
  then ascii_of_N (code c + 32)
  else c.

Fixpoint lower (s : string) : string :=
  match s with
  | EmptyString => EmptyString
  | String c s' => String (char_lower c) (lower s')
  end.

(** [str.isspace()] on one code point below 256. *)
Definition is_space (c : ascii) : bool :=
  in_range 9 13 c || in_range 28 32 c || (code c =? 133) || (code c =? 160).

Fixpoint lstrip (s : string) : string :=
  match s with
  | EmptyString => EmptyString
  | String c s' => if is_space c then lstrip s' else s
  end.

(** [str.strip()]: white space removed at both ends. *)
Definition strip (s : string) : string :=
  String.rev (lstrip (String.rev (lstrip s))).

(** [needle in hay]. *)
Fixpoint contains (needle hay : string) : bool :=
  String.prefix needle hay ||
  match hay with
  | EmptyString => false
  | String _ hay' => contains needle hay'
  end.

(** [str(n)] for a non-negative and for any integer. *)
Definition of_nat (n : nat) : string := NilZero.string_of_uint (Nat.to_uint n).
Definition of_Z (z : Z) : string := NilZero.string_of_int (Z.to_int z).

(** [len(s.encode('utf-8'))]: one byte below U+0080, two bytes from there
    to U+00FF. *)
Fixpoint utf8_length (s : string) : nat :=
  (match s with
  | EmptyString => O
  | String c s' => (if (code c <? 128)%N then 1 else 2) + utf8_length s'
  end)%nat.

Fixpoint repeat (c : ascii) (n : nat) : string :=
  match n with
  | O => EmptyString
  | S n' => String c (repeat c n')
  end.

End Str.

(** ** JSON values and [json.dumps] *)

(** What [response.json()] returns and what the store keeps in a JSON
    column.  A [dict] keeps its insertion order, hence the association
    list.  Numbers are the integers. *)
Inductive json : Type :=
| JNull
| JBool (b : bool)
| JInt (z : Z)
| JStr (s : string)
| JArr (items : list json)
| JObj (fields : list (string * json)).

Module Json.

Definition dquote : ascii := ascii_of_N 34.
Definition backslash : ascii := ascii_of_N 92.

Definition hex_digit (n : N) : ascii :=
  if n <? 10 then ascii_of_N (48 + n) else ascii_of_N (87 + n).

(** One character of a string literal under [ensure_ascii=True]: the
    printable ASCII characters other than the quote and the backslash
    stand for themselves, the rest is escaped. *)
Definition escape_char (c : ascii) : string :=
  let n := Str.code c in
  if n =? 34 then String backslash (String dquote EmptyString)
  else if n =? 92 then String backslash (String backslash EmptyString)
  else if n =? 10 then "\n"
  else if n =? 13 then "\r"
  else if n =? 9 then "\t"
  else if n =? 8 then "\b"
  else if n =? 12 then "\f"
  else if (32 <=? n) && (n <=? 126) then String c EmptyString
  else "\u00" +:+ String (hex_digit (n / 16)) (String (hex_digit (n mod 16)) EmptyString).

Fixpoint escape (s : string) : string :=
  match s with
  | EmptyString => EmptyString
  | String c s' => escape_char c +:+ escape s'
  end.

Definition quote (s : string) : string :=
  String dquote (escape s +:+ String dquote EmptyString).

(** [json.dumps(j)] with the default separators [", "] and [": "]. *)
Fixpoint dumps (j : json) : string :=
  match j with
  | JNull => "null"
  | JBool true => "true"
  | JBool false => "false"
  | JInt z => Str.of_Z z
  | JStr s => quote s
  | JArr items =>
      "[" +:+
      (fix go (l : list json) : string :=
         match l with
         | [] => EmptyString
         | x :: l' =>
             match l' with
             | [] => dumps x
             | _ :: _ => dumps x +:+ ", " +:+ go l'
             end
         end) items +:+ "]"
  | JObj fields =>
      "{" +:+
      (fix go (l : list (string * json)) : string :=
         match l with
         | [] => EmptyString
         | (k, v) :: l' =>
             match l' with
             | [] => quote k +:+ ": " +:+ dumps v
             | _ :: _ => quote k +:+ ": " +:+ dumps v +:+ ", " +:+ go l'
             end
         end) fields +:+ "}"
  end.

(** Python truthiness of a decoded JSON value ([if data:]). *)
Definition truthy (j : json) : bool :=
  match j with
  | JNull => false
  | JBool b => b
  | JInt z => negb (z =? 0)%Z
  | JStr s => negb (String.eqb s EmptyString)
  | JArr items => match items with [] => false | _ => true end
  | JObj fields => match fields with [] => false | _ => true end
  end.

Definition is_none (j : json) : bool :=
  match j with JNull => true | _ => false end.

End Json.

(** ** Python calls as state-passing actions *)

(** A call either returns a value or raises an [Exception] carrying its
    message; either way the state it has reached is kept. *)
Inductive outcome (A : Type) : Type :=
| Returns (a : A)
| Raises (e : string).
Arguments Returns {A} a.
Arguments Raises {A} e.

Definition action (S A : Type) : Type := S → outcome A * S.

#[global] Instance action_ret {S} : MRet (action S) :=
  λ A a s, (Returns a, s).

#[global] Instance action_bind {S} : MBind (action S) :=
  λ A B f m s,
    match m s with
    | (Returns a, s') => f a s'
    | (Raises e, s') => (Raises e, s')
    end.

(** [try: body  except Exception as e: handler]. *)
Definition try_except {S A} (body : action S A) (handler : string → action S A)
  : action S A :=
  λ s, match body s with
       | (Returns a, s') => (Returns a, s')
       | (Raises e, s') => handler e s'
       end.

(** A function with local variables [L] that calls into a world [W] runs
    on the pair of both: [call] runs a client method, [update] assigns to
    the locals. *)
Definition call {W L A} (m : action W A) : action (W * L) A :=
  λ '(w, l), let '(r, w') := m w in (r, (w', l)).

Definition update {W L} (f : L → L) : action (W * L) unit :=
  λ '(w, l), (Returns tt, (w, f l)).

(** [for x in xs: body x]. *)
Fixpoint for_each {S A} (xs : list A) (body : A → action S unit) : action S unit :=
  match xs with
  | [] => mret tt
  | x :: xs' => _ ← body x; for_each xs' body
  end.

(** ** The two collaborators, as the pipeline sees them *)

(** A row of [snapshot_table] as [get_unprocessed_snapshots] selects it
    (columns [snapshot_id] and [query]); a missing identifier reads as the
    empty string, which is as falsy as [None]. *)
Record snapshot_dict : Type := SnapshotDict {
  sd_snapshot_id : string;
  sd_query : list string
}.

(** A row of [response_table] as [get_unextracted_responses] selects it
    (columns [snapshot_id] and [response]); a null response is [JNull]. *)
Record response_dict : Type := ResponseDict {
  rd_snapshot_id : string;
  rd_response : json
}.

(** The methods of [BrightdataClient] the pipeline calls.
    [get_snapshot_data] returns [(data, is_running, is_valid,
    error_reason)] with [JNull] for [None]; [send_request] returns the
    decoded answer, a flat object, or [None]. *)
Record Brightdata (W : Type) : Type := MkBrightdata {
  get_snapshot_data : string → action W (json * bool * bool * string);
  send_request : list string → action W (option (gmap string string))
}.
Arguments get_snapshot_data {W} _ _ _.
Arguments send_request {W} _ _ _.

(** The methods of [SupabaseClient] the pipeline calls. *)
Record Supabase (W : Type) : Type := MkSupabase {
  save_snapshot : string → list string → action W bool;
  get_all_existing_queries : action W (list string);
  get_unprocessed_snapshots : action W (list snapshot_dict);
  mark_as_processed : string → action W bool;
  save_email : string → action W (bool * string);
  save_response : string → json → action W (bool * string);
  get_unextracted_responses : nat → nat → action W (list response_dict);
  count_unextracted_responses : action W nat;
  mark_email_extracted : string → action W bool
}.
Arguments save_snapshot {W} _ _ _ _.
Arguments get_all_existing_queries {W} _ _.
Arguments get_unprocessed_snapshots {W} _ _.
Arguments mark_as_processed {W} _ _ _.
Arguments save_email {W} _ _ _.
Arguments save_response {W} _ _ _ _.
Arguments get_unextracted_responses {W} _ _ _ _.
Arguments count_unextracted_responses {W} _ _.
Arguments mark_email_extracted {W} _ _ _.

(** Python truthiness of a [str]. *)
Definition nonempty (s : string) : bool := negb (String.eqb s EmptyString).


(** ** The outside world: the collection service and the store *)

(** How an HTTP exchange with the collection service ends: a decoded
    body, one of the two exceptions the client catches, or any other
    exception, which the client lets through. *)
Inductive http_result (A : Type) : Type :=
| HttpBody (body : A)
| HttpRequestException (msg : string)
| HttpJSONDecodeError (msg : string)
| HttpOtherException (msg : string).
Arguments HttpBody {A} body.
Arguments HttpRequestException {A} msg.
Arguments HttpJSONDecodeError {A} msg.
Arguments HttpOtherException {A} msg.

Record snapshot_row : Type := SnapshotRow {
  snapshot_id : string;
  query : list string;
  processed : bool
}.

Record response_row : Type := ResponseRow {
  response_snapshot_id : string;
  response : json;
  is_email_extracted : bool
}.

(** The three tables, each in insertion order; an update changes a row in
    place. *)
Record Store : Type := MkStore {
  snapshot_table : list snapshot_row;
  response_table : list response_row;
  email_table : list string
}.

(** The statements the client sends to the store. *)
Inductive db_request : Type :=
| InsertSnapshot (id : string)
| SelectQueries
| SelectUnprocessed
| UpdateProcessed (id : string)
| InsertEmail (email : string)
| InsertResponse (id : string)
| SelectUnextracted
| CountUnextracted
| UpdateExtracted (id : string).

(** What the surroundings do, call by call: the answer of the service to
    the request issued as the [t]-th external call, and whether the store
    statement issued as the [t]-th external call fails for a reason of its
    own (network, permissions, ...) and with which exception text. *)
Record Env : Type := MkEnv {
  http_get : nat → string → http_result json;
  http_post : nat → list string → http_result (gmap string string);
  db_fault : nat → db_request → option string
}.

(** The store together with the number of external calls made so far. *)
Record World : Type := MkWorld {
  store : Store;
  now : nat
}.

Definition tick (w : World) : World := MkWorld (store w) (S (now w)).

(** ** [email_scraper.BrightdataClient] *)

Module BrightdataClient.

(** The two markers of a running job, ["status":"running"] without and
    with a blank after the colon. *)
Definition status_running_compact : string :=
  String Json.dquote ("status" +:+ String Json.dquote (":" +:+
    String Json.dquote ("running" +:+ String Json.dquote EmptyString))).

Definition status_running_spaced : string :=
  String Json.dquote ("status" +:+ String Json.dquote (": " +:+
    String Json.dquote ("running" +:+ String Json.dquote EmptyString))).

(** The block under "Validate response" of [get_snapshot_data]: from the
    decoded body to [(is_running, is_valid, error_reason)]. *)
Definition validate_response (data : json) : bool * bool * string :=
  let data_str := Json.dumps data in
  let '(is_valid, error_reason) :=
    if Str.contains status_running_compact data_str
       || Str.contains status_running_spaced data_str
    then (false, "Status is running")
    else if Str.contains "error" (Str.lower data_str)
    then
      let response_size := Str.utf8_length data_str in
      if (response_size <? 2000)%nat
      then (false,
            "Contains error and size < 2000 bytes (actual: "
              +:+ Str.of_nat response_size +:+ ")")
      else (true, EmptyString)
    else (true, EmptyString) in
  let is_running := negb is_valid && Str.contains "running" error_reason in
  (is_running, is_valid, error_reason).

(** [create_payload(keywords)]: one entry per keyword, serialized. *)
Definition create_payload (keywords : list string) : string :=
  let input_data :=
    (λ keyword,
       JObj [("url", JStr "https://www.google.com/");
             ("keyword", JStr keyword);
             ("language", JStr EmptyString);
             ("uule", JStr EmptyString);
             ("brd_mobile", JStr EmptyString)]) <$> keywords in
  Json.dumps (JObj [("input", JArr input_data)]).

Section WithEnv.
Variable env : Env.

(** [get_snapshot_data]: the GET of the snapshot (the address is built
    from the client's URL and plays no part), [raise_for_status] and the
    decoding are the exchange [http_get]; a decoded body is validated and
    returned with its flags; the two exceptions caught give [None] as data,
    any other exception goes up to the caller. *)
Definition get_snapshot_data (snapshot_id : string)
  : action World (json * bool * bool * string) :=
  λ w,
    match http_get env (now w) snapshot_id with
    | HttpBody data =>
        let '(is_running, is_valid, error_reason) := validate_response data in
        (Returns (data, is_running, is_valid, error_reason), tick w)
    | HttpRequestException e =>
        (Returns (JNull, false, false, "Request error: " +:+ e), tick w)
    | HttpJSONDecodeError e =>
        (Returns (JNull, false, false, "JSON decode error: " +:+ e), tick w)
    | HttpOtherException e => (Raises e, tick w)
    end.

(** [send_request]: the POST of the payload built from [keywords] is the
    exchange [http_post]; the decoded answer, or [None] for the two
    exceptions caught. *)
Definition send_request (keywords : list string)
  : action World (option (gmap string string)) :=
  λ w,
    match http_post env (now w) keywords with
    | HttpBody result => (Returns (Some result), tick w)
    | HttpRequestException _ => (Returns None, tick w)
    | HttpJSONDecodeError _ => (Returns None, tick w)
    | HttpOtherException e => (Raises e, tick w)
    end.

Definition client : Brightdata World :=
  MkBrightdata World get_snapshot_data send_request.

End WithEnv.
End BrightdataClient.

(** The verdict of the validator on a decoded payload, read off the flags
    [get_snapshot_data] returns. *)
Inductive classification : Type :=
| StillProcessing
| InvalidError
| Valid.

Definition classify (data : json) : classification :=
  let '(is_running, is_valid, _) := BrightdataClient.validate_response data in
  if is_valid then Valid
  else if is_running then StillProcessing
  else InvalidError.

(** ** [email_scraper.SupabaseClient] *)

Module SupabaseClient.

(** The text of the exception the store raises when an insert breaks a
    uniqueness constraint. *)
Definition unique_violation : string :=
  "duplicate key value violates unique constraint".

(** [.update({'processed': True}).eq('snapshot_id', id)]. *)
Definition set_processed (id : string) (r : snapshot_row) : snapshot_row :=
  if String.eqb (snapshot_id r) id
  then SnapshotRow (snapshot_id r) (query r) true
  else r.

(** [.update({'is_email_extracted': True}).eq('snapshot_id', id)]. *)
Definition set_extracted (id : string) (r : response_row) : response_row :=
  if String.eqb (response_snapshot_id r) id
  then ResponseRow (response_snapshot_id r) (response r) true
  else r.

(** The keys the store keeps unique: the snapshot identifier in
    [response_table] and the address in [email_table]. *)
Definition has_response (id : string) (st : Store) : bool :=
  existsb (λ r, String.eqb (response_snapshot_id r) id) (response_table st).

Definition has_email (email : string) (st : Store) : bool :=
  existsb (String.eqb email) (email_table st).

(** [.eq('processed', False)] and [.eq('is_email_extracted', False)]. *)
Definition unprocessed (st : Store) : list snapshot_row :=
  filter (λ r, processed r = false) (snapshot_table st).

Definition unextracted (st : Store) : list response_row :=
  filter (λ r, is_email_extracted r = false) (response_table st).

(** [.range(first, last)]: the rows at positions [offset] to
    [offset + limit - 1] of the selection. *)
Definition range {A} (offset limit : nat) (rows : list A) : list A :=
  take limit (drop offset rows).

(** The test both insert methods apply to the text of a caught exception. *)
Definition error_type (error_str : string) : string :=
  if Str.contains "duplicate" (Str.lower error_str)
     || Str.contains "unique" (Str.lower error_str)
  then "duplicate"
  else "error".

Section WithEnv.
Variable env : Env.

(** [....execute()]: the statement fails with the exception the
    surroundings inject, or else runs on the store, where it may fail on a
    constraint. *)
Definition execute {A} (req : db_request) (run : Store → string + A * Store)
  : action World A :=
  λ w,
    match db_fault env (now w) req with
    | Some e => (Raises e, tick w)
    | None =>
        match run (store w) with
        | inl e => (Raises e, tick w)
        | inr (a, st) => (Returns a, MkWorld st (S (now w)))
        end
    end.

Definition save_snapshot (snapshot_id : string) (queries : list string)
  : action World bool :=
  try_except
    (_ ← execute (InsertSnapshot snapshot_id) (λ st,
           inr (tt, MkStore
                  (snapshot_table st ++ [SnapshotRow snapshot_id queries false])
                  (response_table st) (email_table st)));
     mret true)
    (λ _, mret false).

Definition get_all_existing_queries : action World (list string) :=
  try_except
    (data ← execute SelectQueries (λ st, inr (query <$> snapshot_table st, st));
     let all_queries :=
       flat_map (λ queries,
         (λ q, Str.strip (Str.lower q)) <$> List.filter nonempty queries) data in
     mret (elements (list_to_set all_queries : gset string)))
    (λ _, mret []).

Definition get_unprocessed_snapshots : action World (list snapshot_dict) :=
  try_except
    (execute SelectUnprocessed (λ st,
       inr ((λ r, SnapshotDict (snapshot_id r) (query r)) <$> unprocessed st, st)))
    (λ _, mret []).

Definition mark_as_processed (snapshot_id : string) : action World bool :=
  try_except
    (_ ← execute (UpdateProcessed snapshot_id) (λ st,
           inr (tt, MkStore (set_processed snapshot_id <$> snapshot_table st)
                            (response_table st) (email_table st)));
     mret true)
    (λ _, mret false).

Definition save_email (email : string) : action World (bool * string) :=
  try_except
    (_ ← execute (InsertEmail email) (λ st,
           if has_email email st then inl unique_violation
           else inr (tt, MkStore (snapshot_table st) (response_table st)
                                 (email_table st ++ [email])));
     mret (true, EmptyString))
    (λ error_str, mret (false, error_type error_str)).

Definition save_response (snapshot_id : string) (response_data : json)
  : action World (bool * string) :=
  try_except
    (_ ← execute (InsertResponse snapshot_id) (λ st,
           if has_response snapshot_id st then inl unique_violation
           else inr (tt, MkStore (snapshot_table st)
                           (response_table st
                              ++ [ResponseRow snapshot_id response_data false])
                           (email_table st)));
     mret (true, EmptyString))
    (λ error_str, mret (false, error_type error_str)).

Definition get_unextracted_responses (limit offset : nat)
  : action World (list response_dict) :=
  try_except
    (execute SelectUnextracted (λ st,
       inr ((λ r, ResponseDict (response_snapshot_id r) (response r))
              <$> range offset limit (unextracted st), st)))
    (λ _, mret []).

Definition count_unextracted_responses : action World nat :=
  try_except
    (execute CountUnextracted (λ st, inr (length (unextracted st), st)))
    (λ _, mret 0%nat).

Definition mark_email_extracted (snapshot_id : string) : action World bool :=
  try_except
    (_ ← execute (UpdateExtracted snapshot_id) (λ st,
           inr (tt, MkStore (snapshot_table st)
                            (set_extracted snapshot_id <$> response_table st)
                            (email_table st)));
     mret true)
    (λ _, mret false).

Definition client : Supabase World :=
  MkSupabase World save_snapshot get_all_existing_queries
    get_unprocessed_snapshots mark_as_processed save_email save_response
    get_unextracted_responses count_unextracted_responses mark_email_extracted.

End WithEnv.
End SupabaseClient.

(** ** The fragment of Python's [re] the pipeline uses *)

Module Re.

(** A pattern is a sequence of atoms: [\b], one literal character, or a
    greedy repetition [[class]{min,}] of a character class. *)
Inductive atom : Type :=
| WordBoundary
| Lit (c : ascii)
| Many (cls : ascii → bool) (min : nat).

(** [\w] on a code point below 256: what [str.isalnum] accepts, and the
    underscore. *)
Definition is_word (c : ascii) : bool :=
  Str.is_ascii_letter c || Str.is_ascii_digit c || (Str.code c =? 95)
  || (Str.code c =? 170) || (Str.code c =? 178) || (Str.code c =? 179)
  || (Str.code c =? 181) || (Str.code c =? 185) || (Str.code c =? 186)
  || Str.in_range 188 190 c || Str.in_range 192 214 c
  || Str.in_range 216 246 c || Str.in_range 248 255 c.

Definition first_char (s : string) : option ascii :=
  match s with
  | EmptyString => None
  | String c _ => Some c
  end.

Definition word_before_or_after (c : option ascii) : bool :=
  match c with
  | None => false
  | Some c => is_word c
  end.

(** [\b] holds between the character [prev] and the text [s] when exactly
    one side is a word character; the ends of the text count as non-word. *)
Definition at_boundary (prev : option ascii) (s : string) : bool :=
  xorb (word_before_or_after prev) (word_before_or_after (first_char s)).

(** The greedy repetition: take one more character of the class while
    that leads to a match of the rest [k]; failing that, stop here if [min]
    characters have been taken.  The result is the number of characters the
    whole match consumes. *)
Fixpoint many (cls : ascii → bool) (k : option ascii → string → option nat)
    (min : nat) (prev : option ascii) (s : string) : option nat :=
  let stop := match min with O => k prev s | S _ => None end in
  match s with
  | EmptyString => stop
  | String c s' =>
      if cls c then
        match many cls k (Nat.pred min) (Some c) s' with
        | Some n => Some (S n)
        | None => stop
        end
      else stop
  end.

(** A match of the pattern [p] starting right here, by backtracking. *)
Fixpoint match_here (p : list atom) (prev : option ascii) (s : string)
  : option nat :=
  match p with
  | [] => Some O
  | WordBoundary :: p' =>
      if at_boundary prev s then match_here p' prev s else None
  | Lit c :: p' =>
      match s with
      | EmptyString => None
      | String c' s' =>
          if Ascii.eqb c c' then S <$> match_here p' (Some c') s' else None
      end
  | Many cls min :: p' => many cls (match_here p') min prev s
  end.

Fixpoint prefix_of_length (n : nat) (s : string) : string :=
  match n, s with
  | S n', String c s' => String c (prefix_of_length n' s')
  | _, _ => EmptyString
  end.

(** The scan of [re.findall]: the leftmost match, then on from its end;
    [skip] counts the characters still covered by the last match. *)
Fixpoint scan (p : list atom) (prev : option ascii) (s : string) (skip : nat)
  : list string :=
  match s with
  | EmptyString =>
      match skip, match_here p prev s with
      | O, Some _ => [EmptyString]
      | _, _ => []
      end
  | String c s' =>
      match skip with
      | S skip' => scan p (Some c) s' skip'
      | O =>
          match match_here p prev s with
          | Some n => prefix_of_length n s :: scan p (Some c) s' (Nat.pred n)
          | None => scan p (Some c) s' O
          end
      end
  end.

Definition findall (p : list atom) (text : string) : list string :=
  scan p None text O.

End Re.

(** ** [worker.extract_emails_from_text] and [extract_emails_from_json]

    The same two functions stand in [app.py] and [stage3_server.py]. *)

Definition local_part_char (c : ascii) : bool :=
  Str.is_ascii_letter c || Str.is_ascii_digit c
  || (Str.code c =? 46) || (Str.code c =? 95) || (Str.code c =? 37)
  || (Str.code c =? 43) || (Str.code c =? 45).

Definition domain_char (c : ascii) : bool :=
  Str.is_ascii_letter c || Str.is_ascii_digit c
  || (Str.code c =? 46) || (Str.code c =? 45).

(** [[A-Z|a-z]]: the bar stands inside the class and is a member of it. *)
Definition tld_char (c : ascii) : bool :=
  Str.is_ascii_letter c || (Str.code c =? 124).

(** [\b[A-Za-z0-9._%+-]+@[A-Za-z0-9.-]+\.[A-Z|a-z]{2,}\b] *)
Definition email_pattern : list Re.atom :=
  [Re.WordBoundary; Re.Many local_part_char 1; Re.Lit "@";
   Re.Many domain_char 1; Re.Lit "."; Re.Many tld_char 2; Re.WordBoundary].

(** [list(set(re.findall(pattern, text)))].  A Python set iterates in an
    order of its own; [elements] fixes one order, and nothing below depends
    on which. *)
Definition extract_emails_from_text (text : string) : list string :=
  elements (list_to_set (Re.findall email_pattern text) : gset string).

Definition extract_emails_from_json (json_data : json) : list string :=
  extract_emails_from_text (Json.dumps json_data).

(** Running a function body that has local variables: the locals start at
    [init] and are handed back with the result. *)
Definition with_locals {W L A} (init : L) (body : action (W * L) A)
  : action W (A * L) :=
  λ w,
    match body (w, init) with
    | (Returns a, (w', l)) => (Returns (a, l), w')
    | (Raises e, (w', _)) => (Raises e, w')
    end.

(** ** [worker.py] *)

Module Worker.

(** The dictionary [process_stage2] returns; its counters are the local
    variables [successful], [failed] and [skipped] of the function. *)
Record stage2_stats : Type := Stage2Stats {
  s2_total : nat;
  s2_successful : nat;
  s2_failed : nat;
  s2_skipped : nat
}.

Definition s2_add_successful (c : stage2_stats) : stage2_stats :=
  Stage2Stats (s2_total c) (S (s2_successful c)) (s2_failed c) (s2_skipped c).
Definition s2_add_failed (c : stage2_stats) : stage2_stats :=
  Stage2Stats (s2_total c) (s2_successful c) (S (s2_failed c)) (s2_skipped c).
Definition s2_add_skipped (c : stage2_stats) : stage2_stats :=
  Stage2Stats (s2_total c) (s2_successful c) (s2_failed c) (S (s2_skipped c)).

(** The dictionary [process_stage3] returns: keys [total], [successful],
    [failed], [emails] and [duplicate_emails], from the local variables
    [total_processed], [total_successful], [total_failed], [total_emails]
    and [total_duplicates]. *)
Record stage3_stats : Type := Stage3Stats {
  total_processed : nat;
  total_successful : nat;
  total_failed : nat;
  total_emails : nat;
  total_duplicates : nat
}.

Definition s3_add_processed (c : stage3_stats) : stage3_stats :=
  Stage3Stats (S (total_processed c)) (total_successful c) (total_failed c)
    (total_emails c) (total_duplicates c).
Definition s3_add_successful (c : stage3_stats) : stage3_stats :=
  Stage3Stats (total_processed c) (S (total_successful c)) (total_failed c)
    (total_emails c) (total_duplicates c).
Definition s3_add_failed (c : stage3_stats) : stage3_stats :=
  Stage3Stats (total_processed c) (total_successful c) (S (total_failed c))
    (total_emails c) (total_duplicates c).
Definition s3_add_emails (c : stage3_stats) : stage3_stats :=
  Stage3Stats (total_processed c) (total_successful c) (total_failed c)
    (S (total_emails c)) (total_duplicates c).
Definition s3_add_duplicates (c : stage3_stats) : stage3_stats :=
  Stage3Stats (total_processed c) (total_successful c) (total_failed c)
    (total_emails c) (S (total_duplicates c)).

Section WithClients.
Context {W : Type}.
Variable bright : Brightdata W.
Variable supa : Supabase W.

(** The body of [for snap in snapshots] in [process_stage2]. *)
Definition stage2_body (snap : snapshot_dict) : action (W * stage2_stats) unit :=
  let snapshot_id := sd_snapshot_id snap in
  if negb (nonempty snapshot_id) then update s2_add_failed
  else
    try_except
      ('(data, is_running, is_valid, error_reason) ←
          call (get_snapshot_data bright snapshot_id);
       if negb is_valid && is_running then update s2_add_skipped
       else if Json.is_none data then update s2_add_failed
       else
         '(ok, err_type) ← call (save_response supa snapshot_id data);
         if (ok : bool) then
           _ ← call (mark_as_processed supa snapshot_id);
           update s2_add_successful
         else if String.eqb err_type "duplicate" then
           _ ← call (mark_as_processed supa snapshot_id);
           update s2_add_skipped
         else update s2_add_failed)
      (λ _, update s2_add_failed).

(** [process_stage2(bright, supa)]. *)
Definition process_stage2 : action W stage2_stats :=
  snapshots ← get_unprocessed_snapshots supa;
  let total := length snapshots in
  if (total =? 0)%nat then mret (Stage2Stats 0 0 0 0)
  else
    '(_, stats) ← with_locals (Stage2Stats total 0 0 0)
                     (for_each snapshots stage2_body);
    mret stats.

(** The body of [for email in emails] in [process_stage3]. *)
Definition stage3_email (email : string) : action (W * stage3_stats) unit :=
  '(ok, err) ← call (save_email supa email);
  if (ok : bool) then update s3_add_emails
  else if String.eqb err "duplicate" then update s3_add_duplicates
  else mret tt.

(** The body of [for row in rows] in [process_stage3]. *)
Definition stage3_body (row : response_dict) : action (W * stage3_stats) unit :=
  let snapshot_id := rd_snapshot_id row in
  let response_data := rd_response row in
  if negb (nonempty snapshot_id) || Json.is_none response_data then
    _ ← update s3_add_failed;
    update s3_add_processed
  else
    _ ← try_except
          (let emails := extract_emails_from_json response_data in
           _ ← for_each emails stage3_email;
           marked ← call (mark_email_extracted supa snapshot_id);
           if (marked : bool) then update s3_add_successful
           else update s3_add_failed)
          (λ _, update s3_add_failed);
    update s3_add_processed.

(** [while True] of [process_stage3], unrolled at most [fuel] times: how
    the loop ended, or [None] when it is still running after [fuel] pages,
    and in either case the state reached. *)
Fixpoint stage3_loop (batch_size : nat) (fuel : nat) (s : W * stage3_stats)
  : option (outcome unit) * (W * stage3_stats) :=
  match fuel with
  | O => (None, s)
  | S fuel' =>
      match call (get_unextracted_responses supa batch_size 0) s with
      | (Raises e, s') => (Some (Raises e), s')
      | (Returns rows, s') =>
          match rows with
          | [] => (Some (Returns tt), s')
          | _ :: _ =>
              match for_each rows stage3_body s' with
              | (Raises e, s'') => (Some (Raises e), s'')
              | (Returns _, s'') => stage3_loop batch_size fuel' s''
              end
          end
      end
  end.

(** [process_stage3(supa, batch_size)]: the dictionary it returns, or
    [None] while its loop has not ended, and the world reached. *)
Definition process_stage3 (batch_size : nat) (fuel : nat) (w : W)
  : option (outcome stage3_stats) * W :=
  match stage3_loop batch_size fuel (w, Stage3Stats 0 0 0 0 0) with
  | (None, (w', _)) => (None, w')
  | (Some (Returns _), (w', stats)) => (Some (Returns stats), w')
  | (Some (Raises e), (w', _)) => (Some (Raises e), w')
  end.

End WithClients.
End Worker.

(** ** [stage2_server.Stage2Service] *)

Module Stage2Service.

(** The counters of [self.stats] that [run_once] resets and updates. *)
Record run_stats : Type := RunStats {
  rs_processed : nat;
  rs_saved : nat;
  rs_skipped : nat;
  rs_failed : nat;
  rs_invalid : nat
}.

Definition add_processed (c : run_stats) : run_stats :=
  RunStats (S (rs_processed c)) (rs_saved c) (rs_skipped c) (rs_failed c) (rs_invalid c).
Definition add_saved (c : run_stats) : run_stats :=
  RunStats (rs_processed c) (S (rs_saved c)) (rs_skipped c) (rs_failed c) (rs_invalid c).
Definition add_skipped (c : run_stats) : run_stats :=
  RunStats (rs_processed c) (rs_saved c) (S (rs_skipped c)) (rs_failed c) (rs_invalid c).
Definition add_failed (c : run_stats) : run_stats :=
  RunStats (rs_processed c) (rs_saved c) (rs_skipped c) (S (rs_failed c)) (rs_invalid c).
Definition add_invalid (c : run_stats) : run_stats :=
  RunStats (rs_processed c) (rs_saved c) (rs_skipped c) (rs_failed c) (S (rs_invalid c)).

Section WithClients.
Context {W : Type}.
Variable bright : Brightdata W.
Variable supa : Supabase W.
(** [self._stop.is_set()], an event other threads may set. *)
Variable stop_is_set : action W bool.

(** The body of [for s in snapshots] below the stop test. *)
Definition run_once_body (s : snapshot_dict) : action (W * run_stats) unit :=
  let snapshot_id := sd_snapshot_id s in
  try_except
    ('(data, is_running, is_valid, error_reason) ←
        call (get_snapshot_data bright snapshot_id);
     _ ← update add_processed;
     if negb is_valid then update add_invalid
     else if negb (Json.truthy data) then update add_skipped
     else
       '(ok, err) ← call (save_response supa snapshot_id data);
       if (ok : bool) then
         _ ← call (mark_as_processed supa snapshot_id);
         update add_saved
       else if String.eqb err "duplicate" then
         _ ← call (mark_as_processed supa snapshot_id);
         update add_skipped
       else update add_failed)
    (λ _, update add_failed).

(** [for s in snapshots], left by [break] once the stop event is set. *)
Fixpoint run_once_loop (snapshots : list snapshot_dict)
  : action (W * run_stats) unit :=
  match snapshots with
  | [] => mret tt
  | s :: rest =>
      stop ← call stop_is_set;
      if (stop : bool) then mret tt
      else _ ← run_once_body s; run_once_loop rest
  end.

(** [run_once]: the counters of [self.stats] as the run leaves them (the
    two time stamps are left out). *)
Definition run_once : action W run_stats :=
  snapshots ← get_unprocessed_snapshots supa;
  '(_, stats) ← with_locals (RunStats 0 0 0 0 0) (run_once_loop snapshots);
  mret stats.

End WithClients.
End Stage2Service.

(** ** [app.py]: the deduplicator and the dashboard's retrieval pass *)

Module App.

(** The dictionary [filter_queries] returns. *)
Record filter_result : Type := FilterResult {
  total_uploaded : nat;
  duplicates_in_csv : nat;
  unique_in_csv : nat;
  new_queries : list string;
  existing_in_db : list string;
  new_count : nat;
  existing_count : nat
}.

(** The first loop of [filter_queries], from the current values of
    [unique_queries] and [seen]. *)
Fixpoint unique_loop (uploaded_queries : list string)
    (unique_queries : list string) (seen : gset string) : list string :=
  match uploaded_queries with
  | [] => unique_queries
  | query :: rest =>
      let query_lower := Str.strip (Str.lower query) in
      if nonempty query_lower && bool_decide (query_lower ∉ seen)
      then unique_loop rest (unique_queries ++ [query]) ({[query_lower]} ∪ seen)
      else unique_loop rest unique_queries seen
  end.

(** The second loop, from the current values of [new_queries] and
    [existing_in_db]. *)
Fixpoint split_loop (unique_queries existing_queries : list string)
    (new_queries existing_in_db : list string) : list string * list string :=
  match unique_queries with
  | [] => (new_queries, existing_in_db)
  | query :: rest =>
      let query_lower := Str.strip (Str.lower query) in
      if bool_decide (query_lower ∈ existing_queries)
      then split_loop rest existing_queries new_queries (existing_in_db ++ [query])
      else split_loop rest existing_queries (new_queries ++ [query]) existing_in_db
  end.

Definition filter_queries (uploaded_queries existing_queries : list string)
  : filter_result :=
  let unique_queries := unique_loop uploaded_queries [] ∅ in
  let '(new_queries, existing_in_db) :=
    split_loop unique_queries existing_queries [] [] in
  FilterResult
    (length uploaded_queries)
    (length uploaded_queries - length unique_queries)
    (length unique_queries)
    new_queries
    existing_in_db
    (length new_queries)
    (length existing_in_db).

(** The counters of the dictionary [process_unprocessed_snapshots]
    returns (its [message] text is for display only). *)
Record retrieval_stats : Type := RetrievalStats {
  total : nat;
  successful : nat;
  failed : nat;
  skipped : nat;
  db_errors : nat;
  duplicate_snapshots : nat;
  running_snapshots : nat;
  invalid_responses : nat
}.

Definition add_successful (c : retrieval_stats) : retrieval_stats :=
  RetrievalStats (total c) (S (successful c)) (failed c) (skipped c)
    (db_errors c) (duplicate_snapshots c) (running_snapshots c) (invalid_responses c).
Definition add_failed (c : retrieval_stats) : retrieval_stats :=
  RetrievalStats (total c) (successful c) (S (failed c)) (skipped c)
    (db_errors c) (duplicate_snapshots c) (running_snapshots c) (invalid_responses c).
Definition add_skipped (c : retrieval_stats) : retrieval_stats :=
  RetrievalStats (total c) (successful c) (failed c) (S (skipped c))
    (db_errors c) (duplicate_snapshots c) (running_snapshots c) (invalid_responses c).
Definition add_db_errors (c : retrieval_stats) : retrieval_stats :=
  RetrievalStats (total c) (successful c) (failed c) (skipped c)
    (S (db_errors c)) (duplicate_snapshots c) (running_snapshots c) (invalid_responses c).
Definition add_duplicate_snapshots (c : retrieval_stats) : retrieval_stats :=
  RetrievalStats (total c) (successful c) (failed c) (skipped c)
    (db_errors c) (S (duplicate_snapshots c)) (running_snapshots c) (invalid_responses c).
Definition add_running_snapshots (c : retrieval_stats) : retrieval_stats :=
  RetrievalStats (total c) (successful c) (failed c) (skipped c)
    (db_errors c) (duplicate_snapshots c) (S (running_snapshots c)) (invalid_responses c).
Definition add_invalid_responses (c : retrieval_stats) : retrieval_stats :=
  RetrievalStats (total c) (successful c) (failed c) (skipped c)
    (db_errors c) (duplicate_snapshots c) (running_snapshots c) (S (invalid_responses c)).

(** The local variables of [process_all_responses_for_emails]: the
    totals it returns (keys [total], [successful], [failed],
    [total_emails], [duplicate_emails], [db_errors]) and the three counters
    of the page at hand. *)
Record extraction_locals : Type := ExtractionLocals {
  x_total_processed : nat;
  x_total_successful : nat;
  x_total_failed : nat;
  x_total_emails_extracted : nat;
  x_total_db_errors : nat;
  x_total_duplicate_emails : nat;
  x_batch_emails : nat;
  x_batch_duplicates : nat;
  x_batch_errors : nat
}.

Definition x_add_processed (l : extraction_locals) : extraction_locals :=
  ExtractionLocals (S (x_total_processed l)) (x_total_successful l)
    (x_total_failed l) (x_total_emails_extracted l) (x_total_db_errors l)
    (x_total_duplicate_emails l) (x_batch_emails l) (x_batch_duplicates l)
    (x_batch_errors l).
Definition x_add_successful (l : extraction_locals) : extraction_locals :=
  ExtractionLocals (x_total_processed l) (S (x_total_successful l))
    (x_total_failed l) (x_total_emails_extracted l) (x_total_db_errors l)
    (x_total_duplicate_emails l) (x_batch_emails l) (x_batch_duplicates l)
    (x_batch_errors l).
Definition x_add_failed (l : extraction_locals) : extraction_locals :=
  ExtractionLocals (x_total_processed l) (x_total_successful l)
    (S (x_total_failed l)) (x_total_emails_extracted l) (x_total_db_errors l)
    (x_total_duplicate_emails l) (x_batch_emails l) (x_batch_duplicates l)
    (x_batch_errors l).
Definition x_add_batch_emails (l : extraction_locals) : extraction_locals :=
  ExtractionLocals (x_total_processed l) (x_total_successful l)
    (x_total_failed l) (x_total_emails_extracted l) (x_total_db_errors l)
    (x_total_duplicate_emails l) (S (x_batch_emails l)) (x_batch_duplicates l)
    (x_batch_errors l).
Definition x_add_batch_duplicates (l : extraction_locals) : extraction_locals :=
  ExtractionLocals (x_total_processed l) (x_total_successful l)
    (x_total_failed l) (x_total_emails_extracted l) (x_total_db_errors l)
    (x_total_duplicate_emails l) (x_batch_emails l) (S (x_batch_duplicates l))
    (x_batch_errors l).
Definition x_add_batch_errors (l : extraction_locals) : extraction_locals :=
  ExtractionLocals (x_total_processed l) (x_total_successful l)
    (x_total_failed l) (x_total_emails_extracted l) (x_total_db_errors l)
    (x_total_duplicate_emails l) (x_batch_emails l) (x_batch_duplicates l)
    (S (x_batch_errors l)).
(** The three counters of a new page start at zero. *)
Definition x_new_batch (l : extraction_locals) : extraction_locals :=
  ExtractionLocals (x_total_processed l) (x_total_successful l)
    (x_total_failed l) (x_total_emails_extracted l) (x_total_db_errors l)
    (x_total_duplicate_emails l) 0 0 0.
(** "Update totals" at the end of a page. *)
Definition x_update_totals (l : extraction_locals) : extraction_locals :=
  ExtractionLocals (x_total_processed l) (x_total_successful l)
    (x_total_failed l)
    (x_total_emails_extracted l + x_batch_emails l)
    (x_total_db_errors l + x_batch_errors l)
    (x_total_duplicate_emails l + x_batch_duplicates l)
    (x_batch_emails l) (x_batch_duplicates l) (x_batch_errors l).

Section WithClients.
Context {W : Type}.
Variable bright : Brightdata W.
Variable supa : Supabase W.

(** The body of [for idx, snapshot_data in enumerate(snapshots)]: the
    [try] block either leaves the payload to work on or has the loop
    [continue]. *)
Definition snapshot_body (snapshot_data : snapshot_dict)
  : action (W * retrieval_stats) unit :=
  let snapshot_id := sd_snapshot_id snapshot_data in
  retrieved ←
    try_except
      ('(data, is_running, is_valid, error_reason) ←
          call (get_snapshot_data bright snapshot_id);
       if negb is_valid then
         _ ← update add_invalid_responses;
         _ ← (if (is_running : bool) then update add_running_snapshots
              else mret tt);
         mret None
       else mret (Some data))
      (λ _, _ ← update add_failed; mret None);
  match retrieved with
  | None => mret tt
  | Some data =>
      if Json.truthy data then
        '(save_success, error_type) ← call (save_response supa snapshot_id data);
        if (save_success : bool) then
          marked ← call (mark_as_processed supa snapshot_id);
          if (marked : bool) then update add_successful
          else _ ← update add_failed; update add_db_errors
        else if String.eqb error_type "duplicate" then
          _ ← update add_duplicate_snapshots;
          _ ← call (mark_as_processed supa snapshot_id);
          mret tt
        else _ ← update add_failed; update add_db_errors
      else update add_skipped
  end.

(** [process_unprocessed_snapshots], from the point where the clients
    are set up: the counters of the dictionary it returns, all zero when
    nothing is pending or when an exception reached the outer handler. *)
Definition process_unprocessed_snapshots : action W retrieval_stats :=
  try_except
    (snapshots ← get_unprocessed_snapshots supa;
     match snapshots with
     | [] => mret (RetrievalStats 0 0 0 0 0 0 0 0)
     | _ :: _ =>
         '(_, stats) ← with_locals (RetrievalStats (length snapshots) 0 0 0 0 0 0 0)
                          (for_each snapshots snapshot_body);
         mret stats
     end)
    (λ _, mret (RetrievalStats 0 0 0 0 0 0 0 0)).

(** The body of [for email in emails] in
    [process_all_responses_for_emails]. *)
Definition extraction_email (email : string)
  : action (W * extraction_locals) unit :=
  '(success, error_type) ← call (save_email supa email);
  if (success : bool) then update x_add_batch_emails
  else if String.eqb error_type "duplicate" then update x_add_batch_duplicates
  else update x_add_batch_errors.

(** The body of [for idx, row in enumerate(rows)]. *)
Definition extraction_row (row : response_dict)
  : action (W * extraction_locals) unit :=
  let snapshot_id := rd_snapshot_id row in
  let response_data := rd_response row in
  if negb (nonempty snapshot_id) || negb (Json.truthy response_data) then
    _ ← update x_add_failed;
    update x_add_batch_errors
  else
    let emails := extract_emails_from_json response_data in
    _ ← for_each emails extraction_email;
    marked ← call (mark_email_extracted supa snapshot_id);
    _ ← (if (marked : bool) then update x_add_successful
         else _ ← update x_add_failed; update x_add_batch_errors);
    update x_add_processed.

(** [for batch_num in range(num_batches)], with its [break] on an empty
    page: at most [num_batches] pages. *)
Fixpoint extraction_batches (num_batches : nat)
  : action (W * extraction_locals) unit :=
  match num_batches with
  | O => mret tt
  | S remaining =>
      rows ← call (get_unextracted_responses supa 20 0);
      match rows with
      | [] => mret tt
      | _ :: _ =>
          _ ← update x_new_batch;
          _ ← for_each rows extraction_row;
          _ ← update x_update_totals;
          extraction_batches remaining
      end
  end.

(** [process_all_responses_for_emails(total_count)]: the final values of
    its local variables, all zero when an exception was caught. *)
Definition process_all_responses_for_emails (total_count : nat)
  : action W extraction_locals :=
  try_except
    (let num_batches := ((total_count + 20 - 1) / 20)%nat in
     '(_, stats) ← with_locals (ExtractionLocals 0 0 0 0 0 0 0 0 0)
                      (extraction_batches num_batches);
     mret stats)
    (λ _, mret (ExtractionLocals 0 0 0 0 0 0 0 0 0)).

End WithClients.
End App.

(** ** [email_scraper.EmailScraperEngine] *)

Module EmailScraperEngine.

(** The dictionary [process_queries] returns. *)
Record statistics : Type := Statistics {
  total_queries : nat;
  successful_snapshots : nat;
  failed_batches : nat;
  total_batches : nat;
  submitted_ids : list string;
  snapshot_query_map : gmap string (list string)
}.

(** [range(start, stop, step)] for a positive [step], at most [fuel]
    elements of it. *)
Fixpoint range_from (fuel start stop step : nat) : list nat :=
  match fuel with
  | O => []
  | S fuel' =>
      if (start <? stop)%nat
      then start :: range_from fuel' (start + step) stop step
      else []
  end.

(** [range(0, stop, step)] for a non-zero [step]: empty when the step is
    negative; with a positive step it has no more than [stop] elements. *)
Definition range0 (stop : nat) (step : Z) : list nat :=
  if (step <? 0)%Z then [] else range_from stop 0 stop (Z.to_nat step).

Section WithClients.
Context {W : Type}.
Variable brightdata : Brightdata W.
Variable supabase : Supabase W.

Definition count_batch (c : statistics) : statistics :=
  Statistics (total_queries c) (successful_snapshots c) (failed_batches c)
    (S (total_batches c)) (submitted_ids c) (snapshot_query_map c).
Definition count_failed (c : statistics) : statistics :=
  Statistics (total_queries c) (successful_snapshots c) (S (failed_batches c))
    (total_batches c) (submitted_ids c) (snapshot_query_map c).
Definition record_snapshot (snapshot_id : string) (batch : list string)
    (c : statistics) : statistics :=
  Statistics (total_queries c) (S (successful_snapshots c)) (failed_batches c)
    (total_batches c) (submitted_ids c ++ [snapshot_id])
    (<[snapshot_id := batch]> (snapshot_query_map c)).

(** The body of [for i in range(0, total_queries, batch_size)]. *)
Definition batch_body (queries : list string) (batch_size : nat) (i : nat)
  : action (W * statistics) unit :=
  _ ← update count_batch;
  let batch := take batch_size (drop i queries) in
  response ← call (send_request brightdata batch);
  match response ≫= (λ fields : gmap string string, fields !! "snapshot_id") with
  | Some snapshot_id =>
      saved ← call (save_snapshot supabase snapshot_id batch);
      if (saved : bool) then update (record_snapshot snapshot_id batch)
      else update count_failed
  | None => update count_failed
  end.

(** [process_queries(queries, batch_size)]; a zero [batch_size] has
    [range] raise before anything is submitted. *)
Definition process_queries (queries : list string) (batch_size : Z)
  : action W statistics :=
  let total_queries := length queries in
  if (batch_size =? 0)%Z
  then λ w, (Raises "range() arg 3 must not be zero", w)
  else
    '(_, stats) ← with_locals (Statistics total_queries 0 0 0 [] ∅)
                     (for_each (range0 total_queries batch_size)
                        (batch_body queries (Z.to_nat batch_size)));
    mret stats.

End WithClients.
End EmailScraperEngine.

(** ** The validator's rules as the specification words them *)

Definition has_running_marker (data_str : string) : bool :=
  Str.contains BrightdataClient.status_running_compact data_str
  || Str.contains BrightdataClient.status_running_spaced data_str.

Definition has_error_indicator (data_str : string) : bool :=
  Str.contains "error" (Str.lower data_str).

(** The three rules of the specification, in their order, on the
    serialized payload. *)
Definition classify_by_rules (data_str : string) : classification :=
  if has_running_marker data_str then StillProcessing
  else if has_error_indicator data_str
          && (Str.utf8_length data_str <? 2000)%nat
       then InvalidError
  else Valid.

(** An error envelope whose serialization has [13 + n] bytes. *)
Definition error_envelope (n : nat) : json :=
  JObj [("error", JStr (Str.repeat "x" n))].

(** The text [get_snapshot_data] gives as reason for a small payload with
    an error indicator. *)
Definition small_error_reason (response_size : nat) : string :=
  "Contains error and size < 2000 bytes (actual: "
    +:+ Str.of_nat response_size +:+ ")".

(** ** The deduplicator's notions as the specification words them *)

(** The form under which two queries are compared: lower-cased, then
    trimmed. *)
Definition normalize (query : string) : string := Str.strip (Str.lower query).

(** The entries of [queries] that are not blank and whose normalized form
    is not in [seen] nor carried by an earlier entry: first occurrences, in
    their order and as they were typed. *)
Fixpoint first_occurrences (seen : gset string) (queries : list string)
  : list string :=
  match queries with
  | [] => []
  | query :: rest =>
      if nonempty (normalize query) && bool_decide (normalize query ∉ seen)
      then query :: first_occurrences ({[normalize query]} ∪ seen) rest
      else first_occurrences seen rest
  end.

(** ** Observing the calls a pass makes

    A client over a world [W] also is a client over [W] paired with a
    record of calls; the recording clients below run the same methods and
    note what was asked and answered. *)

Definition lift_supabase {W L} (supa : Supabase W) : Supabase (W * L) :=
  MkSupabase (W * L)
    (λ snapshot_id queries, call (save_snapshot supa snapshot_id queries))
    (call (get_all_existing_queries supa))
    (call (get_unprocessed_snapshots supa))
    (λ snapshot_id, call (mark_as_processed supa snapshot_id))
    (λ email, call (save_email supa email))
    (λ snapshot_id data, call (save_response supa snapshot_id data))
    (λ limit offset, call (get_unextracted_responses supa limit offset))
    (call (count_unextracted_responses supa))
    (λ snapshot_id, call (mark_email_extracted supa snapshot_id)).

(** One call of [get_unextracted_responses]: the limit and the offset
    asked for, and the rows handed back. *)
Record fetch : Type := Fetch {
  fetch_limit : nat;
  fetch_offset : nat;
  fetch_rows : list response_dict
}.

(** [supa], noting every page it hands out. *)
Definition recording_fetches {W} (supa : Supabase W)
  : Supabase (W * list fetch) :=
  MkSupabase (W * list fetch)
    (λ snapshot_id queries, call (save_snapshot supa snapshot_id queries))
    (call (get_all_existing_queries supa))
    (call (get_unprocessed_snapshots supa))
    (λ snapshot_id, call (mark_as_processed supa snapshot_id))
    (λ email, call (save_email supa email))
    (λ snapshot_id data, call (save_response supa snapshot_id data))
    (λ limit offset,
       rows ← call (get_unextracted_responses supa limit offset);
       _ ← update (λ log, log ++ [Fetch limit offset rows]);
       mret rows)
    (call (count_unextracted_responses supa))
    (λ snapshot_id, call (mark_email_extracted supa snapshot_id)).

(** [bright], noting the keywords of every submission. *)
Definition recording_submissions {W} (bright : Brightdata W)
  : Brightdata (W * list (list string)) :=
  MkBrightdata (W * list (list string))
    (λ snapshot_id, call (get_snapshot_data bright snapshot_id))
    (λ keywords,
       _ ← update (λ log, log ++ [keywords]);
       call (send_request bright keywords)).

(** ** Batch submission as the specification words it *)

(** The number of chunks of at most [b] that [n] items make. *)
Definition ceil_div (n b : nat) : nat := ((n + b - 1) / b)%nat.

(** A client method that returns whatever the world: it never raises. *)
Definition returns {W A} (m : action W A) : Prop :=
  ∀ w, ∃ a w', m w = (Returns a, w').

(** The chunks [process_queries] slices out of [queries]: one per start
    index of its [range]. *)
Definition batches (queries : list string) (batch_size : Z) : list (list string) :=
  (λ i, take (Z.to_nat batch_size) (drop i queries))
    <$> EmailScraperEngine.range0 (length queries) batch_size.

(** The scenario of the specification: five queries in batches of two,
    where the service refuses the second batch and answers the others with
    an identifier made from the first query of the batch.  The store is
    empty and never fails. *)
Definition scenario_queries : list string := ["q1"; "q2"; "q3"; "q4"; "q5"].

Definition scenario_env : Env :=
  MkEnv
    (λ _ _, HttpRequestException "not asked")
    (λ _ keywords,
       if bool_decide (keywords = ["q3"; "q4"])
       then HttpRequestException "503 Server Error"
       else HttpBody {["snapshot_id" := "snap-" +:+ default EmptyString (head keywords)]})
    (λ _ _, None).

Definition empty_world : World := MkWorld (MkStore [] [] []) 0.

(** The same five queries with a service that answers the second batch
    with a JSON array instead of an object: [send_request] then fails on
    [result.get] with an [AttributeError], which is neither of the two
    exceptions it catches.  The store is empty and never fails. *)
Definition crashing_env : Env :=
  MkEnv
    (λ _ _, HttpRequestException "not asked")
    (λ _ keywords,
       if bool_decide (keywords = ["q3"; "q4"])
       then HttpOtherException "'list' object has no attribute 'get'"
       else HttpBody {["snapshot_id" := "snap-" +:+ default EmptyString (head keywords)]})
    (λ _ _, None).

(** The specification's sentence on batch submission, read on
    [process_queries] run from the world [w]: it returns statistics whose
    [total_batches] is the rounded-up quotient of the number of queries by
    the batch size, and in which every batch is a snapshot or a failed
    batch. *)
Definition batch_submission_as_stated {W : Type} (bright : Brightdata W)
    (supa : Supabase W) (queries : list string) (batch_size : Z) (w : W) : Prop :=
  ∃ stats w',
    EmailScraperEngine.process_queries bright supa queries batch_size w
    = (Returns stats, w')
    ∧ EmailScraperEngine.total_batches stats
      = ceil_div (length queries) (Z.to_nat batch_size)
    ∧ (EmailScraperEngine.successful_snapshots stats
       + EmailScraperEngine.failed_batches stats
       = EmailScraperEngine.total_batches stats)%nat.

(** ** Worlds the retrieval passes are run on below *)

(** A store that never fails of its own, and a service that answers every
    retrieval with [payload]. *)
Definition answering (payload : json) : Env :=
  MkEnv (λ _ _, HttpBody payload)
        (λ _ _, HttpRequestException "not asked")
        (λ _ _, None).

(** The small envelope the service sends for a failed job. *)
Definition failure_envelope : json :=
  JObj [("error", JStr "Snapshot does not exist")].

(** A payload with results in it. *)
Definition results_payload : json :=
  JArr [JObj [("keyword", JStr "pizza"); ("contact", JStr "info@pizza.example")]].

(** One pending snapshot and no response yet. *)
Definition pending_world : World :=
  MkWorld (MkStore [SnapshotRow "s1" ["q1"; "q2"] false] [] []) 0.

(** One pending snapshot whose response is in the store already. *)
Definition stored_world : World :=
  MkWorld (MkStore [SnapshotRow "s1" ["q1"; "q2"] false]
                   [ResponseRow "s1" results_payload false] []) 0.

(** A stop event nobody sets. *)
Definition never_stopped : action World bool := λ w, (Returns false, w).

(** The snapshot [id] has a row, and every row of it is marked processed. *)
Definition is_processed (id : string) (st : Store) : bool :=
  existsb (λ r, String.eqb (snapshot_id r) id) (snapshot_table st)
  && forallb (λ r, implb (String.eqb (snapshot_id r) id) (processed r))
       (snapshot_table st).

(** ** Notions for the extraction pass *)

(** A fetched row the pass works on rather than skips: it has an
    identifier and a response. *)
Definition well_formed (d : response_dict) : bool :=
  nonempty (rd_snapshot_id d) && negb (Json.is_none (rd_response d)).

Definition as_dict (r : response_row) : response_dict :=
  ResponseDict (response_snapshot_id r) (response r).

(** The response table after the rows under the identifiers [ids] have
    been marked extracted. *)
Definition mark_ids (ids : list string) (table : list response_row)
  : list response_row :=
  (λ r, if bool_decide (response_snapshot_id r ∈ ids)
        then ResponseRow (response_snapshot_id r) (response r) true
        else r) <$> table.

(** ** Worlds the extraction pass is run on below *)

(** A store that answers every statement except the update of the
    extracted flag, which it refuses each time. *)
Definition denying_updates : Env :=
  MkEnv (λ _ _, HttpRequestException "not asked")
        (λ _ _, HttpRequestException "not asked")
        (λ _ req,
           match req with
           | UpdateExtracted _ => Some "permission denied for table response_table"
           | _ => None
           end).

(** One response to extract, with no address in it. *)
Definition unmarkable_world : World :=
  MkWorld (MkStore [] [ResponseRow "s1" (JObj [("keyword", JStr "pizza")]) false] []) 0.

(** One response row whose payload is null. *)
Definition null_row_world : World :=
  MkWorld (MkStore [] [ResponseRow "s1" JNull false] []) 0.

(** Every response row under the identifier [id] is marked extracted. *)
Definition extracted_in (id : string) (table : list response_row) : Prop :=
  Forall (λ r, response_snapshot_id r = id → is_email_extracted r = true) table.

(** A fetch as the extraction pass makes them: from offset zero, for at
    most [batch_size] rows, and handing out no row under [id]. *)
Definition page_without (batch_size : nat) (id : string) (f : fetch) : Prop :=
  fetch_offset f = 0%nat
  ∧ fetch_limit f = batch_size
  ∧ (length (fetch_rows f) ≤ batch_size)%nat
  ∧ Forall (λ d, rd_snapshot_id d ≠ id) (fetch_rows f).

(** Unfolding of the monadic operations and of a store statement. *)
Ltac unfold_action :=
  unfold mbind, action_bind, mret, action_ret, try_except, call, update,
    SupabaseClient.execute.


(** ** [stage3_server.Stage3Service] *)

Module Stage3Service.

(** The counters of [self.stats] that [run_once] resets and updates. *)
Record run_stats : Type := RunStats {
  rows_processed : nat;
  emails_saved : nat;
  duplicates : nat;
  failed : nat
}.

Definition add_rows_processed (c : run_stats) : run_stats :=
  RunStats (S (rows_processed c)) (emails_saved c) (duplicates c) (failed c).
Definition add_emails_saved (c : run_stats) : run_stats :=
  RunStats (rows_processed c) (S (emails_saved c)) (duplicates c) (failed c).
Definition add_duplicates (c : run_stats) : run_stats :=
  RunStats (rows_processed c) (emails_saved c) (S (duplicates c)) (failed c).
Definition add_failed (c : run_stats) : run_stats :=
  RunStats (rows_processed c) (emails_saved c) (duplicates c) (S (failed c)).

Section WithClients.
Context {W : Type}.
Variable supa : Supabase W.
(** [self._stop.is_set()], an event other threads may set. *)
Variable stop_is_set : action W bool.

(** The body of [for email in emails]. *)
Definition run_once_email (email : string) : action (W * run_stats) unit :=
  '(ok, err) ← call (save_email supa email);
  if (ok : bool) then update add_emails_saved
  else if String.eqb err "duplicate" then update add_duplicates
  else update add_failed.

(** The body of [for row in rows] below the stop test. *)
Definition run_once_body (row : response_dict) : action (W * run_stats) unit :=
  let snapshot_id := rd_snapshot_id row in
  let response_data := rd_response row in
  try_except
    (let emails :=
       if Json.truthy response_data
       then extract_emails_from_json response_data
       else [] in
     _ ← for_each emails run_once_email;
     marked ← call (mark_email_extracted supa snapshot_id);
     if (marked : bool) then update add_rows_processed
     else update add_failed)
    (λ _, update add_failed).

(** [for row in rows], left by [break] once the stop event is set. *)
Fixpoint run_once_loop (rows : list response_dict)
  : action (W * run_stats) unit :=
  match rows with
  | [] => mret tt
  | row :: rest =>
      stop ← call stop_is_set;
      if (stop : bool) then mret tt
      else _ ← run_once_body row; run_once_loop rest
  end.

(** [run_once(batch_size)]: the counters of [self.stats] as the run
    leaves them (the two time stamps are left out). *)
Definition run_once (batch_size : nat) : action W run_stats :=
  rows ← get_unextracted_responses supa batch_size 0;
  '(_, stats) ← with_locals (RunStats 0 0 0 0) (run_once_loop rows);
  mret stats.

(** [for _ in range(interval_seconds)]: the wait between two runs, left
    once the stop event is set. *)
Fixpoint wait (interval_seconds : nat) : action W unit :=
  match interval_seconds with
  | O => mret tt
  | S remaining =>
      stop ← stop_is_set;
      if (stop : bool) then mret tt else wait remaining
  end.

(** [loop(interval_seconds, batch_size)]: [while not self._stop.is_set()],
    unrolled at most [fuel] times; how the loop ended, or [None] when it is
    still running after [fuel] runs, and the world reached. *)
Fixpoint loop (interval_seconds batch_size : nat) (fuel : nat) (w : W)
  : option (outcome unit) * W :=
  match fuel with
  | O => (None, w)
  | S fuel' =>
      match stop_is_set w with
      | (Raises e, w1) => (Some (Raises e), w1)
      | (Returns true, w1) => (Some (Returns tt), w1)
      | (Returns false, w1) =>
          match (_ ← run_once batch_size; wait interval_seconds) w1 with
          | (Raises e, w2) => (Some (Raises e), w2)
          | (Returns _, w2) => loop interval_seconds batch_size fuel' w2
          end
      end
  end.

End WithClients.
End Stage3Service.

(** ** [worker.validate_env] *)

Module WorkerEnv.

(** [not v] for what [os.getenv] returns. *)
Definition unset (v : option string) : bool :=
  match v with
  | None => true
  | Some s => negb (nonempty s)
  end.

(** [sep.join(items)]. *)
Fixpoint join (sep : string) (items : list string) : string :=
  match items with
  | [] => EmptyString
  | [item] => item
  | item :: rest => item +:+ sep +:+ join sep rest
  end.

(** [[k for k, v in required.items() if not v]]. *)
Definition missing_keys (required : list (string * option string)) : list string :=
  fst <$> List.filter (λ kv, unset (snd kv)) required.

Definition validate_env (getenv : string → option string) : bool * string :=
  let required :=
    [("BRIGHTDATA_URL", getenv "BRIGHTDATA_URL");
     ("SUPABASE_URL", getenv "SUPABASE_URL");
     ("SUPABASE_KEY", getenv "SUPABASE_KEY");
     ("BRIGHTDATA_API_KEY", getenv "BRIGHTDATA_API_KEY")] in
  let missing := missing_keys required in
  match missing with
  | _ :: _ => (false, "Missing env vars: " +:+ join ", " missing)
  | [] => (true, "ok")
  end.

End WorkerEnv.

(** ** [app.py]: the environment check, the CSV loader, the automated
    pipeline and the former extraction pass *)

Module Dashboard.

Definition validate_environment (getenv : string → option string)
  : bool * string :=
  let required_vars :=
    [("BRIGHTDATA_URL", getenv "BRIGHTDATA_URL");
     ("SUPABASE_URL", getenv "SUPABASE_URL");
     ("SUPABASE_KEY", getenv "SUPABASE_KEY")] in
  let missing := WorkerEnv.missing_keys required_vars in
  match missing with
  | _ :: _ =>
      (false, "Missing environment variables: " +:+ WorkerEnv.join ", " missing)
  | [] => (true, "All environment variables configured")
  end.

(** The loop of [load_csv_queries] over the rows after the header. *)
Fixpoint first_cells (rows : list (list string)) : list string :=
  match rows with
  | [] => []
  | row :: rest =>
      match row with
      | [] => first_cells rest
      | cell :: _ =>
          let query := Str.strip cell in
          if nonempty query then query :: first_cells rest
          else first_cells rest
      end
  end.

(** [load_csv_queries] on what decoding the file and reading it as CSV
    yield: the rows, or [None] when either raises.  On a file without any
    row, skipping the header raises; every exception gives the empty
    list. *)
Definition load_csv_queries (csv_rows : option (list (list string)))
  : list string :=
  match csv_rows with
  | None => []
  | Some [] => []
  | Some (_ :: rows) => first_cells rows
  end.

(** The local variables of [process_responses_for_emails] and the counters
    of the dictionary it returns ([total], [successful], [failed],
    [total_emails], [db_errors], [duplicate_emails]). *)
Record legacy_stats : Type := LegacyStats {
  l_total : nat;
  l_successful : nat;
  l_failed : nat;
  l_total_emails_extracted : nat;
  l_db_errors : nat;
  l_duplicate_emails : nat
}.

Definition l_add_successful (c : legacy_stats) : legacy_stats :=
  LegacyStats (l_total c) (S (l_successful c)) (l_failed c)
    (l_total_emails_extracted c) (l_db_errors c) (l_duplicate_emails c).
Definition l_add_failed (c : legacy_stats) : legacy_stats :=
  LegacyStats (l_total c) (l_successful c) (S (l_failed c))
    (l_total_emails_extracted c) (l_db_errors c) (l_duplicate_emails c).
Definition l_add_emails (c : legacy_stats) : legacy_stats :=
  LegacyStats (l_total c) (l_successful c) (l_failed c)
    (S (l_total_emails_extracted c)) (l_db_errors c) (l_duplicate_emails c).
Definition l_add_db_errors (c : legacy_stats) : legacy_stats :=
  LegacyStats (l_total c) (l_successful c) (l_failed c)
    (l_total_emails_extracted c) (S (l_db_errors c)) (l_duplicate_emails c).
Definition l_add_duplicates (c : legacy_stats) : legacy_stats :=
  LegacyStats (l_total c) (l_successful c) (l_failed c)
    (l_total_emails_extracted c) (l_db_errors c) (S (l_duplicate_emails c)).

(** The counters of the automated pipeline's retrieval stage ([total],
    [successful], [failed], [skipped], [invalid_responses]). *)
Record pipeline_stage2 : Type := PipelineStage2 {
  p2_total : nat;
  p2_successful : nat;
  p2_failed : nat;
  p2_skipped : nat;
  p2_invalid_responses : nat
}.

Definition p2_add_successful (c : pipeline_stage2) : pipeline_stage2 :=
  PipelineStage2 (p2_total c) (S (p2_successful c)) (p2_failed c)
    (p2_skipped c) (p2_invalid_responses c).
Definition p2_add_failed (c : pipeline_stage2) : pipeline_stage2 :=
  PipelineStage2 (p2_total c) (p2_successful c) (S (p2_failed c))
    (p2_skipped c) (p2_invalid_responses c).
Definition p2_add_skipped (c : pipeline_stage2) : pipeline_stage2 :=
  PipelineStage2 (p2_total c) (p2_successful c) (p2_failed c)
    (S (p2_skipped c)) (p2_invalid_responses c).
Definition p2_add_invalid (c : pipeline_stage2) : pipeline_stage2 :=
  PipelineStage2 (p2_total c) (p2_successful c) (p2_failed c)
    (p2_skipped c) (S (p2_invalid_responses c)).

(** The counters of the automated pipeline's extraction stage ([total],
    [successful], [failed], [total_emails], [duplicate_emails]). *)
Record pipeline_stage3 : Type := PipelineStage3 {
  p3_total_processed : nat;
  p3_total_successful : nat;
  p3_total_failed : nat;
  p3_total_emails_extracted : nat;
  p3_total_duplicate_emails : nat
}.

Definition p3_add_processed (n : nat) (c : pipeline_stage3) : pipeline_stage3 :=
  PipelineStage3 (p3_total_processed c + n) (p3_total_successful c)
    (p3_total_failed c) (p3_total_emails_extracted c)
    (p3_total_duplicate_emails c).
Definition p3_add_successful (c : pipeline_stage3) : pipeline_stage3 :=
  PipelineStage3 (p3_total_processed c) (S (p3_total_successful c))
    (p3_total_failed c) (p3_total_emails_extracted c)
    (p3_total_duplicate_emails c).
Definition p3_add_failed (c : pipeline_stage3) : pipeline_stage3 :=
  PipelineStage3 (p3_total_processed c) (p3_total_successful c)
    (S (p3_total_failed c)) (p3_total_emails_extracted c)
    (p3_total_duplicate_emails c).
Definition p3_add_emails (c : pipeline_stage3) : pipeline_stage3 :=
  PipelineStage3 (p3_total_processed c) (p3_total_successful c)
    (p3_total_failed c) (S (p3_total_emails_extracted c))
    (p3_total_duplicate_emails c).
Definition p3_add_duplicates (c : pipeline_stage3) : pipeline_stage3 :=
  PipelineStage3 (p3_total_processed c) (p3_total_successful c)
    (p3_total_failed c) (p3_total_emails_extracted c)
    (S (p3_total_duplicate_emails c)).

Definition MAX_POLL_ATTEMPTS : nat := 20.

Section WithClients.
Context {W : Type}.
Variable brightdata_client : Brightdata W.
Variable supabase_client : Supabase W.

(** The first loop of [process_responses_for_emails], over the offsets
    [range(0, batch_size, 20)]: the rows gathered in [all_rows], with the
    [break] after a page shorter than asked for. *)
Fixpoint fetch_sub_batches (offsets : list nat) (batch_size : nat)
    (all_rows : list response_dict) : action W (list response_dict) :=
  match offsets with
  | [] => mret all_rows
  | offset :: rest =>
      let current_limit := Nat.min 20 (batch_size - offset) in
      rows_batch ← get_unextracted_responses supabase_client current_limit offset;
      let all_rows := all_rows ++ rows_batch in
      if (length rows_batch <? current_limit)%nat then mret all_rows
      else fetch_sub_batches rest batch_size all_rows
  end.

(** The body of [for email in emails] in [process_responses_for_emails]. *)
Definition legacy_email (email : string) : action (W * legacy_stats) unit :=
  '(success, error_type) ← call (save_email supabase_client email);
  if (success : bool) then update l_add_emails
  else if String.eqb error_type "duplicate" then update l_add_duplicates
  else update l_add_db_errors.

(** The body of [for idx, row in enumerate(rows)]. *)
Definition legacy_row (row : response_dict) : action (W * legacy_stats) unit :=
  let response_data := rd_response row in
  let emails := extract_emails_from_json response_data in
  _ ← for_each emails legacy_email;
  marked ← call (mark_email_extracted supabase_client (rd_snapshot_id row));
  if (marked : bool) then update l_add_successful
  else _ ← update l_add_failed; update l_add_db_errors.

(** [process_responses_for_emails(batch_size)]: the counters of the
    dictionary it returns, all zero when nothing was fetched or when an
    exception reached the handler. *)
Definition process_responses_for_emails (batch_size : nat)
  : action W legacy_stats :=
  try_except
    (rows ← fetch_sub_batches
               (EmailScraperEngine.range_from batch_size 0 batch_size 20)
               batch_size [];
     match rows with
     | [] => mret (LegacyStats 0 0 0 0 0 0)
     | _ :: _ =>
         '(_, stats) ← with_locals (LegacyStats (length rows) 0 0 0 0 0)
                          (for_each rows legacy_row);
         mret stats
     end)
    (λ _, mret (LegacyStats 0 0 0 0 0 0)).

(** [while poll_attempt < MAX_POLL_ATTEMPTS] of the automated pipeline,
    with [remaining] attempts to go: the final value of [poll_attempt]. *)
Fixpoint poll (remaining : nat) (poll_attempt : nat) : action W nat :=
  match remaining with
  | O => mret poll_attempt
  | S remaining' =>
      let poll_attempt := S poll_attempt in
      unprocessed ← get_unprocessed_snapshots supabase_client;
      match unprocessed with
      | [] => poll remaining' poll_attempt
      | first :: _ =>
          '(data, is_running, is_valid, error_reason) ←
             get_snapshot_data brightdata_client (sd_snapshot_id first);
          if (is_valid : bool) then mret poll_attempt
          else poll remaining' poll_attempt
      end
  end.

(** The body of the retrieval loop of the automated pipeline. *)
Definition pipeline_snapshot (snapshot_data : snapshot_dict)
  : action (W * pipeline_stage2) unit :=
  let snapshot_id := sd_snapshot_id snapshot_data in
  try_except
    ('(data, is_running, is_valid, error_reason) ←
        call (get_snapshot_data brightdata_client snapshot_id);
     if negb is_valid then update p2_add_invalid
     else if Json.truthy data then
       '(save_success, error_type) ←
          call (save_response supabase_client snapshot_id data);
       if (save_success : bool) then
         _ ← call (mark_as_processed supabase_client snapshot_id);
         update p2_add_successful
       else if String.eqb error_type "duplicate" then
         _ ← call (mark_as_processed supabase_client snapshot_id);
         update p2_add_skipped
       else update p2_add_failed
     else update p2_add_skipped)
    (λ _, update p2_add_failed).

(** The retrieval stage of the automated pipeline. *)
Definition pipeline_retrieve : action W pipeline_stage2 :=
  snapshots ← get_unprocessed_snapshots supabase_client;
  match snapshots with
  | [] => mret (PipelineStage2 0 0 0 0 0)
  | _ :: _ =>
      '(_, stats) ← with_locals (PipelineStage2 (length snapshots) 0 0 0 0)
                       (for_each snapshots pipeline_snapshot);
      mret stats
  end.

(** The body of [for email in emails] in the extraction stage. *)
Definition pipeline_email (email : string) : action (W * pipeline_stage3) unit :=
  '(success, error_type) ← call (save_email supabase_client email);
  if (success : bool) then update p3_add_emails
  else if String.eqb error_type "duplicate" then update p3_add_duplicates
  else mret tt.

(** The body of [for idx, row in enumerate(rows)] in the extraction
    stage. *)
Definition pipeline_row (row : response_dict) : action (W * pipeline_stage3) unit :=
  let snapshot_id := rd_snapshot_id row in
  let response_data := rd_response row in
  if negb (nonempty snapshot_id) || negb (Json.truthy response_data) then
    update p3_add_failed
  else
    let emails := extract_emails_from_json response_data in
    _ ← for_each emails pipeline_email;
    marked ← call (mark_email_extracted supabase_client snapshot_id);
    if (marked : bool) then update p3_add_successful
    else update p3_add_failed.

(** [for batch_num in range(num_batches)] of the extraction stage, with
    its [break] on an empty page. *)
Fixpoint pipeline_batches (num_batches : nat)
  : action (W * pipeline_stage3) unit :=
  match num_batches with
  | O => mret tt
  | S remaining =>
      rows ← call (get_unextracted_responses supabase_client 20 0);
      match rows with
      | [] => mret tt
      | _ :: _ =>
          _ ← for_each rows pipeline_row;
          _ ← update (p3_add_processed (length rows));
          pipeline_batches remaining
      end
  end.

(** The extraction stage of the automated pipeline. *)
Definition pipeline_extract : action W pipeline_stage3 :=
  eligible_count ← count_unextracted_responses supabase_client;
  if (eligible_count =? 0)%nat then mret (PipelineStage3 0 0 0 0 0)
  else
    let num_batches := ((eligible_count + 20 - 1) / 20)%nat in
    '(_, stats) ← with_locals (PipelineStage3 0 0 0 0 0)
                     (pipeline_batches num_batches);
    mret stats.

(** [process_automated_pipeline(queries)], given the key and the batch
    size of the session: the statistics of the three stages, or [None]
    when the key is missing, when no snapshot was created, or when an
    exception reached the handler. *)
Definition process_automated_pipeline (api_key : string) (batch_size : Z)
    (queries : list string)
  : action W (option (EmailScraperEngine.statistics
                      * pipeline_stage2 * pipeline_stage3)) :=
  try_except
    (if negb (nonempty api_key) then mret None
     else
       stats_stage1 ←
         EmailScraperEngine.process_queries brightdata_client supabase_client
           queries batch_size;
       if (EmailScraperEngine.successful_snapshots stats_stage1 =? 0)%nat
       then mret None
       else
         _ ← poll MAX_POLL_ATTEMPTS 0;
         stats_stage2 ← pipeline_retrieve;
         stats_stage3 ← pipeline_extract;
         mret (Some (stats_stage1, stats_stage2, stats_stage3)))
    (λ _, mret None).

End WithClients.
End Dashboard.

(** ** Notions for the properties of the further passes *)

(** Every character of [s] is in the class [cls]. *)
Fixpoint all_chars (cls : ascii → bool) (s : string) : bool :=
  match s with
  | EmptyString => true
  | String c s' => cls c && all_chars cls s'
  end.

(** A fetched row the dashboard's extraction loops work on rather than
    skip: its identifier and its response are truthy. *)
Definition workable (d : response_dict) : bool :=
  nonempty (rd_snapshot_id d) && Json.truthy (rd_response d).

(** The snapshot table [table'] holds the rows of [table], with their
    identifiers and queries, and no row that was processed is pending. *)
Definition only_processes (table table' : list snapshot_row) : Prop :=
  Forall2 (λ r r', snapshot_id r' = snapshot_id r ∧ query r' = query r
                   ∧ (processed r = true → processed r' = true))
    table table'.

(** The environment variable [name] is set to a text that is not empty. *)
Definition configured (getenv : string → option string) (name : string) : Prop :=
  ∃ value, getenv name = Some value ∧ value ≠ EmptyString.

(** The printable ASCII characters, U+0020 to U+007E. *)
Definition printable (c : ascii) : bool :=
  (32 <=? Str.code c) && (Str.code c <=? 126).


(** The response table [table'] holds the rows of [table], with their
    identifiers and payloads, and no row that was extracted is to extract
    again. *)
Definition only_extracts (table table' : list response_row) : Prop :=
  Forall2 (λ r r', response_snapshot_id r' = response_snapshot_id r
                   ∧ response r' = response r
                   ∧ (is_email_extracted r = true → is_email_extracted r' = true))
    table table'.

(** The store [st'] has forgotten nothing of the store [st]: each table
    starts with the rows it had, in place, a flag that was set still set,
    and anything new stands after them. *)
Definition never_forgets (st st' : Store) : Prop :=
  (∃ kept extra, snapshot_table st' = kept ++ extra
                 ∧ only_processes (snapshot_table st) kept)
  ∧ (∃ kept extra, response_table st' = kept ++ extra
                   ∧ only_extracts (response_table st) kept)
  ∧ (∃ extra, email_table st' = email_table st ++ extra).

(** * Properties *)

(** ** The validator *)

Lemma small_error_reason_not_running (n : nat) :
  (n < 2000)%nat → Str.contains "running" (small_error_reason n) = false.
Proof.
  intros Hn.
  assert (Hall : forallb (λ k, negb (Str.contains "running" (small_error_reason k)))
                   (seq 0 2000) = true) by (vm_compute; reflexivity).
  rewrite forallb_forall in Hall.
  specialize (Hall n). rewrite negb_true_iff in Hall.
  apply Hall, in_seq. lia.
Qed.

Lemma validate_response_flags (data : json) :
  BrightdataClient.validate_response data =
    let data_str := Json.dumps data in
    if has_running_marker data_str then (true, false, "Status is running")
    else if has_error_indicator data_str
            && (Str.utf8_length data_str <? 2000)%nat
         then (false, false, small_error_reason (Str.utf8_length data_str))
    else (false, true, EmptyString).
Proof.
  unfold BrightdataClient.validate_response, has_running_marker,
    has_error_indicator; cbv zeta.
  destruct (_ || _); [reflexivity|].
  destruct (Str.contains "error" _); cbn [andb]; [|reflexivity].
  destruct (Str.utf8_length (Json.dumps data) <? 2000)%nat eqn:Hsize;
    [|reflexivity].
  apply Nat.ltb_lt in Hsize.
  fold (small_error_reason (Str.utf8_length (Json.dumps data))).
  cbn [negb andb].
  by rewrite small_error_reason_not_running.
Qed.

(** C2.  The verdict [get_snapshot_data] reaches on a payload is the one
    of the three rules taken in order: the running-status marker gives
    still-processing whatever else the payload holds; otherwise an error
    indicator gives invalid-error exactly when the serialized payload has
    fewer than 2000 bytes; otherwise the payload is valid.  At the
    boundary, an error envelope of 1999 bytes is invalid-error and one of
    2000 bytes is valid. *)
Theorem classification_follows_rules_in_order :
  (∀ data : json, classify data = classify_by_rules (Json.dumps data))
  ∧ (Str.utf8_length (Json.dumps (error_envelope 1986)) = 1999%nat
     ∧ classify (error_envelope 1986) = InvalidError)
  ∧ (Str.utf8_length (Json.dumps (error_envelope 1987)) = 2000%nat
     ∧ classify (error_envelope 1987) = Valid).
Proof.
  split; [|split; split; vm_compute; reflexivity].
  intros data. unfold classify, classify_by_rules.
  rewrite validate_response_flags; cbv zeta.
  destruct (has_running_marker _); [reflexivity|].
  destruct (_ && _); reflexivity.
Qed.



(** ** E-mail extraction *)

Lemma contains_cons (needle : string) (c : ascii) (hay : string) :
  Str.contains needle hay = true → Str.contains needle (String c hay) = true.
Proof.
  intros H. cbn [Str.contains]. rewrite H. apply orb_true_r.
Qed.

Lemma contains_app_r (needle pre hay : string) :
  Str.contains needle hay = true → Str.contains needle (pre +:+ hay) = true.
Proof.
  intros H. induction pre as [|c pre IH]; [exact H|].
  change (String c pre +:+ hay) with (String c (pre +:+ hay)).
  by apply contains_cons.
Qed.

(** A greedy repetition that succeeds has run its continuation on some
    suffix of the text. *)
Lemma many_reaches_continuation cls k :
  ∀ s min prev n,
    Re.many cls k min prev s = Some n →
    ∃ pre prev' s' m, s = pre +:+ s' ∧ k prev' s' = Some m.
Proof.
  induction s as [|c s IH]; intros min prev n H; cbn [Re.many] in H.
  - destruct min; [|done]. by exists EmptyString, prev, EmptyString, n.
  - destruct (cls c).
    + destruct (Re.many cls k (Nat.pred min) (Some c) s) as [n'|] eqn:Hrec.
      * destruct (IH _ _ _ Hrec) as (pre & prev' & s' & m & -> & Hk).
        by exists (String c pre), prev', s', m.
      * destruct min; [|done]. by exists EmptyString, prev, (String c s), n.
    + destruct min; [|done]. by exists EmptyString, prev, (String c s), n.
Qed.

Lemma email_match_has_at (prev : option ascii) (s : string) (n : nat) :
  Re.match_here email_pattern prev s = Some n → Str.contains "@" s = true.
Proof.
  unfold email_pattern. cbn [Re.match_here].
  destruct (Re.at_boundary prev s); [|done].
  intros H. apply many_reaches_continuation in H
    as (pre & prev' & s' & m & -> & Hk).
  apply contains_app_r.
  destruct s' as [|c s']; [done|].
  destruct (Ascii.eqb "@" c) eqn:Hc; [|done].
  apply Ascii.eqb_eq in Hc as <-. by destruct s'.
Qed.

Lemma scan_without_at (s : string) :
  ∀ prev skip,
    Str.contains "@" s = false → Re.scan email_pattern prev s skip = [].
Proof.
  induction s as [|c s IH]; intros prev skip Hno.
  - cbn [Re.scan]. destruct skip; [|done].
    destruct (Re.match_here email_pattern prev EmptyString) eqn:Hm; [|done].
    apply email_match_has_at in Hm. done.
  - assert (Hs : Str.contains "@" s = false).
    { destruct (Str.contains "@" s) eqn:E; [|done].
      by rewrite (contains_cons _ c _ E) in Hno. }
    cbn [Re.scan]. destruct skip; [|by apply IH].
    destruct (Re.match_here email_pattern prev (String c s)) eqn:Hm.
    + apply email_match_has_at in Hm. congruence.
    + by apply IH.
Qed.

Lemma elements_of_no_matches :
  elements (list_to_set (@nil string) : gset string) = [].
Proof. apply (elements_empty (C := gset string)). Qed.



(** ** Query deduplication *)

Lemma unique_loop_first_occurrences (uploaded : list string) :
  ∀ unique_queries seen,
    App.unique_loop uploaded unique_queries seen
    = unique_queries ++ first_occurrences seen uploaded.
Proof.
  induction uploaded as [|q rest IH]; intros acc seen; cbn.
  - by rewrite app_nil_r.
  - fold (normalize q).
    destruct (nonempty (normalize q) && bool_decide (normalize q ∉ seen)).
    + rewrite IH. by rewrite <- app_assoc.
    + apply IH.
Qed.

Lemma split_loop_filter (unique_queries existing : list string) :
  ∀ new_queries existing_in_db,
    App.split_loop unique_queries existing new_queries existing_in_db
    = (new_queries ++ filter (λ q, normalize q ∉ existing) unique_queries,
       existing_in_db ++ filter (λ q, normalize q ∈ existing) unique_queries).
Proof.
  induction unique_queries as [|q rest IH]; intros acc_new acc_old;
    cbn [App.split_loop].
  - by rewrite !filter_nil, !app_nil_r.
  - fold (normalize q). rewrite !filter_cons.
    destruct (decide (normalize q ∈ existing)) as [Hin|Hout].
    + rewrite bool_decide_eq_true_2 by done. rewrite IH.
      rewrite decide_False by (intros ?; contradiction).
      by rewrite <- app_assoc.
    + rewrite bool_decide_eq_false_2 by done. rewrite IH.
      rewrite decide_True by done.
      by rewrite <- app_assoc.
Qed.

Lemma first_occurrences_snoc (pre : list string) (q : string) :
  ∀ seen,
    first_occurrences seen (pre ++ [q])
    = first_occurrences seen pre
      ++ (if nonempty (normalize q)
             && bool_decide ((normalize q ∉ seen)
                             ∧ (normalize q ∉ (normalize <$> pre)))
          then [q] else []).
Proof.
  induction pre as [|p pre IH]; intros seen; cbn [first_occurrences app fmap list_fmap].
  - destruct (nonempty (normalize q)); cbn [andb]; [|done].
    destruct (decide (normalize q ∈ seen)) as [Hin|Hout].
    + rewrite !bool_decide_eq_false_2; [done| |]; set_solver.
    + rewrite !bool_decide_eq_true_2; [done| |]; set_solver.
  - assert (Hkey : ∀ A B : Prop, ∀ (dA : Decision A) (dB : Decision B),
              (A ↔ B) →
              (if nonempty (normalize q) && bool_decide A then [q] else [])
              = (if nonempty (normalize q) && bool_decide B then [q] else [])).
    { intros A B dA dB HAB. by rewrite (bool_decide_ext A B HAB). }
    destruct (nonempty (normalize p) && bool_decide (normalize p ∉ seen))
      eqn:Hp.
    + cbn [app]. rewrite IH. f_equal. f_equal. apply Hkey. set_solver.
    + rewrite IH. f_equal. 
      destruct (nonempty (normalize q)) eqn:Hq; cbn [andb]; [|done].
      apply (Hkey _ _ _ _).
      apply andb_false_iff in Hp as [Hp|Hp].
      * assert (normalize q ≠ normalize p).
        { intros E. rewrite E in Hq. congruence. }
        set_solver.
      * apply bool_decide_eq_false in Hp.
        assert (Hseen : normalize p ∈ seen) by (by apply dec_stable).
        rewrite not_elem_of_cons.
        split; [intros [Hq1 Hq2]|intros [Hq1 [_ Hq2]]]; repeat split; try done.
        intros E. apply Hq1. by rewrite E.
Qed.

Lemma first_occurrences_sublist (queries : list string) :
  ∀ seen, sublist (first_occurrences seen queries) queries.
Proof.
  induction queries as [|q rest IH]; intros seen; cbn [first_occurrences];
    [constructor|].
  destruct (_ && _); [apply sublist_skip|apply sublist_cons]; apply IH.
Qed.

Lemma first_occurrences_fresh (queries : list string) :
  ∀ seen q, q ∈ first_occurrences seen queries → normalize q ∉ seen.
Proof.
  induction queries as [|p rest IH]; intros seen q; cbn [first_occurrences];
    [by intros ?%elem_of_nil|].
  destruct (nonempty (normalize p)); cbn [andb]; [|by apply IH].
  destruct (decide (normalize p ∈ seen)) as [Hin|Hout].
  - rewrite bool_decide_eq_false_2 by (intros H; by apply H). by apply IH.
  - rewrite bool_decide_eq_true_2 by done.
    intros [->|Hq]%elem_of_cons; [done|].
    apply IH in Hq. set_solver.
Qed.

Lemma first_occurrences_NoDup (queries : list string) :
  ∀ seen, NoDup (normalize <$> first_occurrences seen queries).
Proof.
  induction queries as [|p rest IH]; intros seen; cbn [first_occurrences];
    [constructor|].
  destruct (nonempty (normalize p) && bool_decide (normalize p ∉ seen));
    [|apply IH].
  rewrite fmap_cons. constructor; [|apply IH].
  intros (q & Heq & Hq)%list_elem_of_fmap.
  apply first_occurrences_fresh in Hq. set_solver.
Qed.

Lemma filter_complement_length (P : string → Prop) `{∀ x, Decision (P x)}
    (l : list string) :
  (length (filter (λ x, ¬ P x) l) + length (filter P l) = length l)%nat.
Proof.
  induction l as [|x l IH]; [done|].
  rewrite !filter_cons. destruct (decide (P x)).
  - rewrite decide_False by (intros Hn; by apply Hn). cbn. lia.
  - rewrite decide_True by done. cbn. lia.
Qed.
Lemma filter_queries_unfold (uploaded existing : list string) :
  App.filter_queries uploaded existing
  = let unique := first_occurrences ∅ uploaded in
    let new := filter (λ q, normalize q ∉ existing) unique in
    let old := filter (λ q, normalize q ∈ existing) unique in
    App.FilterResult (length uploaded) (length uploaded - length unique)
      (length unique) new old (length new) (length old).
Proof.
  unfold App.filter_queries.
  rewrite unique_loop_first_occurrences, split_loop_filter. reflexivity.
Qed.

(** C6.  The deduplicator is a function of the uploaded list and of the
    set of persisted queries alone: two persisted lists with the same
    members give the same result.  Its counts add up: new and existing
    make the unique ones, and the duplicates are the uploaded ones that are
    not unique.  The unique queries are the first occurrences under
    lower-casing and trimming, in upload order and as typed; new and
    existing split them by membership of the normalized form in the
    persisted set. *)
Theorem filter_queries_partition (uploaded existing existing' : list string) :
  list_to_set existing =@{gset string} list_to_set existing' →
  let r := App.filter_queries uploaded existing in
  let unique := first_occurrences ∅ uploaded in
  App.filter_queries uploaded existing' = r
  ∧ (App.new_count r + App.existing_count r = App.unique_in_csv r)%nat
  ∧ App.duplicates_in_csv r = (App.total_uploaded r - App.unique_in_csv r)%nat
  ∧ (App.duplicates_in_csv r + App.unique_in_csv r = App.total_uploaded r)%nat
  ∧ App.total_uploaded r = length uploaded
  ∧ App.unique_in_csv r = length unique
  ∧ App.new_count r = length (App.new_queries r)
  ∧ App.existing_count r = length (App.existing_in_db r)
  ∧ App.new_queries r = filter (λ q, normalize q ∉ existing) unique
  ∧ App.existing_in_db r = filter (λ q, normalize q ∈ existing) unique
  ∧ sublist unique uploaded
  ∧ NoDup (normalize <$> unique)
  ∧ (∀ pre q,
       first_occurrences ∅ (pre ++ [q])
       = first_occurrences ∅ pre
         ++ (if nonempty (normalize q)
                && bool_decide (normalize q ∉ (normalize <$> pre))
             then [q] else [])).
Proof.
  intros Hsame r unique.
  assert (Hmem : ∀ q, q ∈ existing ↔ q ∈ existing').
  { intros q. rewrite <- !(elem_of_list_to_set (C := gset string)).
    by rewrite Hsame. }
  subst r. rewrite !filter_queries_unfold. cbv zeta. cbn.
  fold unique.
  assert (Hlen : (length unique ≤ length uploaded)%nat)
    by apply sublist_length, first_occurrences_sublist.
  repeat split; try done.
  - f_equal; try f_equal; apply list_filter_iff; intros q; by rewrite Hmem.
  - apply filter_complement_length.
  - lia.
  - apply first_occurrences_sublist.
  - apply first_occurrences_NoDup.
  - intros pre q. rewrite first_occurrences_snoc.
    erewrite bool_decide_ext; [reflexivity|]. set_solver.
Qed.

Lemma filter_queries_partition_witness :
  let uploaded := ["Pizza NYC"; " pizza nyc "; "Sushi"; "  "; "Tacos"] in
  let r := App.filter_queries uploaded ["sushi"] in
  App.filter_queries uploaded ["sushi"; "ramen"; "sushi"] 
  = App.filter_queries uploaded ["ramen"; "sushi"]
  ∧ App.new_queries r = ["Pizza NYC"; "Tacos"]
  ∧ App.existing_in_db r = ["Sushi"]
  ∧ App.duplicates_in_csv r = 2%nat.
Proof.
  split.
  - apply (filter_queries_partition
             ["Pizza NYC"; " pizza nyc "; "Sushi"; "  "; "Tacos"]
             ["ramen"; "sushi"] ["sushi"; "ramen"; "sushi"]).
    vm_compute; reflexivity.
  - vm_compute. repeat split; reflexivity.
Defined.
(** ** Batch submission *)

Lemma ceil_div_step (d b : nat) :
  (0 < b)%nat → (0 < d)%nat → ceil_div d b = S (ceil_div (d - b) b).
Proof.
  intros Hb Hd. unfold ceil_div.
  destruct (le_lt_dec b d) as [Hle|Hlt].
  - replace (d + b - 1)%nat with ((d - b + b - 1) + 1 * b)%nat by lia.
    rewrite Nat.div_add by lia. lia.
  - replace (d - b)%nat with 0%nat by lia.
    rewrite (Nat.div_small (0 + b - 1) b) by lia.
    replace (d + b - 1)%nat with ((d - 1) + 1 * b)%nat by lia.
    rewrite Nat.div_add by lia. rewrite Nat.div_small by lia. lia.
Qed.

Lemma ceil_div_zero (b : nat) : (0 < b)%nat → ceil_div 0 b = 0%nat.
Proof. intros Hb. unfold ceil_div. apply Nat.div_small. lia. Qed.

(** [range(start, stop, step)] visits [start], [start + step], ... *)
Lemma range_from_closed_form (step stop : nat) :
  (0 < step)%nat →
  ∀ fuel start,
    (stop - start ≤ fuel)%nat →
    EmailScraperEngine.range_from fuel start stop step
    = (λ k, start + k * step)%nat <$> seq 0 (ceil_div (stop - start) step).
Proof.
  intros Hstep. induction fuel as [|fuel IH]; intros start Hfuel.
  - replace (stop - start)%nat with 0%nat by lia.
    by rewrite ceil_div_zero.
  - cbn [EmailScraperEngine.range_from].
    destruct (start <? stop)%nat eqn:Hlt.
    + apply Nat.ltb_lt in Hlt.
      rewrite (ceil_div_step (stop - start)) by lia.
      cbn [seq fmap list_fmap]. f_equal; [lia|].
      rewrite IH by lia.
      replace (stop - (start + step))%nat with (stop - start - step)%nat by lia.
      rewrite <- fmap_S_seq, <- list_fmap_compose.
      apply list_fmap_ext. intros _ k _. cbn. lia.
    + apply Nat.ltb_ge in Hlt.
      replace (stop - start)%nat with 0%nat by lia.
      by rewrite ceil_div_zero.
Qed.

Lemma range0_closed_form (n : nat) (batch_size : Z) :
  (0 < batch_size)%Z →
  EmailScraperEngine.range0 n batch_size
  = (λ k, k * Z.to_nat batch_size)%nat <$> seq 0 (ceil_div n (Z.to_nat batch_size)).
Proof.
  intros Hb. unfold EmailScraperEngine.range0.
  destruct (batch_size <? 0)%Z eqn:E; [apply Z.ltb_lt in E; lia|].
  rewrite range_from_closed_form by lia.
  by rewrite Nat.sub_0_r.
Qed.
Lemma ceil_div_covers (n b : nat) : (0 < b)%nat → (n ≤ ceil_div n b * b)%nat.
Proof.
  intros Hb. unfold ceil_div.
  pose proof (Nat.div_mod (n + b - 1) b ltac:(lia)) as Hdm.
  pose proof (Nat.mod_upper_bound (n + b - 1) b ltac:(lia)). nia.
Qed.

Lemma ceil_div_tight (n b k : nat) :
  (0 < b)%nat → (k < ceil_div n b)%nat → (k * b < n)%nat.
Proof.
  intros Hb Hk. unfold ceil_div in Hk.
  pose proof (Nat.div_mod (n + b - 1) b ltac:(lia)) as Hdm.
  pose proof (Nat.mod_upper_bound (n + b - 1) b ltac:(lia)). nia.
Qed.

Lemma batches_closed_form (queries : list string) (batch_size : Z) :
  (0 < batch_size)%Z →
  batches queries batch_size
  = (λ k, take (Z.to_nat batch_size) (drop (k * Z.to_nat batch_size) queries))
      <$> seq 0 (ceil_div (length queries) (Z.to_nat batch_size)).
Proof.
  intros Hb. unfold batches. rewrite range0_closed_form by done.
  by rewrite <- list_fmap_compose.
Qed.

Lemma concat_chunks (b : nat) (l : list string) :
  ∀ m j,
    concat ((λ k, take b (drop (k * b) l)) <$> seq j m)
    = take (m * b) (drop (j * b) l).
Proof.
  induction m as [|m IH]; intros j; [done|].
  cbn [seq fmap list_fmap concat]. rewrite IH.
  replace (S j * b)%nat with (j * b + b)%nat by lia.
  rewrite <- drop_drop, take_take_drop. f_equal.
Qed.

Lemma batches_partition (queries : list string) (batch_size : Z) :
  (0 < batch_size)%Z →
  let b := Z.to_nat batch_size in
  length (batches queries batch_size) = ceil_div (length queries) b
  ∧ concat (batches queries batch_size) = queries
  ∧ Forall (λ batch, 1 ≤ length batch ≤ b)%nat (batches queries batch_size)
  ∧ (∀ k batch,
       batches queries batch_size !! k = Some batch →
       (S k < length (batches queries batch_size))%nat →
       length batch = b).
Proof.
  intros Hb b. assert (0 < b)%nat by lia.
  rewrite batches_closed_form by done. fold b.
  rewrite length_fmap, length_seq.
  split; [done|]. split; [|split].
  - rewrite concat_chunks. cbn [drop Nat.mul].
    apply take_ge, ceil_div_covers. lia.
  - apply Forall_fmap, Forall_seq. intros k [_ Hk]. cbn.
    apply ceil_div_tight in Hk; [|done].
    rewrite length_take, length_drop. lia.
  - intros k batch Hlook Hnext.
    rewrite list_lookup_fmap, lookup_seq_lt in Hlook by lia.
    cbn in Hlook. injection Hlook as <-.
    apply ceil_div_tight in Hnext; [|done].
    rewrite length_take, length_drop. lia.
Qed.
Section BatchSubmission.
Context {W : Type} (bright : Brightdata W) (supa : Supabase W).
Hypothesis send_returns : ∀ keywords, returns (send_request bright keywords).
Hypothesis save_returns : ∀ id queries, returns (save_snapshot supa id queries).

(** One round of the loop: the batch is submitted, counted, and counted
    as exactly one of saved and failed. *)
Lemma batch_body_counts (queries : list string) (b i : nat)
    (w : W) (log : list (list string)) (c : EmailScraperEngine.statistics) :
  ∃ w' c',
    EmailScraperEngine.batch_body (recording_submissions bright)
      (lift_supabase supa) queries b i ((w, log), c)
    = (Returns tt, ((w', log ++ [take b (drop i queries)]), c'))
    ∧ EmailScraperEngine.total_batches c'
      = S (EmailScraperEngine.total_batches c)
    ∧ (EmailScraperEngine.successful_snapshots c'
       + EmailScraperEngine.failed_batches c'
       = S (EmailScraperEngine.successful_snapshots c
            + EmailScraperEngine.failed_batches c))%nat
    ∧ EmailScraperEngine.total_queries c' = EmailScraperEngine.total_queries c.
Proof.
  unfold EmailScraperEngine.batch_body, recording_submissions, lift_supabase.
  cbn [send_request save_snapshot].
  unfold mbind, action_bind, mret, action_ret, call, update. cbn beta iota.
  destruct (send_returns (take b (drop i queries)) w) as (response & w1 & ->).
  destruct (option_bind _ _ _ response) as [snapshot_id|]; cbn beta iota.
  - destruct (save_returns snapshot_id (take b (drop i queries)) w1)
      as (saved & w2 & ->).
    destruct saved; eexists _, _; (split; [reflexivity|]); cbn; lia.
  - eexists _, _; (split; [reflexivity|]); cbn; lia.
Qed.

Lemma batch_loop_counts (queries : list string) (b : nat) (starts : list nat) :
  ∀ (w : W) (log : list (list string)) (c : EmailScraperEngine.statistics),
  ∃ w' c',
    for_each starts
      (EmailScraperEngine.batch_body (recording_submissions bright)
         (lift_supabase supa) queries b) ((w, log), c)
    = (Returns tt,
       ((w', log ++ ((λ i, take b (drop i queries)) <$> starts)), c'))
    ∧ EmailScraperEngine.total_batches c'
      = (EmailScraperEngine.total_batches c + length starts)%nat
    ∧ (EmailScraperEngine.successful_snapshots c'
       + EmailScraperEngine.failed_batches c'
       = EmailScraperEngine.successful_snapshots c
         + EmailScraperEngine.failed_batches c + length starts)%nat
    ∧ EmailScraperEngine.total_queries c' = EmailScraperEngine.total_queries c.
Proof.
  induction starts as [|i starts IH]; intros w log c.
  - exists w, c. cbn. rewrite app_nil_r. repeat split; lia.
  - cbn [for_each]. unfold mbind, action_bind.
    destruct (batch_body_counts queries b i w log c)
      as (w1 & c1 & -> & Hb1 & Hs1 & Hq1).
    destruct (IH w1 (log ++ [take b (drop i queries)]) c1)
      as (w2 & c2 & -> & Hb2 & Hs2 & Hq2).
    exists w2, c2. rewrite <- app_assoc. cbn. repeat split; lia.
Qed.

End BatchSubmission.

Lemma save_snapshot_returns (env : Env) (id : string) (queries : list string) :
  returns (SupabaseClient.save_snapshot env id queries).
Proof.
  intros w. unfold SupabaseClient.save_snapshot, SupabaseClient.execute,
    try_except, mbind, action_bind, mret, action_ret.
  destruct (db_fault env (now w) (InsertSnapshot id)); eauto.
Qed.

Lemma send_request_returns (env : Env) (keywords : list string) :
  (∀ t e, http_post env t keywords ≠ HttpOtherException e) →
  returns (BrightdataClient.send_request env keywords).
Proof.
  intros Hpost w. unfold BrightdataClient.send_request.
  destruct (http_post env (now w) keywords) eqn:E; eauto.
  by apply Hpost in E.
Qed.




(** ** Retrieval: which payloads get a snapshot marked processed *)

(** C1 (the worker departs from it).  The failure envelope is classified
    invalid-error, and the worker's pass nevertheless stores it and marks
    the snapshot processed, counting a success; the stage-2 service and the
    dashboard's pass, on the same world, count an invalid response and
    leave the store as it was. *)
Theorem worker_marks_invalid_error_processed :
  classify failure_envelope = InvalidError
  ∧ Worker.process_stage2 (BrightdataClient.client (answering failure_envelope))
      (SupabaseClient.client (answering failure_envelope)) pending_world
    = (Returns (Worker.Stage2Stats 1 1 0 0),
       MkWorld (MkStore [SnapshotRow "s1" ["q1"; "q2"] true]
                        [ResponseRow "s1" failure_envelope false] []) 4)
  ∧ Stage2Service.run_once (BrightdataClient.client (answering failure_envelope))
      (SupabaseClient.client (answering failure_envelope)) never_stopped
      pending_world
    = (Returns (Stage2Service.RunStats 1 0 0 0 1),
       MkWorld (store pending_world) 2)
  ∧ App.process_unprocessed_snapshots
      (BrightdataClient.client (answering failure_envelope))
      (SupabaseClient.client (answering failure_envelope)) pending_world
    = (Returns (App.RetrievalStats 1 0 0 0 0 0 0 1),
       MkWorld (store pending_world) 2).
Proof. repeat split; vm_compute; reflexivity. Qed.

(** *** Invalid payloads in the three retrieval passes, in general *)

Lemma classify_invalid_error_flags (data : json) :
  classify data = InvalidError →
  ∃ reason,
    BrightdataClient.validate_response data = (false, false, reason)
    ∧ Json.is_none data = false.
Proof.
  unfold classify. rewrite validate_response_flags; cbv zeta.
  destruct (has_running_marker _); [done|].
  destruct (_ && _) eqn:E; [|done].
  intros _. eexists. split; [reflexivity|].
  by destruct data.
Qed.

Lemma classify_not_valid_flags (data : json) :
  classify data ≠ Valid →
  ∃ is_running reason,
    BrightdataClient.validate_response data = (is_running, false, reason).
Proof.
  unfold classify. rewrite validate_response_flags; cbv zeta.
  destruct (has_running_marker _); [by eauto|].
  destruct (_ && _); [by eauto|done].
Qed.

(** The worker's loop body stores every invalid-error payload it
    retrieves and marks the snapshot processed, when the store accepts
    both statements. *)
Lemma worker_stores_invalid_error (env : Env) (snap : snapshot_dict)
    (data : json) (w : World) (c : Worker.stage2_stats) :
  nonempty (sd_snapshot_id snap) = true →
  http_get env (now w) (sd_snapshot_id snap) = HttpBody data →
  classify data = InvalidError →
  SupabaseClient.has_response (sd_snapshot_id snap) (store w) = false →
  (∀ t req, db_fault env t req = None) →
  Worker.stage2_body (BrightdataClient.client env) (SupabaseClient.client env)
    snap (w, c)
  = (Returns tt,
     (MkWorld
        (MkStore
           (SupabaseClient.set_processed (sd_snapshot_id snap)
              <$> snapshot_table (store w))
           (response_table (store w)
              ++ [ResponseRow (sd_snapshot_id snap) data false])
           (email_table (store w)))
        (S (S (S (now w)))),
      Worker.s2_add_successful c)).
Proof.
  intros Hid Hget Hclass Hfresh Hquiet.
  destruct (classify_invalid_error_flags data Hclass) as (reason & Hflags & Hdata).
  unfold Worker.stage2_body. rewrite Hid. cbn [negb].
  cbn [get_snapshot_data save_response mark_as_processed
         BrightdataClient.client SupabaseClient.client].
  unfold try_except at 1. unfold mbind, action_bind, call.
  unfold BrightdataClient.get_snapshot_data. rewrite Hget, Hflags.
  cbn [negb andb]. rewrite Hdata.
  unfold SupabaseClient.save_response. unfold_action.
  cbn [now tick store]. rewrite Hquiet, Hfresh.
  unfold SupabaseClient.mark_as_processed. unfold_action.
  cbn [now store snapshot_table response_table email_table].
  by rewrite Hquiet.
Qed.

(** The stage-2 service and the dashboard leave the store as it is for
    every payload that is not valid. *)
Lemma service_skips_invalid (env : Env) (stop : action World bool)
    (snap : snapshot_dict) (data : json) (w : World)
    (c : Stage2Service.run_stats) :
  http_get env (now w) (sd_snapshot_id snap) = HttpBody data →
  classify data ≠ Valid →
  Stage2Service.run_once_body (BrightdataClient.client env)
    (SupabaseClient.client env) snap (w, c)
  = (Returns tt, (tick w, Stage2Service.add_invalid (Stage2Service.add_processed c))).
Proof.
  intros Hget Hclass.
  destruct (classify_not_valid_flags data Hclass) as (running & reason & Hflags).
  unfold Stage2Service.run_once_body.
  cbn [get_snapshot_data BrightdataClient.client].
  unfold try_except, mbind, action_bind, call, update.
  unfold BrightdataClient.get_snapshot_data. by rewrite Hget, Hflags.
Qed.

Lemma dashboard_skips_invalid (env : Env) (snap : snapshot_dict)
    (data : json) (w : World) (c : App.retrieval_stats) :
  http_get env (now w) (sd_snapshot_id snap) = HttpBody data →
  classify data ≠ Valid →
  ∃ c',
    App.snapshot_body (BrightdataClient.client env) (SupabaseClient.client env)
      snap (w, c)
    = (Returns tt, (tick w, c'))
    ∧ App.successful c' = App.successful c
    ∧ App.invalid_responses c' = S (App.invalid_responses c).
Proof.
  intros Hget Hclass.
  destruct (classify_not_valid_flags data Hclass) as (running & reason & Hflags).
  unfold App.snapshot_body.
  cbn [get_snapshot_data BrightdataClient.client].
  unfold try_except, mbind, action_bind, call, update, mret, action_ret.
  unfold BrightdataClient.get_snapshot_data. rewrite Hget, Hflags.
  cbn [negb]. destruct running; by eexists.
Qed.

(** ** The store methods of the extraction pass, call by call *)


Lemma get_unextracted_responses_eq (env : Env) (limit offset : nat) (w : World) :
  SupabaseClient.get_unextracted_responses env limit offset w
  = (Returns
       (match db_fault env (now w) SelectUnextracted with
        | Some _ => []
        | None =>
            (λ r, ResponseDict (response_snapshot_id r) (response r))
              <$> SupabaseClient.range offset limit
                    (SupabaseClient.unextracted (store w))
        end),
     tick w).
Proof.
  unfold SupabaseClient.get_unextracted_responses. unfold_action.
  destruct (db_fault env (now w) SelectUnextracted); [reflexivity|].
  by destruct w as [[? ? ?] ?].
Qed.

Lemma mark_email_extracted_eq (env : Env) (id : string) (w : World) :
  SupabaseClient.mark_email_extracted env id w
  = match db_fault env (now w) (UpdateExtracted id) with
    | Some _ => (Returns false, tick w)
    | None =>
        (Returns true,
         MkWorld (MkStore (snapshot_table (store w))
                    (SupabaseClient.set_extracted id <$> response_table (store w))
                    (email_table (store w)))
                 (S (now w)))
    end.
Proof.
  unfold SupabaseClient.mark_email_extracted. unfold_action.
  by destruct (db_fault env (now w) (UpdateExtracted id)).
Qed.

Lemma save_email_keeps_responses (env : Env) (email : string) (w : World) :
  ∃ r w',
    SupabaseClient.save_email env email w = (Returns r, w')
    ∧ snapshot_table (store w') = snapshot_table (store w)
    ∧ response_table (store w') = response_table (store w).
Proof.
  unfold SupabaseClient.save_email. unfold_action.
  destruct (db_fault env (now w) (InsertEmail email)); [by eauto|].
  destruct (SupabaseClient.has_email email (store w)); by eauto.
Qed.

Lemma stage3_email_keeps_responses (env : Env) (email : string)
    (w : World) (c : Worker.stage3_stats) :
  ∃ w' c',
    Worker.stage3_email (SupabaseClient.client env) email (w, c)
    = (Returns tt, (w', c'))
    ∧ snapshot_table (store w') = snapshot_table (store w)
    ∧ response_table (store w') = response_table (store w)
    ∧ Worker.total_processed c' = Worker.total_processed c
    ∧ Worker.total_successful c' = Worker.total_successful c
    ∧ Worker.total_failed c' = Worker.total_failed c.
Proof.
  unfold Worker.stage3_email. cbn [save_email SupabaseClient.client].
  destruct (save_email_keeps_responses env email w)
    as ([ok err] & w1 & Hsave & Hs1 & Hr1).
  unfold mbind, action_bind, call. rewrite Hsave.
  destruct ok; [by eauto 10|].
  destruct (String.eqb err "duplicate"); by eauto 10.
Qed.

(** The loop over the addresses of one response leaves the two other
    tables and the three row counters alone. *)
Lemma stage3_emails_keep_responses (env : Env) (emails : list string) :
  ∀ (w : World) (c : Worker.stage3_stats),
  ∃ w' c',
    for_each emails (Worker.stage3_email (SupabaseClient.client env)) (w, c)
    = (Returns tt, (w', c'))
    ∧ snapshot_table (store w') = snapshot_table (store w)
    ∧ response_table (store w') = response_table (store w)
    ∧ Worker.total_processed c' = Worker.total_processed c
    ∧ Worker.total_successful c' = Worker.total_successful c
    ∧ Worker.total_failed c' = Worker.total_failed c.
Proof.
  induction emails as [|email emails IH]; intros w c; [by eauto 10|].
  cbn [for_each]. unfold mbind, action_bind.
  destruct (stage3_email_keeps_responses env email w c)
    as (w1 & c1 & -> & Hs1 & Hr1 & Hp1 & Hsu1 & Hf1).
  destruct (IH w1 c1) as (w2 & c2 & -> & Hs2 & Hr2 & Hp2 & Hsu2 & Hf2).
  exists w2, c2. repeat split; congruence.
Qed.

(** What the body of the row loop does to one fetched row: it always
    returns and counts the row; either it leaves the responses alone and
    counts a failure (the row is skipped, or the update failed), or it marks
    the row's identifier extracted and counts a success. *)
Lemma stage3_body_effect (env : Env) (d : response_dict)
    (w : World) (c : Worker.stage3_stats) :
  ∃ w' c',
    Worker.stage3_body (SupabaseClient.client env) d (w, c)
    = (Returns tt, (w', c'))
    ∧ snapshot_table (store w') = snapshot_table (store w)
    ∧ Worker.total_processed c' = S (Worker.total_processed c)
    ∧ ((response_table (store w') = response_table (store w)
        ∧ Worker.total_failed c' = S (Worker.total_failed c)
        ∧ Worker.total_successful c' = Worker.total_successful c
        ∧ (well_formed d = false
           ∨ ∃ t e, db_fault env t (UpdateExtracted (rd_snapshot_id d)) = Some e))
       ∨ (response_table (store w')
          = SupabaseClient.set_extracted (rd_snapshot_id d)
              <$> response_table (store w)
          ∧ Worker.total_failed c' = Worker.total_failed c
          ∧ Worker.total_successful c' = S (Worker.total_successful c)
          ∧ well_formed d = true
          ∧ ∃ t, db_fault env t (UpdateExtracted (rd_snapshot_id d)) = None)).
Proof.
  unfold Worker.stage3_body, well_formed.
  destruct (nonempty (rd_snapshot_id d)); cbn [negb orb andb];
    [|eexists _, _; split; [reflexivity|]; cbn; by eauto 10].
  destruct (Json.is_none (rd_response d)); cbn [negb];
    [eexists _, _; split; [reflexivity|]; cbn; by eauto 10|].
  cbn [mark_email_extracted SupabaseClient.client].
  unfold mbind, action_bind, try_except.
  destruct (stage3_emails_keep_responses env
              (extract_emails_from_json (rd_response d)) w c)
    as (w1 & c1 & -> & Hs1 & Hr1 & Hp1 & Hsu1 & Hf1).
  unfold call. rewrite mark_email_extracted_eq.
  destruct (db_fault env (now w1) (UpdateExtracted (rd_snapshot_id d)))
    as [e|] eqn:Hfault.
  - eexists _, _; split; [reflexivity|]. cbn.
    split; [done|]. split; [by rewrite Hp1|]. left.
    split; [done|]. split; [by rewrite Hf1|]. split; [done|]. right. eauto.
  - eexists _, _; split; [reflexivity|]. cbn.
    split; [done|]. split; [by rewrite Hp1|]. right.
    split; [by rewrite Hr1|]. split; [done|]. split; [by rewrite Hsu1|].
    split; [done|]. eauto.
Qed.

Lemma mark_ids_nil (table : list response_row) : mark_ids [] table = table.
Proof.
  unfold mark_ids. induction table as [|r table IH]; [done|].
  rewrite fmap_cons, IH. by f_equal.
Qed.

(** One page: every row is counted, and the response table ends up with
    some identifiers marked: only identifiers of the page whose update went
    through, and among them every well-formed row whose update cannot
    fail. *)
Lemma stage3_page_effect (env : Env) (rows : list response_dict) :
  ∀ (w : World) (c : Worker.stage3_stats),
  ∃ w' c' ids,
    for_each rows (Worker.stage3_body (SupabaseClient.client env)) (w, c)
    = (Returns tt, (w', c'))
    ∧ snapshot_table (store w') = snapshot_table (store w)
    ∧ response_table (store w') = mark_ids ids (response_table (store w))
    ∧ Worker.total_processed c' = (Worker.total_processed c + length rows)%nat
    ∧ (Worker.total_successful c' + Worker.total_failed c'
       = Worker.total_successful c + Worker.total_failed c + length rows)%nat
    ∧ (∀ id, id ∈ ids →
         id ∈ (rd_snapshot_id <$> rows)
         ∧ ∃ t, db_fault env t (UpdateExtracted id) = None)
    ∧ (∀ d, d ∈ rows → well_formed d = true →
         (∀ t, db_fault env t (UpdateExtracted (rd_snapshot_id d)) = None) →
         rd_snapshot_id d ∈ ids).
Proof.
  induction rows as [|d rows IH]; intros w c.
  - exists w, c, []. rewrite mark_ids_nil. cbn.
    split_and!; try done; try lia.
    + by intros id ?%elem_of_nil.
    + by intros d ?%elem_of_nil.
  - cbn [for_each]. unfold mbind, action_bind.
    destruct (stage3_body_effect env d w c)
      as (w1 & c1 & -> & Hs1 & Hp1 & Hcase).
    destruct (IH w1 c1)
      as (w2 & c2 & ids & -> & Hs2 & Hr2 & Hp2 & Hc2 & Hids & Hall).
    destruct Hcase as [(Hr1 & Hf1 & Hsu1 & Hwhy)|(Hr1 & Hf1 & Hsu1 & Hwf & t & Ht)].
    + exists w2, c2, ids. cbn [length fmap list_fmap].
      split; [done|]. split; [congruence|]. split; [congruence|].
      split; [lia|]. split; [lia|]. split.
      * intros id Hid. destruct (Hids id Hid) as [? ?].
        split; [by apply list_elem_of_further|done].
      * intros d' [->|Hd']%elem_of_cons Hwf' Hnofault; [|by apply Hall].
        destruct Hwhy as [Hbad|(t & e & Ht)]; [congruence|].
        by rewrite Hnofault in Ht.
    + exists w2, c2, (ids ++ [rd_snapshot_id d]). cbn [length fmap list_fmap].
      split; [done|]. split; [congruence|]. split.
      { rewrite Hr2, Hr1. unfold mark_ids. rewrite <- list_fmap_compose.
        apply list_fmap_ext. intros _ r _. cbn.
        unfold SupabaseClient.set_extracted.
        destruct (String.eqb (response_snapshot_id r) (rd_snapshot_id d)) eqn:E.
        - apply String.eqb_eq in E. cbn.
          rewrite (bool_decide_eq_true_2 (_ ∈ ids ++ _)) by set_solver.
          by destruct (bool_decide _).
        - apply String.eqb_neq in E.
          destruct (decide (response_snapshot_id r ∈ ids)).
          + rewrite !bool_decide_eq_true_2 by set_solver. done.
          + rewrite !bool_decide_eq_false_2 by set_solver. done. }
      split; [lia|]. split; [lia|]. split.
      * intros id [Hid|Hid%list_elem_of_singleton]%elem_of_app.
        -- destruct (Hids id Hid) as [? ?].
           split; [by apply list_elem_of_further|done].
        -- subst id. split; [apply list_elem_of_here|eauto].
      * intros d' [->|Hd']%elem_of_cons Hwf' Hnofault; [set_solver|].
        apply elem_of_app. left. by apply Hall.
Qed.

(** After some identifiers have been marked, the rows still to extract
    are the earlier ones under the other identifiers, unchanged. *)
Lemma unextracted_after_marks (st st' : Store) (ids : list string) :
  response_table st' = mark_ids ids (response_table st) →
  SupabaseClient.unextracted st'
  = filter (λ r, response_snapshot_id r ∉ ids) (SupabaseClient.unextracted st).
Proof.
  unfold SupabaseClient.unextracted, mark_ids. intros ->.
  induction (response_table st) as [|r table IH]; [done|].
  rewrite fmap_cons, !filter_cons, IH.
  destruct (decide (response_snapshot_id r ∈ ids)) as [Hin|Hout].
  - rewrite bool_decide_eq_true_2 by done. cbn [is_email_extracted].
    rewrite decide_False by done.
    destruct (decide (is_email_extracted r = false)); [|done].
    rewrite filter_cons, decide_False; [done|]. by intros Hn.
  - rewrite bool_decide_eq_false_2 by done.
    destruct (decide (is_email_extracted r = false)); [|done].
    by rewrite filter_cons, decide_True.
Qed.

Lemma tick_store (w : World) : store (tick w) = store w.
Proof. done. Qed.

(** The loop ends when every row still to extract is well formed and no
    update of the extracted flag fails: each page that is not empty leaves
    fewer rows to extract. *)
Lemma stage3_loop_ends (env : Env) (batch_size : nat) :
  (0 < batch_size)%nat →
  (∀ t id, db_fault env t (UpdateExtracted id) = None) →
  ∀ (n : nat) (w : World) (c : Worker.stage3_stats),
    length (SupabaseClient.unextracted (store w)) = n →
    Forall (λ r, well_formed (as_dict r) = true)
      (SupabaseClient.unextracted (store w)) →
    ∃ fuel w' c',
      Worker.stage3_loop (SupabaseClient.client env) batch_size fuel (w, c)
      = (Some (Returns tt), (w', c'))
      ∧ (fuel ≤ S n)%nat.
Proof.
  intros Hb Hmark n. induction (lt_wf n) as [n _ IH]. intros w c Hn Hwf.
  destruct (db_fault env (now w) SelectUnextracted) as [e|] eqn:Hfetch.
  { exists 1%nat, (tick w), c. split; [|lia].
    cbn [Worker.stage3_loop get_unextracted_responses SupabaseClient.client].
    unfold call. rewrite get_unextracted_responses_eq, Hfetch. done. }
  destruct (SupabaseClient.unextracted (store w)) as [|r0 pending] eqn:Hpending.
  { exists 1%nat, (tick w), c. split; [|lia].
    cbn [Worker.stage3_loop get_unextracted_responses SupabaseClient.client].
    unfold call. rewrite get_unextracted_responses_eq, Hfetch, Hpending.
    unfold SupabaseClient.range. by rewrite drop_0, take_nil. }
  set (page := as_dict <$> take batch_size (r0 :: pending)).
  destruct (stage3_page_effect env page (tick w) c)
    as (w1 & c1 & ids & Hpage & _ & Htable & _ & _ & _ & Hmarked).
  assert (Hr0 : response_snapshot_id r0 ∈ ids).
  { apply (Hmarked (as_dict r0)).
    - subst page. destruct batch_size; [lia|]. cbn. apply list_elem_of_here.
    - by apply Forall_cons in Hwf as [? _].
    - intros t. apply Hmark. }
  rewrite tick_store in Htable.
  pose proof (unextracted_after_marks _ _ _ Htable) as Hnext.
  rewrite Hpending in Hnext.
  assert (Hless : (length (SupabaseClient.unextracted (store w1)) < n)%nat).
  { rewrite Hnext, <- Hn.
    apply (length_filter_lt _ _ r0); [apply list_elem_of_here|]. by intros Hn'. }
  destruct (IH (length (SupabaseClient.unextracted (store w1)))) with
    (w := w1) (c := c1) as (fuel & w2 & c2 & Hloop & Hfuel).
  - done.
  - done.
  - rewrite Hnext. rewrite Forall_forall in Hwf |- *.
    intros r [_ Hr]%list_elem_of_filter. by apply Hwf.
  - exists (S fuel), w2, c2. split.
    + cbn [Worker.stage3_loop get_unextracted_responses SupabaseClient.client].
      unfold call at 1.
      rewrite get_unextracted_responses_eq, Hfetch, Hpending.
      unfold SupabaseClient.range. rewrite drop_0.
      fold as_dict. fold page.
      destruct page as [|d page'] eqn:Hp.
      { subst page. destruct batch_size; [lia|]. done. }
      rewrite Hpage. exact Hloop.
    + lia.
Qed.

(** The loop never ends while the fetch works and some row still to
    extract has an update that fails at all times: the row stays, so no
    page is empty. *)
Lemma stage3_loop_runs_on (env : Env) (batch_size : nat) (r : response_row) :
  (0 < batch_size)%nat →
  (∀ t, db_fault env t SelectUnextracted = None) →
  (∀ t, db_fault env t (UpdateExtracted (response_snapshot_id r)) ≠ None) →
  ∀ (fuel : nat) (w : World) (c : Worker.stage3_stats),
    r ∈ SupabaseClient.unextracted (store w) →
    (Worker.stage3_loop (SupabaseClient.client env) batch_size fuel (w, c)).1
    = None.
Proof.
  intros Hb Hfetch Hfail. induction fuel as [|fuel IH]; intros w c Hr; [done|].
  cbn [Worker.stage3_loop get_unextracted_responses SupabaseClient.client].
  unfold call at 1. rewrite get_unextracted_responses_eq, Hfetch.
  unfold SupabaseClient.range. rewrite drop_0.
  destruct (SupabaseClient.unextracted (store w)) as [|r0 pending] eqn:Hpending;
    [by apply elem_of_nil in Hr|].
  destruct batch_size as [|b]; [lia|]. cbn [take fmap list_fmap].
  fold (as_dict r0).
  change ((λ r1, ResponseDict (response_snapshot_id r1) (response r1)) <$> take b pending)
    with (as_dict <$> take b pending).
  destruct (stage3_page_effect env (as_dict r0 :: (as_dict <$> take b pending))
              (tick w) c)
    as (w1 & c1 & ids & -> & _ & Htable & _ & _ & Hids & _).
  apply IH.
  rewrite tick_store in Htable.
  rewrite (unextracted_after_marks _ _ _ Htable), Hpending.
  apply list_elem_of_filter. split; [|done].
  intros [_ (t & Ht)]%Hids. by apply (Hfail t).
Qed.

Lemma process_stage3_running {W : Type} (supa : Supabase W)
    (batch_size fuel : nat) (w : W) :
  (Worker.stage3_loop supa batch_size fuel (w, Worker.Stage3Stats 0 0 0 0 0)).1
  = None →
  (Worker.process_stage3 supa batch_size fuel w).1 = None.
Proof.
  unfold Worker.process_stage3.
  destruct (Worker.stage3_loop _ _ _ _) as [[[?|?]|] [? ?]]; by cbn.
Qed.

Lemma null_row_loop_runs_on (fuel : nat) :
  ∀ (n : nat) (c : Worker.stage3_stats),
    (Worker.stage3_loop (SupabaseClient.client (answering results_payload)) 20
       fuel (MkWorld (store null_row_world) n, c)).1 = None.
Proof.
  induction fuel as [|fuel IH]; intros n c; [done|].
  change (Worker.stage3_loop (SupabaseClient.client (answering results_payload))
            20 (S fuel) (MkWorld (store null_row_world) n, c))
    with (Worker.stage3_loop (SupabaseClient.client (answering results_payload))
            20 fuel
            (MkWorld (store null_row_world) (S n),
             Worker.s3_add_processed (Worker.s3_add_failed c))).
  apply IH.
Qed.

Lemma unmarkable_loop (fuel : nat) :
  ∀ n p s f e d,
    Worker.stage3_loop (SupabaseClient.client denying_updates) 20 fuel
      (MkWorld (store unmarkable_world) n, Worker.Stage3Stats p s f e d)
    = (None,
       (MkWorld (store unmarkable_world) (fuel + fuel + n),
        Worker.Stage3Stats (fuel + p) s (fuel + f) e d)).
Proof.
  induction fuel as [|fuel IH]; intros n p s f e d; [done|].
  transitivity
    (Worker.stage3_loop (SupabaseClient.client denying_updates) 20 fuel
       (MkWorld (store unmarkable_world) (S (S n)),
        Worker.Stage3Stats (S p) s (S f) e d)).
  { vm_compute. reflexivity. }
  rewrite IH.
  replace (fuel + fuel + S (S n))%nat with (S fuel + S fuel + n)%nat by lia.
  replace (fuel + S p)%nat with (S fuel + p)%nat by lia.
  replace (fuel + S f)%nat with (S fuel + f)%nat by lia.
  reflexivity.
Qed.

(** ** Isolation of per-item failures, for any clients *)

Section Isolation.
Context {W : Type} (bright : Brightdata W) (supa : Supabase W).

(** Whatever the clients do, raising included, the body of the retrieval
    loop returns and moves exactly one of the three counters by one. *)
Lemma stage2_body_isolates (snap : snapshot_dict)
    (w : W) (c : Worker.stage2_stats) :
  ∃ w' c',
    Worker.stage2_body bright supa snap (w, c) = (Returns tt, (w', c'))
    ∧ Worker.s2_total c' = Worker.s2_total c
    ∧ (Worker.s2_successful c' + Worker.s2_failed c' + Worker.s2_skipped c'
       = S (Worker.s2_successful c + Worker.s2_failed c + Worker.s2_skipped c))%nat.
Proof.
  unfold Worker.stage2_body.
  destruct (nonempty (sd_snapshot_id snap)); cbn [negb];
    [|eexists _, _; split; [reflexivity|]; cbn; lia].
  unfold try_except, mbind, action_bind, call, update.
  destruct (get_snapshot_data bright (sd_snapshot_id snap) w)
    as [[[[[data is_running] is_valid] reason]|e] w1];
    [|eexists _, _; split; [reflexivity|]; cbn; lia].
  destruct (negb is_valid && is_running);
    [eexists _, _; split; [reflexivity|]; cbn; lia|].
  destruct (Json.is_none data);
    [eexists _, _; split; [reflexivity|]; cbn; lia|].
  destruct (save_response supa (sd_snapshot_id snap) data w1)
    as [[[ok err]|e] w2];
    [|eexists _, _; split; [reflexivity|]; cbn; lia].
  destruct ok.
  - destruct (mark_as_processed supa (sd_snapshot_id snap) w2) as [[?|?] w3];
      eexists _, _; split; try reflexivity; cbn; lia.
  - destruct (String.eqb err "duplicate").
    + destruct (mark_as_processed supa (sd_snapshot_id snap) w2) as [[?|?] w3];
        eexists _, _; split; try reflexivity; cbn; lia.
    + eexists _, _; split; [reflexivity|]; cbn; lia.
Qed.

(** An exception out of the retrieval call is counted as a failure, and
    nothing else happens for that snapshot. *)
Lemma stage2_body_counts_exception (snap : snapshot_dict)
    (w w1 : W) (c : Worker.stage2_stats) (e : string) :
  nonempty (sd_snapshot_id snap) = true →
  get_snapshot_data bright (sd_snapshot_id snap) w = (Raises e, w1) →
  Worker.stage2_body bright supa snap (w, c)
  = (Returns tt, (w1, Worker.s2_add_failed c)).
Proof.
  intros Hid Hraise. unfold Worker.stage2_body. rewrite Hid. cbn [negb].
  unfold try_except, mbind, action_bind, call, update. by rewrite Hraise.
Qed.

Lemma stage2_loop_isolates (snapshots : list snapshot_dict) :
  ∀ (w : W) (c : Worker.stage2_stats),
  ∃ w' c',
    for_each snapshots (Worker.stage2_body bright supa) (w, c)
    = (Returns tt, (w', c'))
    ∧ Worker.s2_total c' = Worker.s2_total c
    ∧ (Worker.s2_successful c' + Worker.s2_failed c' + Worker.s2_skipped c'
       = Worker.s2_successful c + Worker.s2_failed c + Worker.s2_skipped c
         + length snapshots)%nat.
Proof.
  induction snapshots as [|snap snapshots IH]; intros w c.
  - exists w, c. cbn. split; [done|]. split; [done|lia].
  - cbn [for_each]. unfold mbind, action_bind.
    destruct (stage2_body_isolates snap w c) as (w1 & c1 & -> & Ht1 & Hs1).
    destruct (IH w1 c1) as (w2 & c2 & -> & Ht2 & Hs2).
    exists w2, c2. cbn [length]. split; [done|]. split; [congruence|lia].
Qed.

(** The retrieval pass returns its statistics whenever the list of
    pending snapshots could be read, and every snapshot of the list is in
    exactly one of its three counters. *)
Lemma process_stage2_returns (w w1 : W) (snapshots : list snapshot_dict) :
  get_unprocessed_snapshots supa w = (Returns snapshots, w1) →
  ∃ stats w',
    Worker.process_stage2 bright supa w = (Returns stats, w')
    ∧ Worker.s2_total stats = length snapshots
    ∧ (Worker.s2_successful stats + Worker.s2_failed stats
       + Worker.s2_skipped stats = length snapshots)%nat.
Proof.
  intros Hfetch. unfold Worker.process_stage2.
  unfold mbind, action_bind. rewrite Hfetch.
  destruct (length snapshots =? 0)%nat eqn:Hlen.
  - apply Nat.eqb_eq in Hlen. rewrite Hlen. by eexists _, _.
  - unfold with_locals.
    destruct (stage2_loop_isolates snapshots w1
                (Worker.Stage2Stats (length snapshots) 0 0 0))
      as (w2 & c2 & -> & Ht & Hs).
    exists c2, w2. cbn in *. split; [done|]. split; [done|lia].
Qed.

(** The loop over the addresses of a response returns or raises; either
    way the three row counters are as before. *)
Lemma stage3_emails_isolate (emails : list string) :
  ∀ (w : W) (c : Worker.stage3_stats),
  ∃ r w' c',
    for_each emails (Worker.stage3_email supa) (w, c) = (r, (w', c'))
    ∧ Worker.total_processed c' = Worker.total_processed c
    ∧ Worker.total_successful c' = Worker.total_successful c
    ∧ Worker.total_failed c' = Worker.total_failed c.
Proof.
  induction emails as [|email emails IH]; intros w c; [by eexists _, w, c|].
  cbn [for_each]. unfold mbind, action_bind.
  unfold Worker.stage3_email at 1. unfold mbind, action_bind, call.
  destruct (save_email supa email w) as [[[ok err]|e] w1];
    [|by eexists _, _, _].
  assert (Hstep : ∃ c1,
    (if ok then update Worker.s3_add_emails
     else if String.eqb err "duplicate" then update Worker.s3_add_duplicates
     else mret tt) (w1, c) = (Returns tt, (w1, c1))
    ∧ Worker.total_processed c1 = Worker.total_processed c
    ∧ Worker.total_successful c1 = Worker.total_successful c
    ∧ Worker.total_failed c1 = Worker.total_failed c).
  { destruct ok; [by eexists|]. destruct (String.eqb err "duplicate"); by eexists. }
  destruct Hstep as (c1 & -> & Hp1 & Hs1 & Hf1).
  destruct (IH w1 c1) as (r & w2 & c2 & -> & Hp2 & Hs2 & Hf2).
  exists r, w2, c2. split; [done|]. split_and!; congruence.
Qed.

(** Whatever the client does, the body of the row loop returns, counts
    the row, and counts it as exactly one of success and failure. *)
Lemma stage3_body_isolates (row : response_dict)
    (w : W) (c : Worker.stage3_stats) :
  ∃ w' c',
    Worker.stage3_body supa row (w, c) = (Returns tt, (w', c'))
    ∧ Worker.total_processed c' = S (Worker.total_processed c)
    ∧ (Worker.total_successful c' + Worker.total_failed c'
       = S (Worker.total_successful c + Worker.total_failed c))%nat.
Proof.
  unfold Worker.stage3_body.
  destruct (negb (nonempty (rd_snapshot_id row)) || Json.is_none (rd_response row));
    [eexists _, _; split; [reflexivity|]; cbn; lia|].
  unfold try_except, mbind, action_bind.
  destruct (stage3_emails_isolate (extract_emails_from_json (rd_response row)) w c)
    as ([[]|e] & w1 & c1 & -> & Hp1 & Hs1 & Hf1);
    [|eexists _, _; split; [reflexivity|]; cbn; lia].
  unfold call, update.
  destruct (mark_email_extracted supa (rd_snapshot_id row) w1) as [[[|]|e] w2];
    eexists _, _; (split; [reflexivity|]); cbn; lia.
Qed.

Lemma stage3_page_isolates (rows : list response_dict) :
  ∀ (w : W) (c : Worker.stage3_stats),
  ∃ w' c',
    for_each rows (Worker.stage3_body supa) (w, c) = (Returns tt, (w', c'))
    ∧ Worker.total_processed c' = (Worker.total_processed c + length rows)%nat
    ∧ (Worker.total_successful c' + Worker.total_failed c'
       = Worker.total_successful c + Worker.total_failed c + length rows)%nat.
Proof.
  induction rows as [|row rows IH]; intros w c.
  - exists w, c. cbn. split; [done|]. split; lia.
  - cbn [for_each]. unfold mbind, action_bind.
    destruct (stage3_body_isolates row w c) as (w1 & c1 & -> & Hp1 & Hs1).
    destruct (IH w1 c1) as (w2 & c2 & -> & Hp2 & Hs2).
    exists w2, c2. cbn [length]. split; [done|]. split; lia.
Qed.

End Isolation.

(** ** The extraction pass: when it ends and when it does not *)

(** C8 (the worker's extraction pass departs from it).  With a store that
    refuses the update of the extracted flag, the pass counts the one row
    as processed and failed on every page, fetches it again, and has not
    returned after any number of pages. *)
Theorem extraction_pass_never_returns_when_update_fails (fuel : nat) :
  Worker.stage3_loop (SupabaseClient.client denying_updates) 20 fuel
    (unmarkable_world, Worker.Stage3Stats 0 0 0 0 0)
  = (None,
     (MkWorld (store unmarkable_world) (fuel + fuel),
      Worker.Stage3Stats fuel 0 fuel 0 0))
  ∧ Worker.process_stage3 (SupabaseClient.client denying_updates) 20 fuel
      unmarkable_world
    = (None, MkWorld (store unmarkable_world) (fuel + fuel)).
Proof.
  assert (Hloop :
    Worker.stage3_loop (SupabaseClient.client denying_updates) 20 fuel
      (unmarkable_world, Worker.Stage3Stats 0 0 0 0 0)
    = (None,
       (MkWorld (store unmarkable_world) (fuel + fuel),
        Worker.Stage3Stats fuel 0 fuel 0 0))).
  { unfold unmarkable_world at 1. rewrite unmarkable_loop.
    by rewrite !Nat.add_0_r. }
  split; [exact Hloop|].
  unfold Worker.process_stage3. by rewrite Hloop.
Qed.

(** C9, amended.  The worker's extraction pass ends for every store in
    which each row still to extract has an identifier and a response that
    is not null, and in which the update of the extracted flag never fails
    (nothing else writes to the store during the pass).  If the update
    fails at all times for a row of the first page, while the fetch works,
    the pass never ends. *)
Theorem extraction_pass_termination (env : Env) (batch_size : nat) (w : World) :
  (0 < batch_size)%nat →
  ((∀ t id, db_fault env t (UpdateExtracted id) = None) →
   Forall (λ r, well_formed (as_dict r) = true)
     (SupabaseClient.unextracted (store w)) →
   ∃ fuel stats w',
     Worker.process_stage3 (SupabaseClient.client env) batch_size fuel w
     = (Some (Returns stats), w'))
  ∧ (∀ r,
       r ∈ SupabaseClient.range 0 batch_size
             (SupabaseClient.unextracted (store w)) →
       (∀ t, db_fault env t SelectUnextracted = None) →
       (∀ t, db_fault env t (UpdateExtracted (response_snapshot_id r)) ≠ None) →
       ∀ fuel,
         (Worker.process_stage3 (SupabaseClient.client env) batch_size fuel w).1
         = None).
Proof.
  intros Hb. split.
  - intros Hmark Hwf.
    destruct (stage3_loop_ends env batch_size Hb Hmark _ w
                (Worker.Stage3Stats 0 0 0 0 0) eq_refl Hwf)
      as (fuel & w' & c' & Hloop & _).
    exists fuel, c', w'. unfold Worker.process_stage3. by rewrite Hloop.
  - intros r Hr Hfetch Hfail fuel.
    apply process_stage3_running.
    apply (stage3_loop_runs_on env batch_size r); try done.
    unfold SupabaseClient.range in Hr. rewrite drop_0 in Hr.
    by apply (subseteq_take batch_size).
Qed.

Lemma extraction_pass_termination_witness :
  (∃ fuel stats w',
     Worker.process_stage3 (SupabaseClient.client (answering results_payload))
       20 fuel stored_world
     = (Some (Returns stats), w'))
  ∧ (∀ fuel,
       (Worker.process_stage3 (SupabaseClient.client denying_updates) 20 fuel
          unmarkable_world).1 = None).
Proof.
  split.
  - apply (extraction_pass_termination (answering results_payload) 20
             stored_world); [lia|reflexivity|].
    vm_compute. repeat constructor.
  - apply (proj2 (extraction_pass_termination denying_updates 20
                    unmarkable_world ltac:(lia))
             (ResponseRow "s1" (JObj [("keyword", JStr "pizza")]) false)).
    + vm_compute. apply list_elem_of_here.
    + reflexivity.
    + intros t. discriminate.
Defined.

(** The statement of C9 as it stands fails on a row whose response is
    null: no update ever fails in this world, and the pass never ends,
    for it skips the row without marking it and fetches it again. *)
Lemma extraction_pass_stuck_on_null_response :
  (∀ t id, db_fault (answering results_payload) t (UpdateExtracted id) = None)
  ∧ ¬ ∃ fuel stats w',
        Worker.process_stage3 (SupabaseClient.client (answering results_payload))
          20 fuel null_row_world
        = (Some (Returns stats), w').
Proof.
  split; [done|].
  intros (fuel & stats & w' & Hrun).
  pose proof (process_stage3_running
                (SupabaseClient.client (answering results_payload)) 20 fuel
                null_row_world
                (null_row_loop_runs_on fuel 0 (Worker.Stage3Stats 0 0 0 0 0)))
    as Hnone.
  rewrite Hrun in Hnone. discriminate.
Qed.

(** ** Retrieval of a snapshot whose response is stored already *)

Lemma classify_valid_flags (data : json) :
  classify data = Valid →
  BrightdataClient.validate_response data = (false, true, EmptyString).
Proof.
  unfold classify. rewrite validate_response_flags; cbv zeta.
  destruct (has_running_marker _); [done|].
  by destruct (_ && _).
Qed.

Lemma get_unprocessed_snapshots_eq (env : Env) (w : World) :
  SupabaseClient.get_unprocessed_snapshots env w
  = (Returns
       (match db_fault env (now w) SelectUnprocessed with
        | Some _ => []
        | None =>
            (λ r, SnapshotDict (snapshot_id r) (query r))
              <$> SupabaseClient.unprocessed (store w)
        end),
     tick w).
Proof.
  unfold SupabaseClient.get_unprocessed_snapshots. unfold_action.
  destruct (db_fault env (now w) SelectUnprocessed); [reflexivity|].
  by destruct w as [[? ? ?] ?].
Qed.

Lemma save_response_duplicate (env : Env) (id : string) (data : json) (w : World) :
  db_fault env (now w) (InsertResponse id) = None →
  SupabaseClient.has_response id (store w) = true →
  SupabaseClient.save_response env id data w
  = (Returns (false, "duplicate"), tick w).
Proof.
  intros Hfault Hhas. unfold SupabaseClient.save_response. unfold_action.
  by rewrite Hfault, Hhas.
Qed.

Lemma mark_as_processed_eq (env : Env) (id : string) (w : World) :
  SupabaseClient.mark_as_processed env id w
  = match db_fault env (now w) (UpdateProcessed id) with
    | Some _ => (Returns false, tick w)
    | None =>
        (Returns true,
         MkWorld (MkStore (SupabaseClient.set_processed id <$> snapshot_table (store w))
                    (response_table (store w)) (email_table (store w)))
                 (S (now w)))
    end.
Proof.
  unfold SupabaseClient.mark_as_processed. unfold_action.
  by destruct (db_fault env (now w) (UpdateProcessed id)).
Qed.

(** Marking a snapshot that has a row leaves it processed. *)
Lemma set_processed_is_processed (id : string) (table : list snapshot_row)
    (responses : list response_row) (emails : list string) :
  id ∈ snapshot_id <$> table →
  is_processed id
    (MkStore (SupabaseClient.set_processed id <$> table) responses emails)
  = true.
Proof.
  intros Hid. unfold is_processed. cbn [snapshot_table].
  apply andb_true_iff. split.
  - apply list_elem_of_fmap in Hid as (r & -> & Hr).
    apply existsb_exists. exists (SupabaseClient.set_processed (snapshot_id r) r).
    split.
    + apply list_elem_of_In, list_elem_of_fmap. by exists r.
    + unfold SupabaseClient.set_processed. rewrite String.eqb_refl. cbn.
      apply String.eqb_refl.
  - apply forallb_forall. intros r Hr.
    apply list_elem_of_In, list_elem_of_fmap in Hr as (r0 & -> & Hr0).
    unfold SupabaseClient.set_processed.
    destruct (String.eqb (snapshot_id r0) id) eqn:E; cbn; by rewrite E.
Qed.

Lemma set_processed_keys (id : string) (table : list snapshot_row) :
  snapshot_id <$> (SupabaseClient.set_processed id <$> table)
  = snapshot_id <$> table.
Proof.
  rewrite <- list_fmap_compose. apply list_fmap_ext. intros _ r _. cbn.
  unfold SupabaseClient.set_processed.
  by destruct (String.eqb (snapshot_id r) id).
Qed.

(** The worker's loop body on a snapshot whose response is stored
    already, when the retrieval yields a valid payload and the store
    takes the two statements: the insert is rejected as a duplicate, the
    snapshot is marked processed and counted under [skipped]. *)
Lemma worker_duplicate_step (env : Env) (snap : snapshot_dict) (data : json)
    (w : World) (c : Worker.stage2_stats) :
  nonempty (sd_snapshot_id snap) = true →
  SupabaseClient.has_response (sd_snapshot_id snap) (store w) = true →
  http_get env (now w) (sd_snapshot_id snap) = HttpBody data →
  classify data = Valid →
  Json.truthy data = true →
  db_fault env (S (now w)) (InsertResponse (sd_snapshot_id snap)) = None →
  db_fault env (S (S (now w))) (UpdateProcessed (sd_snapshot_id snap)) = None →
  Worker.stage2_body (BrightdataClient.client env) (SupabaseClient.client env)
    snap (w, c)
  = (Returns tt,
     (MkWorld
        (MkStore
           (SupabaseClient.set_processed (sd_snapshot_id snap)
              <$> snapshot_table (store w))
           (response_table (store w))
           (email_table (store w)))
        (S (S (S (now w)))),
      Worker.s2_add_skipped c)).
Proof.
  destruct w as [st t]. cbn [store now].
  intros Hid Hhas Hget Hvalid Hdata Hinsert Hupdate.
  assert (Hsome : Json.is_none data = false) by (by destruct data).
  unfold Worker.stage2_body. rewrite Hid. cbn [negb].
  cbn [get_snapshot_data save_response mark_as_processed
         BrightdataClient.client SupabaseClient.client].
  unfold try_except at 1. unfold mbind, action_bind, call.
  unfold BrightdataClient.get_snapshot_data. cbn [now tick store].
  rewrite Hget, (classify_valid_flags data Hvalid).
  cbn [negb andb]. rewrite Hsome.
  rewrite save_response_duplicate by (cbn [now store]; done).
  change (String.eqb "duplicate" "duplicate") with true. cbv iota beta.
  rewrite mark_as_processed_eq.
  cbn [now tick store snapshot_table response_table email_table].
  by rewrite Hupdate.
Qed.

(** The same for the body of the dashboard's pass, which has a counter of
    its own for duplicates. *)
Lemma dashboard_duplicate_step (env : Env) (snap : snapshot_dict) (data : json)
    (w : World) (c : App.retrieval_stats) :
  SupabaseClient.has_response (sd_snapshot_id snap) (store w) = true →
  http_get env (now w) (sd_snapshot_id snap) = HttpBody data →
  classify data = Valid →
  Json.truthy data = true →
  db_fault env (S (now w)) (InsertResponse (sd_snapshot_id snap)) = None →
  db_fault env (S (S (now w))) (UpdateProcessed (sd_snapshot_id snap)) = None →
  App.snapshot_body (BrightdataClient.client env) (SupabaseClient.client env)
    snap (w, c)
  = (Returns tt,
     (MkWorld
        (MkStore
           (SupabaseClient.set_processed (sd_snapshot_id snap)
              <$> snapshot_table (store w))
           (response_table (store w))
           (email_table (store w)))
        (S (S (S (now w)))),
      App.add_duplicate_snapshots c)).
Proof.
  destruct w as [st t]. cbn [store now].
  intros Hhas Hget Hvalid Hdata Hinsert Hupdate.
  unfold App.snapshot_body.
  cbn [get_snapshot_data save_response mark_as_processed
         BrightdataClient.client SupabaseClient.client].
  unfold mbind at 1, action_bind at 1. unfold try_except at 1.
  unfold mbind at 1, action_bind at 1. unfold call at 1.
  unfold BrightdataClient.get_snapshot_data. cbn [now tick store].
  rewrite Hget, (classify_valid_flags data Hvalid).
  cbn [negb]. cbn [mret action_ret]. rewrite Hdata.
  unfold mbind at 1, action_bind at 1. unfold call at 1.
  rewrite save_response_duplicate by (cbn [now store]; done).
  change (String.eqb "duplicate" "duplicate") with true. cbv iota beta.
  unfold mbind, action_bind, update, call.
  rewrite mark_as_processed_eq.
  cbn [now tick store snapshot_table response_table email_table].
  by rewrite Hupdate.
Qed.

(** C3.  A snapshot whose response is stored already, handled twice by
    the retrieval pass (the retrieval yields a valid payload that is not
    empty, and the store takes the insert and the update): each time the
    insert is rejected as a duplicate, so no response row is added, and the
    snapshot is processed after the first and after the second handling;
    the second time, as the first, the worker counts it under [skipped],
    its counter for duplicates, and the dashboard's pass under
    [duplicate_snapshots]; neither moves its failure counter.  The store
    and the counters the first handling starts from are arbitrary. *)
Theorem duplicate_retrieval_twice (env : Env) (snap : snapshot_dict)
    (w : World) (c : Worker.stage2_stats) (k : App.retrieval_stats) :
  let id := sd_snapshot_id snap in
  nonempty id = true →
  id ∈ snapshot_id <$> snapshot_table (store w) →
  SupabaseClient.has_response id (store w) = true →
  (∀ t, ∃ data, http_get env t id = HttpBody data
                ∧ classify data = Valid ∧ Json.truthy data = true) →
  (∀ t, db_fault env t (InsertResponse id) = None) →
  (∀ t, db_fault env t (UpdateProcessed id) = None) →
  ∃ w1 w2,
    Worker.stage2_body (BrightdataClient.client env) (SupabaseClient.client env)
      snap (w, c)
    = (Returns tt, (w1, Worker.s2_add_skipped c))
    ∧ Worker.stage2_body (BrightdataClient.client env)
        (SupabaseClient.client env) snap (w1, Worker.s2_add_skipped c)
      = (Returns tt, (w2, Worker.s2_add_skipped (Worker.s2_add_skipped c)))
    ∧ for_each [snap; snap]
        (Worker.stage2_body (BrightdataClient.client env)
           (SupabaseClient.client env)) (w, c)
      = (Returns tt, (w2, Worker.s2_add_skipped (Worker.s2_add_skipped c)))
    ∧ App.snapshot_body (BrightdataClient.client env)
        (SupabaseClient.client env) snap (w, k)
      = (Returns tt, (w1, App.add_duplicate_snapshots k))
    ∧ App.snapshot_body (BrightdataClient.client env)
        (SupabaseClient.client env) snap (w1, App.add_duplicate_snapshots k)
      = (Returns tt,
         (w2, App.add_duplicate_snapshots (App.add_duplicate_snapshots k)))
    ∧ is_processed id (store w1) = true
    ∧ is_processed id (store w2) = true
    ∧ response_table (store w1) = response_table (store w)
    ∧ response_table (store w2) = response_table (store w)
    ∧ Worker.s2_skipped (Worker.s2_add_skipped (Worker.s2_add_skipped c))
      = S (S (Worker.s2_skipped c))
    ∧ Worker.s2_failed (Worker.s2_add_skipped (Worker.s2_add_skipped c))
      = Worker.s2_failed c
    ∧ App.duplicate_snapshots
        (App.add_duplicate_snapshots (App.add_duplicate_snapshots k))
      = S (S (App.duplicate_snapshots k))
    ∧ App.failed (App.add_duplicate_snapshots (App.add_duplicate_snapshots k))
      = App.failed k.
Proof.
  cbv zeta. intros Hid Hrow Hhas Hget Hinsert Hupdate.
  set (id := sd_snapshot_id snap) in *.
  set (st1 := MkStore (SupabaseClient.set_processed id <$> snapshot_table (store w))
                (response_table (store w)) (email_table (store w))).
  set (w1 := MkWorld st1 (S (S (S (now w))))).
  set (st2 := MkStore (SupabaseClient.set_processed id <$> snapshot_table st1)
                (response_table st1) (email_table st1)).
  set (w2 := MkWorld st2 (S (S (S (now w1))))).
  destruct (Hget (now w)) as (data1 & Hget1 & Hvalid1 & Hdata1).
  destruct (Hget (now w1)) as (data2 & Hget2 & Hvalid2 & Hdata2).
  assert (Hhas1 : SupabaseClient.has_response id (store w1) = true) by done.
  assert (Hfirst : ∀ c0,
    Worker.stage2_body (BrightdataClient.client env) (SupabaseClient.client env)
      snap (w, c0) = (Returns tt, (w1, Worker.s2_add_skipped c0))).
  { intros c0. by apply (worker_duplicate_step env snap data1). }
  assert (Hsecond : ∀ c0,
    Worker.stage2_body (BrightdataClient.client env) (SupabaseClient.client env)
      snap (w1, c0) = (Returns tt, (w2, Worker.s2_add_skipped c0))).
  { intros c0. by apply (worker_duplicate_step env snap data2). }
  exists w1, w2. split_and!.
  - apply Hfirst.
  - apply Hsecond.
  - cbn [for_each]. unfold mbind, action_bind, mret, action_ret.
    by rewrite Hfirst, Hsecond.
  - by apply (dashboard_duplicate_step env snap data1).
  - by apply (dashboard_duplicate_step env snap data2).
  - by apply set_processed_is_processed.
  - apply set_processed_is_processed. cbn [st1 snapshot_table].
    by rewrite set_processed_keys.
  - done.
  - done.
  - done.
  - done.
  - done.
  - done.
Qed.

Lemma duplicate_retrieval_twice_witness :
  ∃ w1 w2,
    Worker.stage2_body (BrightdataClient.client (answering results_payload))
      (SupabaseClient.client (answering results_payload))
      (SnapshotDict "s1" ["q1"; "q2"]) (stored_world, Worker.Stage2Stats 1 0 0 0)
    = (Returns tt, (w1, Worker.Stage2Stats 1 0 0 1))
    ∧ Worker.stage2_body (BrightdataClient.client (answering results_payload))
        (SupabaseClient.client (answering results_payload))
        (SnapshotDict "s1" ["q1"; "q2"]) (w1, Worker.Stage2Stats 1 0 0 1)
      = (Returns tt, (w2, Worker.Stage2Stats 1 0 0 2))
    ∧ for_each [SnapshotDict "s1" ["q1"; "q2"]; SnapshotDict "s1" ["q1"; "q2"]]
        (Worker.stage2_body (BrightdataClient.client (answering results_payload))
           (SupabaseClient.client (answering results_payload)))
        (stored_world, Worker.Stage2Stats 1 0 0 0)
      = (Returns tt, (w2, Worker.Stage2Stats 1 0 0 2))
    ∧ App.snapshot_body (BrightdataClient.client (answering results_payload))
        (SupabaseClient.client (answering results_payload))
        (SnapshotDict "s1" ["q1"; "q2"])
        (stored_world, App.RetrievalStats 1 0 0 0 0 0 0 0)
      = (Returns tt, (w1, App.RetrievalStats 1 0 0 0 0 1 0 0))
    ∧ App.snapshot_body (BrightdataClient.client (answering results_payload))
        (SupabaseClient.client (answering results_payload))
        (SnapshotDict "s1" ["q1"; "q2"])
        (w1, App.RetrievalStats 1 0 0 0 0 1 0 0)
      = (Returns tt, (w2, App.RetrievalStats 1 0 0 0 0 2 0 0))
    ∧ is_processed "s1" (store w1) = true
    ∧ is_processed "s1" (store w2) = true
    ∧ response_table (store w1) = response_table (store stored_world)
    ∧ response_table (store w2) = response_table (store stored_world)
    ∧ Worker.s2_skipped (Worker.Stage2Stats 1 0 0 2) = 2%nat
    ∧ Worker.s2_failed (Worker.Stage2Stats 1 0 0 2) = 0%nat
    ∧ App.duplicate_snapshots (App.RetrievalStats 1 0 0 0 0 2 0 0) = 2%nat
    ∧ App.failed (App.RetrievalStats 1 0 0 0 0 2 0 0) = 0%nat.
Proof.
  apply (duplicate_retrieval_twice (answering results_payload)
           (SnapshotDict "s1" ["q1"; "q2"]) stored_world
           (Worker.Stage2Stats 1 0 0 0) (App.RetrievalStats 1 0 0 0 0 0 0 0)).
  - reflexivity.
  - vm_compute. apply list_elem_of_here.
  - vm_compute; reflexivity.
  - intros t. exists results_payload. split_and!; [reflexivity|vm_compute; reflexivity|reflexivity].
  - reflexivity.
  - reflexivity.
Defined.

(** ** The pages the extraction pass fetches *)

Section Recording.
Context {W : Type} (supa : Supabase W).

(** With the recording client the pass does what it does with the client
    itself; the record only grows at a fetch. *)
Lemma stage3_email_recorded (email : string) (w : W) (log : list fetch)
    (c : Worker.stage3_stats) :
  Worker.stage3_email (recording_fetches supa) email ((w, log), c)
  = let '(r, (w', c')) := Worker.stage3_email supa email (w, c) in
    (r, ((w', log), c')).
Proof.
  unfold Worker.stage3_email, recording_fetches. cbn [save_email].
  unfold mbind, action_bind, call.
  destruct (save_email supa email w) as [[[ok err]|e] w1]; [|done].
  destruct ok; [done|]. by destruct (String.eqb err "duplicate").
Qed.

Lemma stage3_emails_recorded (emails : list string) :
  ∀ (w : W) (log : list fetch) (c : Worker.stage3_stats),
    for_each emails (Worker.stage3_email (recording_fetches supa)) ((w, log), c)
    = let '(r, (w', c')) := for_each emails (Worker.stage3_email supa) (w, c) in
      (r, ((w', log), c')).
Proof.
  induction emails as [|email emails IH]; intros w log c; [done|].
  cbn [for_each]. unfold mbind, action_bind.
  rewrite stage3_email_recorded.
  destruct (Worker.stage3_email supa email (w, c)) as [[[]|e] [w1 c1]]; [|done].
  apply IH.
Qed.

Lemma stage3_body_recorded (row : response_dict) (w : W) (log : list fetch)
    (c : Worker.stage3_stats) :
  Worker.stage3_body (recording_fetches supa) row ((w, log), c)
  = let '(r, (w', c')) := Worker.stage3_body supa row (w, c) in
    (r, ((w', log), c')).
Proof.
  unfold Worker.stage3_body.
  destruct (negb (nonempty (rd_snapshot_id row)) || Json.is_none (rd_response row));
    [done|].
  unfold try_except, mbind, action_bind.
  rewrite stage3_emails_recorded.
  destruct (for_each (extract_emails_from_json (rd_response row))
              (Worker.stage3_email supa) (w, c)) as [[[]|e] [w1 c1]]; [|done].
  unfold recording_fetches. cbn [mark_email_extracted]. unfold call, update.
  by destruct (mark_email_extracted supa (rd_snapshot_id row) w1)
    as [[[|]|e] w2].
Qed.

Lemma stage3_page_recorded (rows : list response_dict) :
  ∀ (w : W) (log : list fetch) (c : Worker.stage3_stats),
    for_each rows (Worker.stage3_body (recording_fetches supa)) ((w, log), c)
    = let '(r, (w', c')) := for_each rows (Worker.stage3_body supa) (w, c) in
      (r, ((w', log), c')).
Proof.
  induction rows as [|row rows IH]; intros w log c; [done|].
  cbn [for_each]. unfold mbind, action_bind.
  rewrite stage3_body_recorded.
  destruct (Worker.stage3_body supa row (w, c)) as [[[]|e] [w1 c1]]; [|done].
  apply IH.
Qed.

End Recording.

Lemma extracted_in_by_key (r : response_row) (table : list response_row) :
  NoDup (response_snapshot_id <$> table) →
  r ∈ table →
  is_email_extracted r = true →
  extracted_in (response_snapshot_id r) table.
Proof.
  intros Hkey Hr Hflag. apply Forall_forall. intros r' Hr' Hid.
  assert (r' = r) as ->; [|done].
  apply list_elem_of_lookup in Hr as [i Hi].
  apply list_elem_of_lookup in Hr' as [j Hj].
  assert (i = j) as ->.
  { apply (NoDup_lookup _ i j (response_snapshot_id r) Hkey).
    - by rewrite list_lookup_fmap, Hi.
    - by rewrite list_lookup_fmap, Hj, <- Hid. }
  congruence.
Qed.

Lemma extracted_in_mark_ids (id : string) (ids : list string)
    (table : list response_row) :
  extracted_in id table → extracted_in id (mark_ids ids table).
Proof.
  unfold extracted_in, mark_ids. intros H.
  apply Forall_fmap. eapply Forall_impl; [exact H|].
  intros r Hr. cbn. by destruct (bool_decide _).
Qed.

(** A page of rows still to extract holds no row under an identifier whose
    rows are all extracted. *)
Lemma page_of_unextracted (id : string) (limit : nat) (st : Store) :
  extracted_in id (response_table st) →
  Forall (λ d, rd_snapshot_id d ≠ id)
    (as_dict <$> SupabaseClient.range 0 limit (SupabaseClient.unextracted st)).
Proof.
  intros Hid. apply Forall_fmap, Forall_forall. intros r Hr. cbn.
  unfold SupabaseClient.range in Hr. rewrite drop_0 in Hr.
  apply (subseteq_take limit) in Hr.
  apply list_elem_of_filter in Hr as [Hflag Hr].
  intros E. unfold extracted_in in Hid. rewrite Forall_forall in Hid.
  specialize (Hid r Hr E). congruence.
Qed.

Lemma mark_ids_mark_ids (ids1 ids2 : list string) (table : list response_row) :
  mark_ids ids2 (mark_ids ids1 table) = mark_ids (ids1 ++ ids2) table.
Proof.
  unfold mark_ids. rewrite <- list_fmap_compose.
  apply list_fmap_ext. intros _ r _. cbn.
  destruct (decide (response_snapshot_id r ∈ ids1)) as [H1|H1].
  - rewrite (bool_decide_eq_true_2 (_ ∈ ids1)) by done.
    rewrite (bool_decide_eq_true_2 (_ ∈ ids1 ++ ids2)) by set_solver.
    cbn. by destruct (bool_decide _).
  - rewrite (bool_decide_eq_false_2 (_ ∈ ids1)) by done.
    destruct (decide (response_snapshot_id r ∈ ids2)) as [H2|H2].
    + rewrite !bool_decide_eq_true_2 by set_solver. done.
    + rewrite !bool_decide_eq_false_2 by set_solver. done.
Qed.

Lemma mark_ids_keys (ids : list string) (table : list response_row) :
  response_snapshot_id <$> mark_ids ids table = response_snapshot_id <$> table.
Proof.
  unfold mark_ids. rewrite <- list_fmap_compose.
  apply list_fmap_ext. intros _ r _. cbn. by destruct (bool_decide _).
Qed.

Lemma mark_ids_keeps_extracted (ids : list string) (r : response_row)
    (table : list response_row) :
  is_email_extracted r = true → r ∈ table → r ∈ mark_ids ids table.
Proof.
  intros Hflag Hr. unfold mark_ids. apply list_elem_of_fmap.
  exists r. split; [|done].
  destruct r as [id data flag]. cbn in *. subst flag.
  by destruct (bool_decide _).
Qed.

Lemma fetched_page_bounded (env : Env) (limit t : nat) (st : Store) :
  (length
     (match db_fault env t SelectUnextracted with
      | Some _ => []
      | None =>
          (λ r, ResponseDict (response_snapshot_id r) (response r))
            <$> SupabaseClient.range 0 limit (SupabaseClient.unextracted st)
      end) ≤ limit)%nat.
Proof.
  destruct (db_fault env t SelectUnextracted); cbn; [lia|].
  unfold SupabaseClient.range. rewrite length_fmap, length_take. lia.
Qed.

(** From any state of the loop in which the rows under [id] are all
    extracted, every page fetched from then on is asked from offset zero,
    holds at most [batch_size] rows and none under [id]; and the response
    table changes by extracted flags being set and in no other way. *)
Lemma stage3_loop_pages (env : Env) (batch_size : nat) (id : string) :
  ∀ (fuel : nat) (w : World) (log0 : list fetch) (c : Worker.stage3_stats)
    ended w' log c',
    extracted_in id (response_table (store w)) →
    Worker.stage3_loop (recording_fetches (SupabaseClient.client env))
      batch_size fuel ((w, log0), c)
    = (ended, ((w', log), c')) →
    ∃ pages ids,
      log = log0 ++ pages
      ∧ Forall (page_without batch_size id) pages
      ∧ response_table (store w') = mark_ids ids (response_table (store w)).
Proof.
  induction fuel as [|fuel IH]; intros w log0 c ended w' log c' Hid Hrun.
  - cbn in Hrun. injection Hrun as <- <- <- <-.
    exists [], []. by rewrite app_nil_r, mark_ids_nil.
  - cbn [Worker.stage3_loop] in Hrun.
    unfold recording_fetches at 1 in Hrun.
    cbn [get_unextracted_responses SupabaseClient.client] in Hrun.
    unfold mbind, action_bind, mret, action_ret, call, update in Hrun.
    rewrite get_unextracted_responses_eq in Hrun.
    pose proof (fetched_page_bounded env batch_size (now w) (store w)) as Hlen.
    assert (Hrows : Forall (λ d, rd_snapshot_id d ≠ id)
              (match db_fault env (now w) SelectUnextracted with
               | Some _ => []
               | None =>
                   (λ r, ResponseDict (response_snapshot_id r) (response r))
                     <$> SupabaseClient.range 0 batch_size
                           (SupabaseClient.unextracted (store w))
               end)).
    { destruct (db_fault env (now w) SelectUnextracted); [constructor|].
      by apply page_of_unextracted. }
    destruct (match db_fault env (now w) SelectUnextracted with
              | Some _ => []
              | None => _
              end) as [|d rows] eqn:Hpage.
    + injection Hrun as <- <- <- <-.
      exists [Fetch batch_size 0 []], []. rewrite mark_ids_nil.
      split; [done|]. split; [|done].
      constructor; [|constructor]. by split_and!; cbn; try lia.
    + rewrite stage3_page_recorded in Hrun.
      destruct (stage3_page_effect env (d :: rows) (tick w) c)
        as (w1 & c1 & ids & Hbody & _ & Htable & _).
      rewrite Hbody in Hrun.
      apply IH in Hrun as (pages & ids' & -> & Hpages & Htable').
      * exists (Fetch batch_size 0 (d :: rows) :: pages), (ids ++ ids').
        split; [by rewrite <- app_assoc|]. split.
        -- constructor; [|done]. by split_and!.
        -- rewrite Htable', Htable. apply mark_ids_mark_ids.
      * rewrite Htable. by apply extracted_in_mark_ids.
Qed.

(** C4.  A response row whose extracted flag is set is not fetched again:
    from any state of the worker's extraction loop, every later fetch asks
    for at most [batch_size] rows (20 by default) from offset zero, hands
    out at most that many, all of them rows that are not yet extracted, so
    none under the identifier of the row; and the pass leaves the row in
    the table with its flag set and the identifiers as they were, so the
    same holds for every pass after it. *)
Theorem extracted_rows_are_not_fetched_again (env : Env)
    (batch_size fuel : nat) (w : World) (r : response_row)
    (log0 : list fetch) (c : Worker.stage3_stats)
    (ended : option (outcome unit)) (w' : World) (log : list fetch)
    (c' : Worker.stage3_stats) :
  NoDup (response_snapshot_id <$> response_table (store w)) →
  r ∈ response_table (store w) →
  is_email_extracted r = true →
  Worker.stage3_loop (recording_fetches (SupabaseClient.client env))
    batch_size fuel ((w, log0), c)
  = (ended, ((w', log), c')) →
  (∃ pages,
     log = log0 ++ pages
     ∧ Forall (page_without batch_size (response_snapshot_id r)) pages
     ∧ Forall (λ f, as_dict r ∉ fetch_rows f) pages)
  ∧ NoDup (response_snapshot_id <$> response_table (store w'))
  ∧ r ∈ response_table (store w')
  ∧ extracted_in (response_snapshot_id r) (response_table (store w')).
Proof.
  intros Hkey Hr Hflag Hrun.
  pose proof (extracted_in_by_key r _ Hkey Hr Hflag) as Hid.
  destruct (stage3_loop_pages env batch_size (response_snapshot_id r) fuel
              w log0 c ended w' log c' Hid Hrun)
    as (pages & ids & -> & Hpages & Htable).
  split.
  - exists pages. split; [done|]. split; [done|].
    eapply Forall_impl; [exact Hpages|].
    intros f (_ & _ & _ & Hrows) Hin.
    rewrite Forall_forall in Hrows. by apply (Hrows _ Hin).
  - rewrite Htable, mark_ids_keys. split; [done|]. split.
    + by apply mark_ids_keeps_extracted.
    + by apply extracted_in_mark_ids.
Qed.

(** A full pass over a table of two rows, one of them extracted: the one
    page fetched holds the other row only. *)
Lemma extracted_rows_are_not_fetched_again_witness :
  (∃ pages,
     [Fetch 20 0 [ResponseDict "s2" results_payload]; Fetch 20 0 []]
     = [] ++ pages
     ∧ Forall (page_without 20 "s1") pages
     ∧ Forall (λ f, as_dict (ResponseRow "s1" results_payload true)
                    ∉ fetch_rows f) pages)
  ∧ NoDup (response_snapshot_id
             <$> [ResponseRow "s1" results_payload true;
                  ResponseRow "s2" results_payload true])
  ∧ ResponseRow "s1" results_payload true
      ∈ [ResponseRow "s1" results_payload true;
         ResponseRow "s2" results_payload true]
  ∧ extracted_in "s1"
      [ResponseRow "s1" results_payload true;
       ResponseRow "s2" results_payload true].
Proof.
  apply (extracted_rows_are_not_fetched_again (answering results_payload) 20 5
           (MkWorld (MkStore [] [ResponseRow "s1" results_payload true;
                                 ResponseRow "s2" results_payload false] []) 0)
           (ResponseRow "s1" results_payload true)
           [] (Worker.Stage3Stats 0 0 0 0 0)
           (Some (Returns tt))
           (MkWorld (MkStore [] [ResponseRow "s1" results_payload true;
                                 ResponseRow "s2" results_payload true]
                             ["info@pizza.example"]) 4)
           [Fetch 20 0 [ResponseDict "s2" results_payload]; Fetch 20 0 []]
           (Worker.Stage3Stats 1 1 0 1 0)).
  - cbn. repeat constructor; set_solver.
  - apply list_elem_of_here.
  - reflexivity.
  - vm_compute. reflexivity.
Defined.

(** ** The recording clients change nothing but the record *)

Section Faithful.
Context {W : Type} (bright : Brightdata W) (supa : Supabase W).

(** The loop run with the recording client is the loop itself, with the
    record carried along. *)
Lemma stage3_loop_recorded (batch_size : nat) :
  ∀ (fuel : nat) (w : W) (log : list fetch) (c : Worker.stage3_stats),
    Worker.stage3_loop supa batch_size fuel (w, c)
    = let '(ended, ((w', _), c')) :=
        Worker.stage3_loop (recording_fetches supa) batch_size fuel
          ((w, log), c) in
      (ended, (w', c')).
Proof.
  induction fuel as [|fuel IH]; intros w log c; [done|].
  cbn [Worker.stage3_loop].
  unfold recording_fetches at 1. cbn [get_unextracted_responses].
  unfold mbind, action_bind, mret, action_ret, call, update.
  destruct (get_unextracted_responses supa batch_size 0 w) as [[rows|e] w1];
    [|done].
  destruct rows as [|d rows]; [done|].
  rewrite stage3_page_recorded.
  destruct (for_each (d :: rows) (Worker.stage3_body supa) (w1, c))
    as [[[]|e] [w2 c2]]; [|done].
  apply IH.
Qed.

Lemma batch_body_recorded (queries : list string) (b i : nat) (w : W)
    (log : list (list string)) (c : EmailScraperEngine.statistics) :
  EmailScraperEngine.batch_body (recording_submissions bright)
    (lift_supabase supa) queries b i ((w, log), c)
  = let '(r, (w', c')) :=
      EmailScraperEngine.batch_body bright supa queries b i (w, c) in
    (r, ((w', log ++ [take b (drop i queries)]), c')).
Proof.
  unfold EmailScraperEngine.batch_body, recording_submissions, lift_supabase.
  cbn [send_request save_snapshot].
  unfold mbind, action_bind, mret, action_ret, call, update. cbn beta iota.
  destruct (send_request bright (take b (drop i queries)) w)
    as [[response|e] w1]; [|done].
  destruct (option_bind _ _ _ response) as [snapshot_id|]; [|done].
  by destruct (save_snapshot supa snapshot_id (take b (drop i queries)) w1)
    as [[[|]|e] w2].
Qed.

Lemma batch_loop_recorded (queries : list string) (b : nat) (starts : list nat) :
  ∀ (w : W) (log : list (list string)) (c : EmailScraperEngine.statistics),
    for_each starts (EmailScraperEngine.batch_body bright supa queries b) (w, c)
    = let '(r, ((w', _), c')) :=
        for_each starts
          (EmailScraperEngine.batch_body (recording_submissions bright)
             (lift_supabase supa) queries b) ((w, log), c) in
      (r, (w', c')).
Proof.
  induction starts as [|i starts IH]; intros w log c; [done|].
  cbn [for_each]. unfold mbind, action_bind.
  rewrite batch_body_recorded.
  destruct (EmailScraperEngine.batch_body bright supa queries b i (w, c))
    as [[[]|e] [w1 c1]]; [|done].
  apply IH.
Qed.

(** [process_queries] with the recording clients returns what it returns
    with the clients themselves, and leaves their world as they do. *)
Lemma process_queries_recorded (queries : list string) (batch_size : Z) (w : W) :
  EmailScraperEngine.process_queries bright supa queries batch_size w
  = let '(r, (w', _)) :=
      EmailScraperEngine.process_queries (recording_submissions bright)
        (lift_supabase supa) queries batch_size (w, []) in
    (r, w').
Proof.
  unfold EmailScraperEngine.process_queries.
  destruct (batch_size =? 0)%Z; [done|].
  unfold mbind, action_bind, with_locals, mret, action_ret.
  rewrite (batch_loop_recorded queries (Z.to_nat batch_size) _ w []).
  by destruct (for_each _ _ _) as [[[]|e] [[w1 log1] c1]].
Qed.

End Faithful.

(** ** The dashboard's extraction pass, for comparison *)

(** [process_all_responses_for_emails] fetches at most a fixed number of
    pages and catches what its body raises: it returns whatever the client
    does, also in the two worlds in which the worker's pass runs on. *)
Lemma dashboard_extraction_pass_returns {W : Type} (supa : Supabase W)
    (total_count : nat) (w : W) :
  ∃ stats w',
    App.process_all_responses_for_emails supa total_count w
    = (Returns stats, w').
Proof.
  unfold App.process_all_responses_for_emails, try_except.
  match goal with |- context [match ?m w with _ => _ end] =>
    destruct (m w) as [[stats|e] w'] end; by eauto.
Qed.

Lemma dashboard_extraction_pass_on_stuck_rows :
  App.process_all_responses_for_emails (SupabaseClient.client denying_updates)
    1 unmarkable_world
  = (Returns (App.ExtractionLocals 1 0 1 0 1 0 0 0 1),
     MkWorld (store unmarkable_world) 2)
  ∧ App.process_all_responses_for_emails
      (SupabaseClient.client (answering results_payload)) 1 null_row_world
    = (Returns (App.ExtractionLocals 0 0 1 0 1 0 0 0 1),
       MkWorld (store null_row_world) 1).
Proof. split; vm_compute; reflexivity. Qed.

(** * Further properties of the code *)

(** ** The shape of an extracted address *)

(** A greedy repetition that succeeds has taken a run of characters of its
    class, at least [min] of them, and its continuation has matched what
    follows. *)
Lemma many_decompose cls k :
  ∀ s min prev n,
    Re.many cls k min prev s = Some n →
    ∃ taken rest prev' m,
      s = taken +:+ rest ∧ all_chars cls taken = true
      ∧ (min ≤ String.length taken)%nat
      ∧ k prev' rest = Some m ∧ n = (String.length taken + m)%nat.
Proof.
  induction s as [|c s IH]; intros min prev n H; cbn [Re.many] in H.
  - destruct min; [|done].
    exists EmptyString, EmptyString, prev, n. by split_and!.
  - assert (Hstop : match min with O => k prev (String c s) | S _ => None end
                    = Some n →
            ∃ taken rest prev' m,
              String c s = taken +:+ rest ∧ all_chars cls taken = true
              ∧ (min ≤ String.length taken)%nat
              ∧ k prev' rest = Some m ∧ n = (String.length taken + m)%nat).
    { destruct min; [|done]. intros Hk.
      exists EmptyString, (String c s), prev, n. by split_and!. }
    destruct (cls c) eqn:Hc; [|by apply Hstop].
    destruct (Re.many cls k (Nat.pred min) (Some c) s) as [n'|] eqn:Hrec;
      [|by apply Hstop].
    destruct (IH _ _ _ Hrec) as (taken & rest & prev' & m & -> & Hall & Hmin & Hk & ->).
    exists (String c taken), rest, prev', m.
    injection H as <-. cbn [all_chars String.length]. rewrite Hc, Hall.
    split_and!; [done|done|lia|done|done].
Qed.

Lemma prefix_of_length_app (x rest : string) :
  Re.prefix_of_length (String.length x) (x +:+ rest) = x.
Proof.
  induction x as [|c x IH]; cbn [String.length].
  - by destruct rest.
  - change (String c x +:+ rest) with (String c (x +:+ rest)).
    cbn [Re.prefix_of_length]. by rewrite IH.
Qed.

Lemma prefix_of_length_prefix (n : nat) (s : string) :
  String.prefix (Re.prefix_of_length n s) s = true.
Proof.
  revert n. induction s as [|c s IH]; intros [|n]; cbn; try done.
  rewrite IH. by destruct (ascii_dec c c).
Qed.

Lemma string_app_assoc (a b c : string) : (a +:+ b) +:+ c = a +:+ (b +:+ c).
Proof.
  induction a as [|x a IH]; [done|].
  change (String x ((a +:+ b) +:+ c) = String x (a +:+ (b +:+ c))).
  by rewrite IH.
Qed.

Lemma string_length_app (a b : string) :
  String.length (a +:+ b) = (String.length a + String.length b)%nat.
Proof.
  induction a as [|x a IH]; [done|].
  change (S (String.length (a +:+ b))
          = S (String.length a + String.length b)).
  by rewrite IH.
Qed.

(** What a match of the address pattern consumes. *)
Lemma email_match_shape (prev : option ascii) (s : string) (n : nat) :
  Re.match_here email_pattern prev s = Some n →
  ∃ local domain tld,
    Re.prefix_of_length n s = local +:+ "@" +:+ domain +:+ "." +:+ tld
    ∧ (1 ≤ String.length local)%nat ∧ all_chars local_part_char local = true
    ∧ (1 ≤ String.length domain)%nat ∧ all_chars domain_char domain = true
    ∧ (2 ≤ String.length tld)%nat ∧ all_chars tld_char tld = true.
Proof.
  unfold email_pattern. cbn [Re.match_here].
  destruct (Re.at_boundary prev s); [|done].
  intros H.
  apply many_decompose in H
    as (local & r1 & p1 & m1 & -> & Hlocal & Hl1 & Hk1 & ->).
  destruct r1 as [|c1 r2]; [done|].
  destruct (Ascii.eqb "@" c1) eqn:Hc1; [|done].
  apply Ascii.eqb_eq in Hc1 as <-.
  destruct (Re.many domain_char _ 1 (Some "@"%char) r2) as [m2|] eqn:Hk2; [|done].
  injection Hk1 as <-.
  apply many_decompose in Hk2
    as (domain & r3 & p3 & m3 & -> & Hdomain & Hl2 & Hk3 & ->).
  destruct r3 as [|c3 r4]; [done|].
  destruct (Ascii.eqb "." c3) eqn:Hc3; [|done].
  apply Ascii.eqb_eq in Hc3 as <-.
  destruct (Re.many tld_char _ 2 (Some "."%char) r4) as [m4|] eqn:Hk4; [|done].
  injection Hk3 as <-.
  apply many_decompose in Hk4
    as (tld & r5 & p5 & m5 & -> & Htld & Hl3 & Hk5 & ->).
  destruct (Re.at_boundary p5 r5); [|done]. injection Hk5 as <-.
  exists local, domain, tld. split_and!; try done.
  replace (local +:+ String "@" (domain +:+ String "." (tld +:+ r5)))
    with ((local +:+ "@" +:+ domain +:+ "." +:+ tld) +:+ r5).
  - etrans; [|apply (prefix_of_length_app _ r5)]. f_equal.
    rewrite !string_length_app. cbn [String.length]. lia.
  - rewrite !string_app_assoc. cbn. by rewrite ?string_app_assoc.
Qed.

(** Every string the scan returns is what a match of the pattern consumes
    at some position of the text. *)
Lemma scan_elements (p : list Re.atom) (e : string) :
  ∀ s prev skip,
    e ∈ Re.scan p prev s skip →
    ∃ pre s' prev' n,
      s = pre +:+ s' ∧ Re.match_here p prev' s' = Some n
      ∧ e = Re.prefix_of_length n s'.
Proof.
  induction s as [|c s IH]; intros prev skip He; cbn [Re.scan] in He.
  - destruct skip; [|by apply elem_of_nil in He].
    destruct (Re.match_here p prev EmptyString) as [n|] eqn:Hm;
      [|by apply elem_of_nil in He].
    apply list_elem_of_singleton in He as ->.
    exists EmptyString, EmptyString, prev, n. split_and!; [done|done|].
    by destruct n.
  - assert (Hrest : ∀ prev skip, e ∈ Re.scan p prev s skip →
              ∃ pre s' prev' n,
                String c s = pre +:+ s' ∧ Re.match_here p prev' s' = Some n
                ∧ e = Re.prefix_of_length n s').
    { intros prev0 skip0 H0.
      destruct (IH _ _ H0) as (pre & s' & prev' & n & -> & Hm & ->).
      by exists (String c pre), s', prev', n. }
    destruct skip; [|by eapply Hrest].
    destruct (Re.match_here p prev (String c s)) as [n|] eqn:Hm;
      [|by eapply Hrest].
    apply elem_of_cons in He as [->|He]; [|by eapply Hrest].
    by exists EmptyString, (String c s), prev, n.
Qed.

(** X1.  Whatever the text, every address [extract_emails_from_text]
    returns occurs in the text and reads: one or more characters of
    [A-Za-z0-9._%+-], an at-sign, one or more characters of [A-Za-z0-9.-],
    a dot, and two or more characters that are ASCII letters or the
    vertical bar. *)
Theorem extracted_address_shape (text e : string) :
  e ∈ extract_emails_from_text text →
  ∃ local domain tld,
    e = local +:+ "@" +:+ domain +:+ "." +:+ tld
    ∧ (1 ≤ String.length local)%nat ∧ all_chars local_part_char local = true
    ∧ (1 ≤ String.length domain)%nat ∧ all_chars domain_char domain = true
    ∧ (2 ≤ String.length tld)%nat ∧ all_chars tld_char tld = true
    ∧ Str.contains e text = true.
Proof.
  unfold extract_emails_from_text. intros He.
  apply elem_of_elements, elem_of_list_to_set in He.
  apply scan_elements in He as (pre & s' & prev' & n & -> & Hm & ->).
  destruct (email_match_shape _ _ _ Hm)
    as (local & domain & tld & Heq & H1 & H2 & H3 & H4 & H5 & H6).
  exists local, domain, tld. split_and!; try done.
  apply contains_app_r.
  destruct s' as [|c s']; cbn [Str.contains];
    by rewrite prefix_of_length_prefix.
Qed.

Lemma extracted_address_shape_witness :
  ∃ local domain tld,
    "Jane.Doe+promo@Example.co.uk"
      = local +:+ "@" +:+ domain +:+ "." +:+ tld
    ∧ (1 ≤ String.length local)%nat ∧ all_chars local_part_char local = true
    ∧ (1 ≤ String.length domain)%nat ∧ all_chars domain_char domain = true
    ∧ (2 ≤ String.length tld)%nat ∧ all_chars tld_char tld = true
    ∧ Str.contains "Jane.Doe+promo@Example.co.uk"
        "contact: Jane.Doe+promo@Example.co.uk please" = true.
Proof.
  apply (extracted_address_shape
           "contact: Jane.Doe+promo@Example.co.uk please").
  vm_compute. apply list_elem_of_here.
Defined.

(** ** Deduplication, once more and against the store *)

Lemma first_occurrences_nonblank (queries : list string) :
  ∀ seen q, q ∈ first_occurrences seen queries → nonempty (normalize q) = true.
Proof.
  induction queries as [|p rest IH]; intros seen q; cbn [first_occurrences];
    [by intros ?%elem_of_nil|].
  destruct (nonempty (normalize p)) eqn:Hp; cbn [andb]; [|by apply IH].
  destruct (bool_decide (normalize p ∉ seen)); [|by apply IH].
  intros [->|Hq]%elem_of_cons; [done|]. by eapply IH.
Qed.

(** A list without blanks whose normalized forms are pairwise distinct and
    new is left as it is. *)
Lemma first_occurrences_id (queries : list string) :
  ∀ seen,
    NoDup (normalize <$> queries) →
    (∀ q, q ∈ queries → nonempty (normalize q) = true ∧ normalize q ∉ seen) →
    first_occurrences seen queries = queries.
Proof.
  induction queries as [|p rest IH]; intros seen Hnd Hall; [done|].
  cbn [first_occurrences].
  destruct (Hall p) as [Hp Hseen]; [apply list_elem_of_here|].
  rewrite Hp, bool_decide_eq_true_2 by done. cbn [andb]. f_equal.
  rewrite fmap_cons in Hnd. apply NoDup_cons in Hnd as [Hfresh Hnd].
  apply IH; [done|]. intros q Hq.
  destruct (Hall q) as [Hq1 Hq2]; [by apply list_elem_of_further|].
  split; [done|].
  assert (normalize q ≠ normalize p).
  { intros E. apply Hfresh. rewrite <- E. apply list_elem_of_fmap.
    by exists q. }
  set_solver.
Qed.

Lemma first_occurrences_of_part (P : string → Prop) `{∀ x, Decision (P x)}
    (uploaded : list string) :
  first_occurrences ∅ (filter P (first_occurrences ∅ uploaded))
  = filter P (first_occurrences ∅ uploaded).
Proof.
  apply first_occurrences_id.
  - eapply sublist_NoDup;
      [apply (first_occurrences_NoDup uploaded ∅)
      |apply fmap_sublist, sublist_filter].
  - intros q [_ Hq]%list_elem_of_filter. split; [|set_solver].
    by eapply first_occurrences_nonblank.
Qed.

Lemma filter_never {A} (P : A → Prop) `{∀ x, Decision (P x)} (l : list A) :
  (∀ x, ¬ P x) → filter P l = [].
Proof.
  intros Hnever. induction l as [|x l IH]; [done|].
  rewrite filter_cons, IH. by rewrite decide_False by apply Hnever.
Qed.

(** X2.  Filtering is idempotent: given back the queries it reported as
    new, [filter_queries] reports the same list as new again, with no
    duplicate and nothing existing; given back the queries it reported as
    existing, it reports them all as existing. *)
Theorem filter_queries_idempotent (uploaded existing : list string) :
  let r := App.filter_queries uploaded existing in
  App.filter_queries (App.new_queries r) existing
  = App.FilterResult (App.new_count r) 0 (App.new_count r)
      (App.new_queries r) [] (App.new_count r) 0
  ∧ App.filter_queries (App.existing_in_db r) existing
    = App.FilterResult (App.existing_count r) 0 (App.existing_count r)
        [] (App.existing_in_db r) 0 (App.existing_count r).
Proof.
  cbv zeta. rewrite (filter_queries_unfold uploaded). cbv zeta.
  cbn [App.new_queries App.existing_in_db App.new_count App.existing_count].
  rewrite !filter_queries_unfold. cbv zeta.
  rewrite !first_occurrences_of_part.
  rewrite !list_filter_filter.
  rewrite (filter_never (λ q, normalize q ∈ existing ∧ normalize q ∉ existing))
    by tauto.
  rewrite (filter_never (λ q, normalize q ∉ existing ∧ normalize q ∈ existing))
    by tauto.
  rewrite (list_filter_iff
             (λ q, normalize q ∉ existing ∧ normalize q ∉ existing)
             (λ q, normalize q ∉ existing)) by tauto.
  rewrite (list_filter_iff
             (λ q, normalize q ∈ existing ∧ normalize q ∈ existing)
             (λ q, normalize q ∈ existing)) by tauto.
  cbn [length].
  rewrite !Nat.sub_diag. done.
Qed.

(** What [get_all_existing_queries] computes from the selected rows. *)
Lemma existing_queries_members (table : list snapshot_row) (x : string) :
  x ∈ flat_map (λ queries, (λ q, Str.strip (Str.lower q))
                             <$> List.filter nonempty queries)
        (query <$> table)
  ↔ ∃ row q, row ∈ table ∧ q ∈ query row ∧ nonempty q = true
             ∧ x = normalize q.
Proof.
  rewrite list_elem_of_In, in_flat_map. split.
  - intros (queries & Hrow & Hx).
    apply list_elem_of_In, list_elem_of_fmap in Hrow as (row & -> & Hrow).
    apply list_elem_of_In, list_elem_of_fmap in Hx as (q & -> & Hq).
    apply list_elem_of_In, filter_In in Hq as [Hq Hne].
    exists row, q. split_and!; try done. by apply list_elem_of_In.
  - intros (row & q & Hrow & Hq & Hne & ->).
    exists (query row). split.
    + apply list_elem_of_In, list_elem_of_fmap. by exists row.
    + apply list_elem_of_In, list_elem_of_fmap. exists q. split; [done|].
      apply list_elem_of_In, filter_In. split; [|done].
      by apply list_elem_of_In.
Qed.

(** X3.  When the select of [get_all_existing_queries] goes through, the
    list it returns holds, once each, the normalized forms of the
    non-empty queries of every snapshot row; and [filter_queries] with
    that list reports an uploaded query as new exactly when it is a first
    occurrence in the upload and no stored query has its normalized form:
    a query that already stands in a snapshot row is never offered for
    submission again, however it is cased or padded. *)
Theorem stored_queries_are_never_new (env : Env) (w : World) :
  db_fault env (now w) SelectQueries = None →
  ∃ existing,
    SupabaseClient.get_all_existing_queries env w = (Returns existing, tick w)
    ∧ NoDup existing
    ∧ (∀ x, x ∈ existing
            ↔ ∃ row q, row ∈ snapshot_table (store w) ∧ q ∈ query row
                       ∧ nonempty q = true ∧ x = normalize q)
    ∧ (∀ uploaded q,
         q ∈ App.new_queries (App.filter_queries uploaded existing)
         ↔ q ∈ first_occurrences ∅ uploaded
           ∧ ¬ ∃ row q', row ∈ snapshot_table (store w) ∧ q' ∈ query row
                         ∧ nonempty q' = true ∧ normalize q = normalize q').
Proof.
  intros Hfault.
  unfold SupabaseClient.get_all_existing_queries. unfold_action.
  rewrite Hfault. destruct w as [st t]. cbn [store now tick].
  eexists. split; [reflexivity|].
  assert (Hmem : ∀ x,
    x ∈ elements (list_to_set
          (flat_map (λ queries, (λ q, Str.strip (Str.lower q))
                                  <$> List.filter nonempty queries)
             (query <$> snapshot_table st)) : gset string)
    ↔ ∃ row q, row ∈ snapshot_table st ∧ q ∈ query row
               ∧ nonempty q = true ∧ x = normalize q).
  { intros x. rewrite elem_of_elements, elem_of_list_to_set.
    apply existing_queries_members. }
  split_and!.
  - apply NoDup_elements.
  - exact Hmem.
  - intros uploaded q. rewrite filter_queries_unfold. cbv zeta.
    cbn [App.new_queries]. rewrite list_elem_of_filter, Hmem. tauto.
Qed.

Lemma stored_queries_are_never_new_witness :
  ∃ existing,
    SupabaseClient.get_all_existing_queries scenario_env
      (MkWorld (MkStore [SnapshotRow "s1" ["Acme Corp"; "beta"] true] [] []) 0)
    = (Returns existing,
       tick (MkWorld (MkStore [SnapshotRow "s1" ["Acme Corp"; "beta"] true] [] []) 0))
    ∧ NoDup existing
    ∧ (∀ x, x ∈ existing
            ↔ ∃ row q, row ∈ [SnapshotRow "s1" ["Acme Corp"; "beta"] true]
                       ∧ q ∈ query row
                       ∧ nonempty q = true ∧ x = normalize q)
    ∧ (∀ uploaded q,
         q ∈ App.new_queries (App.filter_queries uploaded existing)
         ↔ q ∈ first_occurrences ∅ uploaded
           ∧ ¬ ∃ row q', row ∈ [SnapshotRow "s1" ["Acme Corp"; "beta"] true]
                         ∧ q' ∈ query row
                         ∧ nonempty q' = true ∧ normalize q = normalize q').
Proof.
  apply (stored_queries_are_never_new scenario_env
           (MkWorld (MkStore [SnapshotRow "s1" ["Acme Corp"; "beta"] true] [] []) 0)).
  reflexivity.
Defined.

(** X4.  When the select of [get_all_existing_queries] fails, the method
    returns the empty list instead of raising, and [filter_queries] then
    reports every first occurrence of the upload as new, whatever the
    snapshot table holds. *)
Theorem failed_select_makes_every_query_new (env : Env) (w : World)
    (e : string) (uploaded : list string) :
  db_fault env (now w) SelectQueries = Some e →
  SupabaseClient.get_all_existing_queries env w = (Returns [], tick w)
  ∧ App.new_queries (App.filter_queries uploaded []) = first_occurrences ∅ uploaded
  ∧ App.existing_in_db (App.filter_queries uploaded []) = [].
Proof.
  intros Hfault. split_and!.
  - unfold SupabaseClient.get_all_existing_queries. unfold_action.
    by rewrite Hfault.
  - rewrite filter_queries_unfold. cbv zeta. cbn [App.new_queries].
    induction (first_occurrences ∅ uploaded) as [|q l IH]; [done|].
    rewrite filter_cons, IH. rewrite decide_True; [done|]. apply not_elem_of_nil.
  - rewrite filter_queries_unfold. cbv zeta. cbn [App.existing_in_db].
    induction (first_occurrences ∅ uploaded) as [|q l IH]; [done|].
    rewrite filter_cons, IH. rewrite decide_False; [done|]. apply not_elem_of_nil.
Qed.

Lemma failed_select_makes_every_query_new_witness :
  SupabaseClient.get_all_existing_queries (MkEnv (λ _ _, HttpBody JNull)
      (λ _ _, HttpBody ∅) (λ _ _, Some "connection reset"))
    (MkWorld (MkStore [SnapshotRow "s1" ["acme"] true] [] []) 0)
  = (Returns [],
     tick (MkWorld (MkStore [SnapshotRow "s1" ["acme"] true] [] []) 0))
  ∧ App.new_queries (App.filter_queries ["Acme"; "acme "; "beta"] [])
    = first_occurrences ∅ ["Acme"; "acme "; "beta"]
  ∧ App.existing_in_db (App.filter_queries ["Acme"; "acme "; "beta"] []) = [].
Proof.
  apply (failed_select_makes_every_query_new
           (MkEnv (λ _ _, HttpBody JNull) (λ _ _, HttpBody ∅)
                  (λ _ _, Some "connection reset"))
           (MkWorld (MkStore [SnapshotRow "s1" ["acme"] true] [] []) 0)
           "connection reset").
  reflexivity.
Defined.

(** ** The worker's passes, for any clients and on the store *)

(** X5.  Whatever the two clients do, raising included, [process_stage2]
    raises only when reading the pending snapshots raises; otherwise it
    returns, its [total] is the number of snapshots read, and each of them
    is counted in exactly one of [successful], [failed] and [skipped]. *)
Theorem retrieval_pass_counts_every_snapshot {W : Type}
    (bright : Brightdata W) (supa : Supabase W) (w : W) :
  match get_unprocessed_snapshots supa w with
  | (Returns snapshots, _) =>
      ∃ stats w',
        Worker.process_stage2 bright supa w = (Returns stats, w')
        ∧ Worker.s2_total stats = length snapshots
        ∧ (Worker.s2_successful stats + Worker.s2_failed stats
           + Worker.s2_skipped stats = length snapshots)%nat
  | (Raises e, w1) => Worker.process_stage2 bright supa w = (Raises e, w1)
  end.
Proof.
  destruct (get_unprocessed_snapshots supa w) as [[snapshots|e] w1] eqn:Hfetch.
  - unfold Worker.process_stage2, mbind, action_bind. rewrite Hfetch.
    destruct (length snapshots =? 0)%nat eqn:Hlen.
    + apply Nat.eqb_eq in Hlen. rewrite Hlen. by eexists _, _.
    + unfold with_locals.
      destruct (stage2_loop_isolates bright supa snapshots w1
                  (Worker.Stage2Stats (length snapshots) 0 0 0))
        as (w2 & c2 & -> & Ht & Hs).
      exists c2, w2. cbn in *. split; [done|]. split; [done|lia].
  - unfold Worker.process_stage2, mbind, action_bind. by rewrite Hfetch.
Qed.

Lemma stage3_loop_accounts {W : Type} (supa : Supabase W) (batch_size : nat) :
  ∀ (fuel : nat) (w : W) (c : Worker.stage3_stats),
    Worker.total_processed c
    = (Worker.total_successful c + Worker.total_failed c)%nat →
    let '(r, (w', c')) := Worker.stage3_loop supa batch_size fuel (w, c) in
    Worker.total_processed c'
    = (Worker.total_successful c' + Worker.total_failed c')%nat
    ∧ ∀ e, r = Some (Raises e) →
           ∃ w0, get_unextracted_responses supa batch_size 0 w0 = (Raises e, w').
Proof.
  induction fuel as [|fuel IH]; intros w c Hc; cbn [Worker.stage3_loop].
  - split; [done|]. by intros e ?.
  - unfold call at 1.
    destruct (get_unextracted_responses supa batch_size 0 w)
      as [[rows|e] w1] eqn:Hfetch.
    + destruct rows as [|row rows].
      * split; [done|]. by intros e ?.
      * destruct (stage3_page_isolates supa (row :: rows) w1 c)
          as (w2 & c2 & -> & Hp & Hs).
        apply IH. lia.
    + split; [done|]. intros e' [= <-]. by exists w.
Qed.

(** X6.  Whatever the store client does, raising included, the counters of
    [process_stage3] agree at every point of its loop: each row worked on
    is counted once in [total] and once in either [successful] or
    [failed]; so they do in the dictionary it returns.  The pass raises
    only when fetching a page raises. *)
Theorem extraction_pass_counts_every_row {W : Type} (supa : Supabase W)
    (batch_size fuel : nat) (w : W) :
  (let '(_, (_, c)) :=
     Worker.stage3_loop supa batch_size fuel (w, Worker.Stage3Stats 0 0 0 0 0) in
   Worker.total_processed c
   = (Worker.total_successful c + Worker.total_failed c)%nat)
  ∧ match Worker.process_stage3 supa batch_size fuel w with
    | (Some (Returns stats), _) =>
        Worker.total_processed stats
        = (Worker.total_successful stats + Worker.total_failed stats)%nat
    | (Some (Raises e), w') =>
        ∃ w0, get_unextracted_responses supa batch_size 0 w0 = (Raises e, w')
    | (None, _) => True
    end.
Proof.
  pose proof (stage3_loop_accounts supa batch_size fuel w
                (Worker.Stage3Stats 0 0 0 0 0) eq_refl) as H.
  unfold Worker.process_stage3.
  destruct (Worker.stage3_loop supa batch_size fuel
              (w, Worker.Stage3Stats 0 0 0 0 0)) as [[[[]|e]|] [w' c']];
    destruct H as [Hc Hr]; split; try done.
  by apply Hr.
Qed.

Lemma stage3_loop_leaves_nothing (env : Env) (batch_size : nat) :
  (0 < batch_size)%nat →
  (∀ t, db_fault env t SelectUnextracted = None) →
  ∀ (fuel : nat) (w w' : World) (c c' : Worker.stage3_stats),
    Worker.stage3_loop (SupabaseClient.client env) batch_size fuel (w, c)
    = (Some (Returns tt), (w', c')) →
    SupabaseClient.unextracted (store w') = [].
Proof.
  intros Hb Hfetch. induction fuel as [|fuel IH]; intros w w' c c'; [done|].
  cbn [Worker.stage3_loop get_unextracted_responses SupabaseClient.client].
  unfold call at 1. rewrite get_unextracted_responses_eq, Hfetch.
  unfold SupabaseClient.range. rewrite drop_0.
  destruct (SupabaseClient.unextracted (store w)) as [|r0 pending] eqn:Hpending.
  - rewrite take_nil. cbn [fmap list_fmap]. intros [= <- <-].
    by rewrite tick_store.
  - destruct batch_size as [|b]; [lia|]. cbn [take fmap list_fmap].
    match goal with
    | |- context [for_each ?rows _ _] =>
        destruct (stage3_page_isolates (SupabaseClient.client env) rows (tick w) c)
          as (w1 & c1 & -> & _ & _)
    end.
    apply IH.
Qed.

(** X7.  On the store, with a positive batch size and a fetch that never
    fails: when [process_stage3] returns, no response row is left with its
    extracted flag unset. *)
Theorem extraction_pass_leaves_nothing (env : Env) (batch_size fuel : nat)
    (w w' : World) (stats : Worker.stage3_stats) :
  (0 < batch_size)%nat →
  (∀ t, db_fault env t SelectUnextracted = None) →
  Worker.process_stage3 (SupabaseClient.client env) batch_size fuel w
  = (Some (Returns stats), w') →
  SupabaseClient.unextracted (store w') = [].
Proof.
  intros Hb Hfetch. unfold Worker.process_stage3.
  destruct (Worker.stage3_loop (SupabaseClient.client env) batch_size fuel
              (w, Worker.Stage3Stats 0 0 0 0 0))
    as [[[[]|e]|] [w1 c1]] eqn:Hloop; intros [= <- <-].
  by eapply stage3_loop_leaves_nothing.
Qed.

Lemma extraction_pass_leaves_nothing_witness :
  SupabaseClient.unextracted
    (store (Worker.process_stage3
              (SupabaseClient.client (answering results_payload)) 20 2
              stored_world).2) = [].
Proof.
  apply (extraction_pass_leaves_nothing (answering results_payload) 20 2
           stored_world _
           (Worker.Stage3Stats 1 1 0 1 0)); [lia|reflexivity|].
  vm_compute. reflexivity.
Defined.

(** ** What batch submission writes *)

(** One batch on the store: the two other tables stay as they are, the
    snapshot table gains at most one row, pending and holding the batch,
    and the books are kept for that very row. *)
Lemma batch_body_appends (env : Env) (queries : list string) (b i : nat)
    (w : World) (c : EmailScraperEngine.statistics) :
  ∃ r w' c' rows,
    EmailScraperEngine.batch_body (BrightdataClient.client env)
      (SupabaseClient.client env) queries b i (w, c) = (r, (w', c'))
    ∧ snapshot_table (store w') = snapshot_table (store w) ++ rows
    ∧ response_table (store w') = response_table (store w)
    ∧ email_table (store w') = email_table (store w)
    ∧ Forall (λ row, processed row = false
                     ∧ query row = take b (drop i queries)) rows
    ∧ EmailScraperEngine.submitted_ids c'
      = EmailScraperEngine.submitted_ids c ++ (snapshot_id <$> rows)
    ∧ EmailScraperEngine.successful_snapshots c'
      = (EmailScraperEngine.successful_snapshots c + length rows)%nat
    ∧ EmailScraperEngine.snapshot_query_map c'
      = foldl (λ m row, <[snapshot_id row := query row]> m)
          (EmailScraperEngine.snapshot_query_map c) rows.
Proof.
  unfold EmailScraperEngine.batch_body.
  cbn [send_request save_snapshot BrightdataClient.client SupabaseClient.client].
  unfold BrightdataClient.send_request, SupabaseClient.save_snapshot.
  unfold_action.
  destruct w as [st t]. cbn [store now tick].
  destruct (http_post env t (take b (drop i queries))) as [fields|e|e|e];
    cbn [option_bind];
    try (eexists _, _, _, []; split; [reflexivity|]; cbn;
         rewrite ?app_nil_r; by split_and!).
  destruct (fields !! "snapshot_id") as [id|] eqn:Hid; cbn [option_bind];
    [|eexists _, _, _, []; split; [reflexivity|]; cbn;
      rewrite ?app_nil_r; by split_and!].
  cbn [store now tick].
  destruct (db_fault env (S t) (InsertSnapshot id)) as [e|].
  - eexists _, _, _, []; split; [reflexivity|]; cbn;
      rewrite ?app_nil_r; by split_and!.
  - eexists _, _, _, [SnapshotRow id (take b (drop i queries)) false].
    split; [reflexivity|]. cbn. split_and!; try done.
    + by repeat constructor.
    + lia.
Qed.

Lemma batch_loop_appends (env : Env) (queries : list string) (b : nat)
    (starts : list nat) :
  ∀ (w : World) (c : EmailScraperEngine.statistics),
  ∃ r w' c' rows,
    for_each starts
      (EmailScraperEngine.batch_body (BrightdataClient.client env)
         (SupabaseClient.client env) queries b) (w, c) = (r, (w', c'))
    ∧ snapshot_table (store w') = snapshot_table (store w) ++ rows
    ∧ response_table (store w') = response_table (store w)
    ∧ email_table (store w') = email_table (store w)
    ∧ Forall (λ row, processed row = false
                     ∧ query row ∈ (λ i, take b (drop i queries)) <$> starts)
        rows
    ∧ EmailScraperEngine.submitted_ids c'
      = EmailScraperEngine.submitted_ids c ++ (snapshot_id <$> rows)
    ∧ EmailScraperEngine.successful_snapshots c'
      = (EmailScraperEngine.successful_snapshots c + length rows)%nat
    ∧ EmailScraperEngine.snapshot_query_map c'
      = foldl (λ m row, <[snapshot_id row := query row]> m)
          (EmailScraperEngine.snapshot_query_map c) rows.
Proof.
  induction starts as [|i starts IH]; intros w c.
  - exists (Returns tt), w, c, []. cbn. rewrite !app_nil_r.
    split_and!; try done; lia.
  - cbn [for_each]. unfold mbind, action_bind.
    destruct (batch_body_appends env queries b i w c)
      as (r1 & w1 & c1 & rows1 & -> & Hs1 & Hr1 & He1 & Hq1 & Hi1 & Hn1 & Hm1).
    assert (Hq1' : Forall (λ row, processed row = false
                     ∧ query row ∈ (λ i, take b (drop i queries)) <$> i :: starts)
                     rows1).
    { eapply Forall_impl; [exact Hq1|]. intros row [? ->].
      split; [done|]. rewrite fmap_cons. apply list_elem_of_here. }
    destruct r1 as [[]|e].
    + destruct (IH w1 c1)
        as (r2 & w2 & c2 & rows2 & -> & Hs2 & Hr2 & He2 & Hq2 & Hi2 & Hn2 & Hm2).
      exists r2, w2, c2, (rows1 ++ rows2).
      split; [done|]. rewrite Hs2, Hs1, Hr2, Hr1, He2, He1, Hi2, Hi1, Hn2, Hn1,
        Hm2, Hm1.
      rewrite fmap_app, length_app, foldl_app, <- !app_assoc.
      split_and!; try done; [|lia].
      apply Forall_app. split; [done|].
      eapply Forall_impl; [exact Hq2|]. intros row [? Hrow].
      split; [done|]. rewrite fmap_cons. by apply list_elem_of_further.
    + exists (Raises e), w1, c1, rows1. by split_and!.
Qed.

Lemma submission_effect (env : Env) (queries : list string)
    (batch_size : Z) (w : World) :
  ∃ r w' rows,
    EmailScraperEngine.process_queries (BrightdataClient.client env)
      (SupabaseClient.client env) queries batch_size w = (r, w')
    ∧ snapshot_table (store w') = snapshot_table (store w) ++ rows
    ∧ response_table (store w') = response_table (store w)
    ∧ email_table (store w') = email_table (store w)
    ∧ Forall (λ row, processed row = false
                     ∧ query row ∈ batches queries batch_size) rows
    ∧ match r with
      | Returns stats =>
          EmailScraperEngine.submitted_ids stats = snapshot_id <$> rows
          ∧ EmailScraperEngine.successful_snapshots stats = length rows
          ∧ EmailScraperEngine.snapshot_query_map stats
            = foldl (λ m row, <[snapshot_id row := query row]> m) ∅ rows
      | Raises _ => True
      end.
Proof.
  unfold EmailScraperEngine.process_queries.
  destruct (batch_size =? 0)%Z.
  { exists (Raises "range() arg 3 must not be zero"), w, [].
    rewrite app_nil_r. by split_and!. }
  unfold mbind, action_bind, mret, action_ret, with_locals.
  destruct (batch_loop_appends env queries (Z.to_nat batch_size)
              (EmailScraperEngine.range0 (length queries) batch_size) w
              (EmailScraperEngine.Statistics (length queries) 0 0 0 [] ∅))
    as (r & w' & c' & rows & -> & Hs & Hr & He & Hq & Hi & Hn & Hm).
  destruct r as [[]|e].
  - exists (Returns c'), w', rows. split_and!; try done.
  - exists (Raises e), w', rows. by split_and!.
Qed.

(** X8.  Whatever the service and the store do, [process_queries] leaves
    the response and e-mail tables as they are and only appends to the
    snapshot table; every row it appends is pending and holds one of the
    batches.  When it returns, [submitted_ids] lists the identifiers of
    the appended rows in order, [successful_snapshots] is their number,
    and [snapshot_query_map] is the mapping built from these rows, a later
    row replacing an earlier one with the same identifier. *)
Theorem submission_appends_pending_rows (env : Env) (queries : list string)
    (batch_size : Z) (w : World) :
  ∃ r w' rows,
    EmailScraperEngine.process_queries (BrightdataClient.client env)
      (SupabaseClient.client env) queries batch_size w = (r, w')
    ∧ snapshot_table (store w') = snapshot_table (store w) ++ rows
    ∧ response_table (store w') = response_table (store w)
    ∧ email_table (store w') = email_table (store w)
    ∧ Forall (λ row, processed row = false
                     ∧ query row ∈ batches queries batch_size) rows
    ∧ match r with
      | Returns stats =>
          EmailScraperEngine.submitted_ids stats = snapshot_id <$> rows
          ∧ EmailScraperEngine.successful_snapshots stats = length rows
          ∧ EmailScraperEngine.snapshot_query_map stats
            = foldl (λ m row, <[snapshot_id row := query row]> m) ∅ rows
      | Raises _ => True
      end.
Proof. apply submission_effect. Qed.

(** X9.  A batch size below zero makes [process_queries] submit nothing:
    whatever the clients, it returns at once with no batch counted and the
    world untouched.  A batch size of zero makes it raise before anything
    is submitted. *)
Theorem submission_with_no_positive_batch_size {W : Type}
    (bright : Brightdata W) (supa : Supabase W) (queries : list string)
    (batch_size : Z) (w : W) :
  (batch_size ≤ 0)%Z →
  EmailScraperEngine.process_queries bright supa queries batch_size w
  = if (batch_size =? 0)%Z
    then (Raises "range() arg 3 must not be zero", w)
    else (Returns (EmailScraperEngine.Statistics (length queries) 0 0 0 [] ∅), w).
Proof.
  intros Hb. unfold EmailScraperEngine.process_queries.
  destruct (batch_size =? 0)%Z eqn:E; [done|].
  apply Z.eqb_neq in E. unfold EmailScraperEngine.range0.
  destruct (batch_size <? 0)%Z eqn:Hneg; [done|].
  apply Z.ltb_ge in Hneg. lia.
Qed.

Lemma submission_with_no_positive_batch_size_witness :
  EmailScraperEngine.process_queries (BrightdataClient.client scenario_env)
    (SupabaseClient.client scenario_env) scenario_queries (-2) empty_world
  = (Returns (EmailScraperEngine.Statistics 5 0 0 0 [] ∅), empty_world).
Proof.
  apply (submission_with_no_positive_batch_size
           (BrightdataClient.client scenario_env)
           (SupabaseClient.client scenario_env) scenario_queries (-2)
           empty_world).
  lia.
Defined.

(** ** How the worker reads a failed insert *)



(** ** The extraction service *)

(** A loop whose body always returns and keeps a relation that is
    reflexive and transitive returns and keeps it. *)
Lemma for_each_keeps {S A} (R : S → S → Prop) (body : A → action S unit)
    (xs : list A) :
  (∀ s, R s s) →
  (∀ s1 s2 s3, R s1 s2 → R s2 s3 → R s1 s3) →
  (∀ x s, ∃ s', body x s = (Returns tt, s') ∧ R s s') →
  ∀ s, ∃ s', for_each xs body s = (Returns tt, s') ∧ R s s'.
Proof.
  intros Hrefl Htrans Hbody. induction xs as [|x xs IH]; intros s.
  - exists s. by split.
  - cbn [for_each]. unfold mbind, action_bind.
    destruct (Hbody x s) as (s1 & -> & H1).
    destruct (IH s1) as (s2 & -> & H2).
    exists s2. split; [done|]. by eapply Htrans.
Qed.

(** Saving the addresses of a response leaves the two other tables and
    the count of rows alone. *)
Lemma service_emails_keep_responses (env : Env) (emails : list string)
    (w : World) (c : Stage3Service.run_stats) :
  ∃ w' c',
    for_each emails (Stage3Service.run_once_email (SupabaseClient.client env))
      (w, c) = (Returns tt, (w', c'))
    ∧ snapshot_table (store w') = snapshot_table (store w)
    ∧ response_table (store w') = response_table (store w)
    ∧ Stage3Service.rows_processed c' = Stage3Service.rows_processed c.
Proof.
  destruct (for_each_keeps
    (λ s s' : World * Stage3Service.run_stats,
       snapshot_table (store s'.1) = snapshot_table (store s.1)
       ∧ response_table (store s'.1) = response_table (store s.1)
       ∧ Stage3Service.rows_processed s'.2 = Stage3Service.rows_processed s.2)
    (Stage3Service.run_once_email (SupabaseClient.client env)) emails)
    with (s := (w, c)) as ([w' c'] & Hrun & H); [done| | |by exists w', c'].
  - intros s1 s2 s3 (? & ? & ?) (? & ? & ?). split_and!; congruence.
  - intros email [w0 c0]. unfold Stage3Service.run_once_email.
    cbn [save_email SupabaseClient.client].
    destruct (save_email_keeps_responses env email w0)
      as ([ok err] & w1 & Hsave & Hs1 & Hr1).
    unfold mbind, action_bind, call. rewrite Hsave.
    destruct ok; [by eexists|].
    destruct (String.eqb err "duplicate"); by eexists.
Qed.

(** One row in the service, when the update of the flag goes through:
    the row's identifier is marked extracted and the row is counted,
    whatever its response holds. *)
Lemma service_body_marks (env : Env) (d : response_dict)
    (w : World) (c : Stage3Service.run_stats) :
  (∀ t id, db_fault env t (UpdateExtracted id) = None) →
  ∃ w' c',
    Stage3Service.run_once_body (SupabaseClient.client env) d (w, c)
    = (Returns tt, (w', c'))
    ∧ snapshot_table (store w') = snapshot_table (store w)
    ∧ response_table (store w')
      = mark_ids [rd_snapshot_id d] (response_table (store w))
    ∧ Stage3Service.rows_processed c' = S (Stage3Service.rows_processed c).
Proof.
  intros Hmark. unfold Stage3Service.run_once_body.
  cbn [mark_email_extracted SupabaseClient.client].
  unfold mbind, action_bind, try_except.
  match goal with
  | |- context [for_each ?emails _ _] =>
      destruct (service_emails_keep_responses env emails w c)
        as (w1 & c1 & -> & Hs1 & Hr1 & Hp1)
  end.
  unfold call. rewrite mark_email_extracted_eq, Hmark.
  eexists _, _. split; [reflexivity|]. cbn.
  split; [done|]. split; [|by rewrite Hp1].
  rewrite Hr1. unfold mark_ids. apply list_fmap_ext. intros _ r _.
  unfold SupabaseClient.set_extracted.
  destruct (String.eqb (response_snapshot_id r) (rd_snapshot_id d)) eqn:E.
  - apply String.eqb_eq in E.
    rewrite bool_decide_eq_true_2; [done|]. rewrite E. apply list_elem_of_here.
  - apply String.eqb_neq in E.
    rewrite bool_decide_eq_false_2; [done|].
    by intros ?%list_elem_of_singleton.
Qed.

Lemma service_loop_marks (env : Env) (stop : action World bool)
    (rows : list response_dict) :
  (∀ w, stop w = (Returns false, w)) →
  (∀ t id, db_fault env t (UpdateExtracted id) = None) →
  ∀ (w : World) (c : Stage3Service.run_stats),
  ∃ w' c',
    Stage3Service.run_once_loop (SupabaseClient.client env) stop rows (w, c)
    = (Returns tt, (w', c'))
    ∧ snapshot_table (store w') = snapshot_table (store w)
    ∧ response_table (store w')
      = mark_ids (rd_snapshot_id <$> rows) (response_table (store w))
    ∧ Stage3Service.rows_processed c'
      = (Stage3Service.rows_processed c + length rows)%nat.
Proof.
  intros Hstop Hmark. induction rows as [|d rows IH]; intros w c.
  - exists w, c. cbn. rewrite mark_ids_nil. split_and!; try done; lia.
  - cbn [Stage3Service.run_once_loop]. unfold mbind, action_bind.
    unfold call at 1. rewrite Hstop.
    destruct (service_body_marks env d w c Hmark)
      as (w1 & c1 & -> & Hs1 & Hr1 & Hp1).
    destruct (IH w1 c1) as (w2 & c2 & -> & Hs2 & Hr2 & Hp2).
    exists w2, c2. split; [done|]. split; [congruence|].
    split; [|cbn [length]; lia].
    by rewrite Hr2, Hr1, mark_ids_mark_ids.
Qed.

Lemma marked_is_extracted (id : string) (ids : list string)
    (table : list response_row) :
  id ∈ ids → extracted_in id (mark_ids ids table).
Proof.
  intros Hid. unfold extracted_in, mark_ids. apply Forall_fmap, Forall_forall.
  intros r _ Hr. cbn in Hr |- *.
  destruct (decide (response_snapshot_id r ∈ ids)) as [Hin|Hout].
  - by rewrite bool_decide_eq_true_2.
  - rewrite bool_decide_eq_false_2 in Hr |- * by done.
    rewrite Hr in Hout. done.
Qed.

(** The rows still to extract once the identifiers of the first [b] of
    them are marked: none of these first rows, so at least [b] fewer. *)
Lemma unextracted_after_page (st st' : Store) (b : nat) :
  response_table st'
  = mark_ids (response_snapshot_id <$> take b (SupabaseClient.unextracted st))
      (response_table st) →
  SupabaseClient.unextracted st'
  = filter (λ r, response_snapshot_id r
                 ∉ response_snapshot_id <$> take b (SupabaseClient.unextracted st))
      (drop b (SupabaseClient.unextracted st))
  ∧ (length (SupabaseClient.unextracted st')
     ≤ length (SupabaseClient.unextracted st) - b)%nat.
Proof.
  intros Htable. rewrite (unextracted_after_marks _ _ _ Htable).
  set (pending := SupabaseClient.unextracted st).
  set (ids := response_snapshot_id <$> take b pending).
  assert (Hpage : filter (λ r, response_snapshot_id r ∉ ids) (take b pending) = []).
  { subst ids. generalize (take b pending). intros page.
    assert (H : ∀ l (ids : list string),
              (∀ r : response_row, r ∈ l → response_snapshot_id r ∈ ids) →
              filter (λ r : response_row, response_snapshot_id r ∉ ids) l = []).
    { induction l as [|r l IH]; intros ids Hall; [done|].
      rewrite filter_cons, decide_False.
      - apply IH. intros r' Hr'. apply Hall. by apply list_elem_of_further.
      - intros Hn. apply Hn, Hall, list_elem_of_here. }
    apply H. intros r Hr. apply list_elem_of_fmap. by exists r. }
  rewrite <- (take_drop b pending) at 1 3.
  rewrite filter_app, Hpage. cbn [app]. split; [done|].
  etrans; [apply length_filter|]. by rewrite length_drop.
Qed.

Lemma service_run_effect (env : Env) (stop : action World bool)
    (batch_size : nat) (w : World) :
  (∀ w, stop w = (Returns false, w)) →
  db_fault env (now w) SelectUnextracted = None →
  (∀ t id, db_fault env t (UpdateExtracted id) = None) →
  let page := take batch_size (SupabaseClient.unextracted (store w)) in
  ∃ stats w',
    Stage3Service.run_once (SupabaseClient.client env) stop batch_size w
    = (Returns stats, w')
    ∧ Stage3Service.rows_processed stats = length page
    ∧ snapshot_table (store w') = snapshot_table (store w)
    ∧ response_table (store w')
      = mark_ids (response_snapshot_id <$> page) (response_table (store w))
    ∧ Forall (λ r, extracted_in (response_snapshot_id r)
                     (response_table (store w'))) page
    ∧ (length (SupabaseClient.unextracted (store w'))
       ≤ length (SupabaseClient.unextracted (store w)) - batch_size)%nat.
Proof.
  intros Hstop Hfetch Hmark page.
  unfold Stage3Service.run_once.
  cbn [get_unextracted_responses SupabaseClient.client].
  unfold mbind, action_bind, with_locals.
  rewrite get_unextracted_responses_eq, Hfetch.
  unfold SupabaseClient.range. rewrite drop_0. fold as_dict. fold page.
  destruct (service_loop_marks env stop (as_dict <$> page) Hstop Hmark (tick w)
              (Stage3Service.RunStats 0 0 0 0))
    as (w' & c' & -> & Hs & Hr & Hp).
  rewrite tick_store in Hs, Hr.
  rewrite <- list_fmap_compose in Hr.
  change (rd_snapshot_id ∘ as_dict) with response_snapshot_id in Hr.
  exists c', w'. cbn [mret action_ret].
  split; [done|]. split; [by rewrite Hp, length_fmap|].
  split; [done|]. split; [done|]. split.
  - apply Forall_forall. intros r Hr0. rewrite Hr.
    apply marked_is_extracted. apply list_elem_of_fmap. by exists r.
  - by apply (unextracted_after_page (store w) (store w') batch_size).
Qed.

(** X11.  One run of the extraction service, when nobody sets the stop
    event, the fetch goes through and no update of the flag fails: the
    run returns, it has counted every row of the page under
    [rows_processed], and it has marked every one of them extracted, rows
    with no response included; the snapshot table is as before, and at
    least a page fewer rows are left to extract. *)
Theorem service_run_marks_its_page (env : Env) (stop : action World bool)
    (batch_size : nat) (w : World) :
  (∀ w, stop w = (Returns false, w)) →
  db_fault env (now w) SelectUnextracted = None →
  (∀ t id, db_fault env t (UpdateExtracted id) = None) →
  let page := take batch_size (SupabaseClient.unextracted (store w)) in
  ∃ stats w',
    Stage3Service.run_once (SupabaseClient.client env) stop batch_size w
    = (Returns stats, w')
    ∧ Stage3Service.rows_processed stats = length page
    ∧ snapshot_table (store w') = snapshot_table (store w)
    ∧ response_table (store w')
      = mark_ids (response_snapshot_id <$> page) (response_table (store w))
    ∧ Forall (λ r, extracted_in (response_snapshot_id r)
                     (response_table (store w'))) page
    ∧ (length (SupabaseClient.unextracted (store w'))
       ≤ length (SupabaseClient.unextracted (store w)) - batch_size)%nat.
Proof. apply service_run_effect. Qed.

Lemma service_run_marks_its_page_witness :
  let page := take 20 (SupabaseClient.unextracted (store null_row_world)) in
  ∃ stats w',
    Stage3Service.run_once (SupabaseClient.client (answering results_payload))
      never_stopped 20 null_row_world
    = (Returns stats, w')
    ∧ Stage3Service.rows_processed stats = length page
    ∧ snapshot_table (store w') = snapshot_table (store null_row_world)
    ∧ response_table (store w')
      = mark_ids (response_snapshot_id <$> page)
          (response_table (store null_row_world))
    ∧ Forall (λ r, extracted_in (response_snapshot_id r)
                     (response_table (store w'))) page
    ∧ (length (SupabaseClient.unextracted (store w'))
       ≤ length (SupabaseClient.unextracted (store null_row_world)) - 20)%nat.
Proof.
  apply (service_run_marks_its_page (answering results_payload) never_stopped
           20 null_row_world); reflexivity.
Defined.

Lemma service_wait_idles {W : Type} (stop : action W bool) (interval : nat) :
  (∀ w, stop w = (Returns false, w)) →
  ∀ w, Stage3Service.wait stop interval w = (Returns tt, w).
Proof.
  intros Hstop. induction interval as [|n IH]; intros w; [done|].
  cbn [Stage3Service.wait]. unfold mbind, action_bind. by rewrite Hstop.
Qed.

Lemma service_loop_drains (env : Env) (stop : action World bool)
    (interval batch_size : nat) :
  (∀ w, stop w = (Returns false, w)) →
  (∀ t, db_fault env t SelectUnextracted = None) →
  (∀ t id, db_fault env t (UpdateExtracted id) = None) →
  ∀ (fuel : nat) (w : World),
    (length (SupabaseClient.unextracted (store w)) ≤ fuel * batch_size)%nat →
    ∃ w',
      Stage3Service.loop (SupabaseClient.client env) stop interval batch_size
        fuel w = (None, w')
      ∧ SupabaseClient.unextracted (store w') = [].
Proof.
  intros Hstop Hfetch Hmark. induction fuel as [|fuel IH]; intros w Hlen.
  - exists w. split; [done|]. apply nil_length_inv. lia.
  - cbn [Stage3Service.loop]. rewrite Hstop.
    unfold mbind, action_bind.
    destruct (service_run_effect env stop batch_size w Hstop
                (Hfetch _) Hmark)
      as (stats & w1 & -> & _ & _ & _ & _ & Hless).
    rewrite (service_wait_idles stop interval Hstop).
    apply IH. lia.
Qed.

(** X12.  The loop of the extraction service, while nobody sets the stop
    event and neither the fetch nor the update of the flag fails: it never
    ends of its own, and from the run number [ceil (n / batch_size)] on,
    [n] being the number of rows to extract at the start, no row is left
    to extract, whatever the responses hold. *)
Theorem service_loop_drains_the_table (env : Env) (stop : action World bool)
    (interval batch_size fuel : nat) (w : World) :
  (∀ w, stop w = (Returns false, w)) →
  (∀ t, db_fault env t SelectUnextracted = None) →
  (∀ t id, db_fault env t (UpdateExtracted id) = None) →
  (0 < batch_size)%nat →
  (ceil_div (length (SupabaseClient.unextracted (store w))) batch_size
   ≤ fuel)%nat →
  ∃ w',
    Stage3Service.loop (SupabaseClient.client env) stop interval batch_size
      fuel w = (None, w')
    ∧ SupabaseClient.unextracted (store w') = [].
Proof.
  intros Hstop Hfetch Hmark Hb Hfuel.
  apply service_loop_drains; try done.
  pose proof (ceil_div_covers
                (length (SupabaseClient.unextracted (store w))) batch_size Hb).
  nia.
Qed.

Lemma service_loop_drains_the_table_witness :
  ∃ w',
    Stage3Service.loop (SupabaseClient.client (answering results_payload))
      never_stopped 30 20 1 null_row_world = (None, w')
    ∧ SupabaseClient.unextracted (store w') = [].
Proof.
  apply (service_loop_drains_the_table (answering results_payload)
           never_stopped 30 20 1 null_row_world);
    [reflexivity|reflexivity|reflexivity|lia|vm_compute; lia].
Defined.

(** ** The former extraction pass of the dashboard *)

(** Fetching by offset in pieces of twenty, on a store nobody writes to
    meanwhile: from offset [start] the loop gathers the rows at positions
    [start] to [batch_size - 1] of the selection, in order. *)
Lemma fetch_sub_batches_gathers (env : Env) (batch_size : nat) :
  (∀ t, db_fault env t SelectUnextracted = None) →
  ∀ (fuel start : nat) (all_rows : list response_dict) (w : World),
    (batch_size - start ≤ fuel)%nat →
    ∃ w',
      Dashboard.fetch_sub_batches (SupabaseClient.client env)
        (EmailScraperEngine.range_from fuel start batch_size 20)
        batch_size all_rows w
      = (Returns (all_rows
                  ++ (as_dict <$> take (batch_size - start)
                                    (drop start
                                       (SupabaseClient.unextracted (store w))))),
         w')
      ∧ store w' = store w.
Proof.
  intros Hfetch. induction fuel as [|fuel IH]; intros start acc w Hfuel.
  - exists w. replace (batch_size - start)%nat with 0%nat by lia.
    cbn. by rewrite app_nil_r.
  - cbn [EmailScraperEngine.range_from].
    destruct (start <? batch_size)%nat eqn:Hlt.
    + apply Nat.ltb_lt in Hlt.
      cbn [Dashboard.fetch_sub_batches get_unextracted_responses
             SupabaseClient.client].
      unfold mbind, action_bind.
      rewrite get_unextracted_responses_eq, Hfetch.
      unfold SupabaseClient.range. fold as_dict.
      set (pending := drop start (SupabaseClient.unextracted (store w))).
      set (limit := Nat.min 20 (batch_size - start)).
      rewrite length_fmap, length_take.
      destruct (Nat.min limit (length pending) <? limit)%nat eqn:Hshort.
      * apply Nat.ltb_lt in Hshort. exists (tick w). split; [|done].
        cbn [mret action_ret]. do 3 f_equal.
        rewrite !take_ge; [done|lia|lia].
      * apply Nat.ltb_ge in Hshort.
        destruct (IH (start + 20)%nat (acc ++ (as_dict <$> take limit pending))
                    (tick w)) as (w' & -> & Hstore); [lia|].
        exists w'. split; [|by rewrite Hstore]. f_equal.
        rewrite <- app_assoc. f_equal. rewrite <- fmap_app. f_equal.
        rewrite tick_store. subst pending. rewrite <- drop_drop.
        set (pending := drop start (SupabaseClient.unextracted (store w))).
        destruct (decide (20 ≤ batch_size - start)%nat) as [Hfull|Hlast].
        -- replace limit with 20%nat by lia.
           replace (batch_size - start)%nat
             with (20 + (batch_size - (start + 20)))%nat by lia.
           by rewrite take_take_drop.
        -- replace limit with (batch_size - start)%nat by lia.
           replace (batch_size - (start + 20))%nat with 0%nat by lia.
           by rewrite take_0, app_nil_r.
    + apply Nat.ltb_ge in Hlt. exists w.
      replace (batch_size - start)%nat with 0%nat by lia.
      cbn. by rewrite app_nil_r.
Qed.

Lemma legacy_emails_keep_responses (env : Env) (emails : list string)
    (w : World) (c : Dashboard.legacy_stats) :
  ∃ w' c',
    for_each emails (Dashboard.legacy_email (SupabaseClient.client env))
      (w, c) = (Returns tt, (w', c'))
    ∧ snapshot_table (store w') = snapshot_table (store w)
    ∧ response_table (store w') = response_table (store w)
    ∧ Dashboard.l_total c' = Dashboard.l_total c
    ∧ Dashboard.l_successful c' = Dashboard.l_successful c
    ∧ Dashboard.l_failed c' = Dashboard.l_failed c.
Proof.
  destruct (for_each_keeps
    (λ s s' : World * Dashboard.legacy_stats,
       snapshot_table (store s'.1) = snapshot_table (store s.1)
       ∧ response_table (store s'.1) = response_table (store s.1)
       ∧ Dashboard.l_total s'.2 = Dashboard.l_total s.2
       ∧ Dashboard.l_successful s'.2 = Dashboard.l_successful s.2
       ∧ Dashboard.l_failed s'.2 = Dashboard.l_failed s.2)
    (Dashboard.legacy_email (SupabaseClient.client env)) emails)
    with (s := (w, c)) as ([w' c'] & Hrun & H); [done| | |by exists w', c'].
  - intros s1 s2 s3 (? & ? & ? & ? & ?) (? & ? & ? & ? & ?).
    split_and!; congruence.
  - intros email [w0 c0]. unfold Dashboard.legacy_email.
    cbn [save_email SupabaseClient.client].
    destruct (save_email_keeps_responses env email w0)
      as ([ok err] & w1 & Hsave & Hs1 & Hr1).
    unfold mbind, action_bind, call. rewrite Hsave.
    destruct ok; [by eexists|].
    destruct (String.eqb err "duplicate"); by eexists.
Qed.

Lemma legacy_rows_marked (env : Env) (rows : list response_dict) :
  (∀ t id, db_fault env t (UpdateExtracted id) = None) →
  ∀ (w : World) (c : Dashboard.legacy_stats),
  ∃ w' c',
    for_each rows (Dashboard.legacy_row (SupabaseClient.client env)) (w, c)
    = (Returns tt, (w', c'))
    ∧ snapshot_table (store w') = snapshot_table (store w)
    ∧ response_table (store w')
      = mark_ids (rd_snapshot_id <$> rows) (response_table (store w))
    ∧ Dashboard.l_total c' = Dashboard.l_total c
    ∧ Dashboard.l_successful c'
      = (Dashboard.l_successful c + length rows)%nat
    ∧ Dashboard.l_failed c' = Dashboard.l_failed c.
Proof.
  intros Hmark. induction rows as [|d rows IH]; intros w c.
  - exists w, c. cbn. rewrite mark_ids_nil. split_and!; try done; lia.
  - cbn [for_each]. unfold mbind, action_bind.
    unfold Dashboard.legacy_row at 1.
    cbn [mark_email_extracted SupabaseClient.client].
    unfold mbind, action_bind.
    match goal with
    | |- context [for_each ?emails (Dashboard.legacy_email _) _] =>
        destruct (legacy_emails_keep_responses env emails w c)
          as (w1 & c1 & -> & Hs1 & Hr1 & Ht1 & Hsu1 & Hf1)
    end.
    unfold call. rewrite mark_email_extracted_eq, Hmark.
    unfold update.
    match goal with
    | |- context [for_each rows _ (?w2, ?c2)] =>
        destruct (IH w2 c2) as (w3 & c3 & -> & Hs3 & Hr3 & Ht3 & Hsu3 & Hf3)
    end.
    cbn in Hs3, Hr3, Ht3, Hsu3, Hf3.
    exists w3, c3. split; [done|].
    split; [congruence|]. split.
    { rewrite Hr3, Hr1. rewrite fmap_cons.
      change (rd_snapshot_id d :: (rd_snapshot_id <$> rows))
        with ([rd_snapshot_id d] ++ (rd_snapshot_id <$> rows)).
      rewrite <- mark_ids_mark_ids. f_equal.
      unfold mark_ids. apply list_fmap_ext. intros _ r _.
      unfold SupabaseClient.set_extracted.
      destruct (String.eqb (response_snapshot_id r) (rd_snapshot_id d)) eqn:E.
      - apply String.eqb_eq in E.
        rewrite bool_decide_eq_true_2; [done|]. rewrite E. apply list_elem_of_here.
      - apply String.eqb_neq in E.
        rewrite bool_decide_eq_false_2; [done|].
        by intros ?%list_elem_of_singleton. }
    split; [congruence|]. split; [cbn [length]; lia|congruence].
Qed.

(** X13.  [process_responses_for_emails(batch_size)] on the store, when
    neither the fetch nor the update of the flag fails: the sub-batches it
    fetches by offset make up the first [batch_size] rows to extract, in
    order and each once; it returns, counts them all as successful, marks
    every one of them extracted, and leaves the snapshot table alone. *)
Theorem former_pass_takes_the_first_rows (env : Env) (batch_size : nat)
    (w : World) :
  (∀ t, db_fault env t SelectUnextracted = None) →
  (∀ t id, db_fault env t (UpdateExtracted id) = None) →
  let page := take batch_size (SupabaseClient.unextracted (store w)) in
  (∃ w1,
     Dashboard.fetch_sub_batches (SupabaseClient.client env)
       (EmailScraperEngine.range_from batch_size 0 batch_size 20)
       batch_size [] w
     = (Returns (as_dict <$> page), w1))
  ∧ ∃ stats w',
      Dashboard.process_responses_for_emails (SupabaseClient.client env)
        batch_size w = (Returns stats, w')
      ∧ Dashboard.l_total stats = length page
      ∧ Dashboard.l_successful stats = length page
      ∧ Dashboard.l_failed stats = 0%nat
      ∧ snapshot_table (store w') = snapshot_table (store w)
      ∧ response_table (store w')
        = mark_ids (response_snapshot_id <$> page) (response_table (store w))
      ∧ (length (SupabaseClient.unextracted (store w'))
         ≤ length (SupabaseClient.unextracted (store w)) - batch_size)%nat.
Proof.
  intros Hfetch Hmark page.
  destruct (fetch_sub_batches_gathers env batch_size Hfetch batch_size 0 [] w)
    as (w1 & Hgather & Hstore); [lia|].
  rewrite Nat.sub_0_r, drop_0 in Hgather. cbn [app] in Hgather. fold page in Hgather.
  split; [by exists w1|].
  unfold Dashboard.process_responses_for_emails, try_except.
  unfold mbind at 1, action_bind at 1. rewrite Hgather.
  destruct page as [|r0 page'] eqn:Hpage.
  - exists (Dashboard.LegacyStats 0 0 0 0 0 0), w1. cbn [fmap list_fmap].
    rewrite mark_ids_nil, Hstore. split_and!; try done. 
    destruct batch_size as [|b]; [lia|].
    destruct (SupabaseClient.unextracted (store w)); [cbn; lia|done].
  - rewrite fmap_cons.
    unfold mbind, action_bind, with_locals.
    destruct (legacy_rows_marked env (as_dict <$> r0 :: page') Hmark w1
                (Dashboard.LegacyStats
                   (length (as_dict <$> r0 :: page')) 0 0 0 0 0))
      as (w' & c' & Hrun & Hs & Hr & Ht & Hsu & Hf).
    rewrite fmap_cons in Hrun. rewrite Hrun.
    rewrite Hstore in Hs, Hr.
    rewrite <- list_fmap_compose in Hr.
    change (rd_snapshot_id ∘ as_dict) with response_snapshot_id in Hr.
    rewrite length_fmap in Ht, Hsu. cbn in Ht, Hsu, Hf.
    exists c', w'. cbn [mret action_ret]. split; [done|].
    split; [done|]. split; [done|]. split; [done|]. split; [done|].
    split; [done|].
    apply (unextracted_after_page (store w) (store w') batch_size).
    by rewrite Hr, <- Hpage.
Qed.

Lemma former_pass_takes_the_first_rows_witness :
  let page := take 20 (SupabaseClient.unextracted (store stored_world)) in
  (∃ w1,
     Dashboard.fetch_sub_batches
       (SupabaseClient.client (answering results_payload))
       (EmailScraperEngine.range_from 20 0 20 20) 20 [] stored_world
     = (Returns (as_dict <$> page), w1))
  ∧ ∃ stats w',
      Dashboard.process_responses_for_emails
        (SupabaseClient.client (answering results_payload)) 20 stored_world
      = (Returns stats, w')
      ∧ Dashboard.l_total stats = length page
      ∧ Dashboard.l_successful stats = length page
      ∧ Dashboard.l_failed stats = 0%nat
      ∧ snapshot_table (store w') = snapshot_table (store stored_world)
      ∧ response_table (store w')
        = mark_ids (response_snapshot_id <$> page)
            (response_table (store stored_world))
      ∧ (length (SupabaseClient.unextracted (store w'))
         ≤ length (SupabaseClient.unextracted (store stored_world)) - 20)%nat.
Proof.
  apply (former_pass_takes_the_first_rows (answering results_payload) 20
           stored_world); reflexivity.
Defined.

(** ** The automated pipeline *)

Lemma poll_effect (env : Env) (remaining poll_attempt : nat)
    (w : World) :
  ∃ r w',
    Dashboard.poll (BrightdataClient.client env) (SupabaseClient.client env)
      remaining poll_attempt w = (r, w')
    ∧ store w' = store w
    ∧ (now w ≤ now w' ≤ now w + 2 * remaining)%nat
    ∧ match r with
      | Returns attempts =>
          (poll_attempt ≤ attempts ≤ poll_attempt + remaining)%nat
          ∧ (remaining = 0%nat ∨ poll_attempt < attempts)%nat
      | Raises _ => True
      end.
Proof.
  revert poll_attempt w.
  induction remaining as [|remaining IH]; intros k w.
  - exists (Returns k), w. cbn. split_and!; first [done|lia|by left].
  - cbn [Dashboard.poll get_unprocessed_snapshots get_snapshot_data
           BrightdataClient.client SupabaseClient.client].
    unfold mbind, action_bind.
    rewrite get_unprocessed_snapshots_eq.
    assert (Hnext : ∀ w1, store w1 = store w →
              (now w < now w1 ≤ now w + 2)%nat →
              ∃ r w',
                Dashboard.poll (BrightdataClient.client env)
                  (SupabaseClient.client env) remaining (S k) w1 = (r, w')
                ∧ store w' = store w
                ∧ (now w ≤ now w' ≤ now w + 2 * S remaining)%nat
                ∧ match r with
                  | Returns attempts =>
                      (k ≤ attempts ≤ k + S remaining)%nat
                      ∧ (S remaining = 0%nat ∨ k < attempts)%nat
                  | Raises _ => True
                  end).
    { intros w1 Hstore Hnow.
      destruct (IH (S k) w1) as (r & w' & -> & Hs & Hn & Hr).
      exists r, w'. split; [done|]. split; [congruence|]. split; [lia|].
      destruct r as [a|e]; [|done]. split; [lia|]. right. lia. }
    destruct (match db_fault env (now w) SelectUnprocessed with
              | Some _ => []
              | None => (λ r, SnapshotDict (snapshot_id r) (query r))
                          <$> SupabaseClient.unprocessed (store w)
              end) as [|first rest].
    + apply Hnext; [done|]. cbn. lia.
    + unfold BrightdataClient.get_snapshot_data. cbn [now tick store].
      destruct (http_get env (S (now w)) (sd_snapshot_id first))
        as [data|e|e|e].
      * destruct (BrightdataClient.validate_response data)
          as [[is_running is_valid] reason].
        destruct is_valid.
        -- exists (Returns (S k)), (tick (tick w)). cbn.
           split_and!; first [done|lia|right; lia].
        -- apply Hnext; [done|]. cbn. lia.
      * apply Hnext; [done|]. cbn. lia.
      * apply Hnext; [done|]. cbn. lia.
      * exists (Raises e), (tick (tick w)). cbn. split_and!; try done; lia.
Qed.

(** X14.  Polling only reads: whatever the service and the store answer,
    the polling loop of the automated pipeline leaves the three tables as
    they are, makes at most two external calls per attempt, and, when it
    returns, has advanced the attempt counter by at most the number of
    attempts allowed. *)
Theorem polling_only_reads (env : Env) (remaining poll_attempt : nat)
    (w : World) :
  ∃ r w',
    Dashboard.poll (BrightdataClient.client env) (SupabaseClient.client env)
      remaining poll_attempt w = (r, w')
    ∧ store w' = store w
    ∧ (now w ≤ now w' ≤ now w + 2 * remaining)%nat
    ∧ match r with
      | Returns attempts =>
          (poll_attempt ≤ attempts ≤ poll_attempt + remaining)%nat
          ∧ (remaining = 0%nat ∨ poll_attempt < attempts)%nat
      | Raises _ => True
      end.
Proof. apply poll_effect. Qed.

Lemma pipeline_emails_keep_responses (env : Env) (emails : list string)
    (w : World) (c : Dashboard.pipeline_stage3) :
  ∃ w' c',
    for_each emails (Dashboard.pipeline_email (SupabaseClient.client env))
      (w, c) = (Returns tt, (w', c'))
    ∧ snapshot_table (store w') = snapshot_table (store w)
    ∧ response_table (store w') = response_table (store w)
    ∧ Dashboard.p3_total_processed c' = Dashboard.p3_total_processed c
    ∧ Dashboard.p3_total_successful c' = Dashboard.p3_total_successful c
    ∧ Dashboard.p3_total_failed c' = Dashboard.p3_total_failed c.
Proof.
  destruct (for_each_keeps
    (λ s s' : World * Dashboard.pipeline_stage3,
       snapshot_table (store s'.1) = snapshot_table (store s.1)
       ∧ response_table (store s'.1) = response_table (store s.1)
       ∧ Dashboard.p3_total_processed s'.2 = Dashboard.p3_total_processed s.2
       ∧ Dashboard.p3_total_successful s'.2 = Dashboard.p3_total_successful s.2
       ∧ Dashboard.p3_total_failed s'.2 = Dashboard.p3_total_failed s.2)
    (Dashboard.pipeline_email (SupabaseClient.client env)) emails)
    with (s := (w, c)) as ([w' c'] & Hrun & H); [done| | |by exists w', c'].
  - intros s1 s2 s3 (? & ? & ? & ? & ?) (? & ? & ? & ? & ?).
    split_and!; congruence.
  - intros email [w0 c0]. unfold Dashboard.pipeline_email.
    cbn [save_email SupabaseClient.client].
    destruct (save_email_keeps_responses env email w0)
      as ([ok err] & w1 & Hsave & Hs1 & Hr1).
    unfold mbind, action_bind, call. rewrite Hsave.
    destruct ok; [by eexists|].
    destruct (String.eqb err "duplicate"); by eexists.
Qed.

Lemma set_extracted_mark_ids (id : string) (table : list response_row) :
  SupabaseClient.set_extracted id <$> table = mark_ids [id] table.
Proof.
  unfold mark_ids. apply list_fmap_ext. intros _ r _.
  unfold SupabaseClient.set_extracted.
  destruct (String.eqb (response_snapshot_id r) id) eqn:E.
  - apply String.eqb_eq in E.
    rewrite bool_decide_eq_true_2; [done|]. rewrite E. apply list_elem_of_here.
  - apply String.eqb_neq in E.
    rewrite bool_decide_eq_false_2; [done|].
    by intros ?%list_elem_of_singleton.
Qed.

Lemma pipeline_rows_marked (env : Env) (rows : list response_dict) :
  (∀ t id, db_fault env t (UpdateExtracted id) = None) →
  Forall (λ d, workable d = true) rows →
  ∀ (w : World) (c : Dashboard.pipeline_stage3),
  ∃ w' c',
    for_each rows (Dashboard.pipeline_row (SupabaseClient.client env)) (w, c)
    = (Returns tt, (w', c'))
    ∧ snapshot_table (store w') = snapshot_table (store w)
    ∧ response_table (store w')
      = mark_ids (rd_snapshot_id <$> rows) (response_table (store w))
    ∧ Dashboard.p3_total_processed c' = Dashboard.p3_total_processed c
    ∧ Dashboard.p3_total_successful c'
      = (Dashboard.p3_total_successful c + length rows)%nat
    ∧ Dashboard.p3_total_failed c' = Dashboard.p3_total_failed c.
Proof.
  intros Hmark. induction rows as [|d rows IH]; intros Hok w c.
  - exists w, c. cbn. rewrite mark_ids_nil. split_and!; try done; lia.
  - apply Forall_cons in Hok as [Hd Hok].
    unfold workable in Hd. apply andb_true_iff in Hd as [Hid Hdata].
    cbn [for_each]. unfold mbind, action_bind.
    unfold Dashboard.pipeline_row at 1. rewrite Hid, Hdata. cbn [negb orb].
    cbn [mark_email_extracted SupabaseClient.client].
    unfold mbind, action_bind.
    match goal with
    | |- context [for_each ?emails (Dashboard.pipeline_email _) _] =>
        destruct (pipeline_emails_keep_responses env emails w c)
          as (w1 & c1 & -> & Hs1 & Hr1 & Ht1 & Hsu1 & Hf1)
    end.
    unfold call. rewrite mark_email_extracted_eq, Hmark.
    unfold update.
    match goal with
    | |- context [for_each rows _ (?w2, ?c2)] =>
        destruct (IH Hok w2 c2) as (w3 & c3 & -> & Hs3 & Hr3 & Ht3 & Hsu3 & Hf3)
    end.
    cbn in Hs3, Hr3, Ht3, Hsu3, Hf3.
    exists w3, c3. split; [done|].
    split; [congruence|]. split.
    { rewrite Hr3, Hr1, set_extracted_mark_ids, fmap_cons.
      change (mark_ids (rd_snapshot_id <$> rows)
                (mark_ids [rd_snapshot_id d] (response_table (store w)))
              = mark_ids ([rd_snapshot_id d] ++ (rd_snapshot_id <$> rows))
                  (response_table (store w))).
      apply mark_ids_mark_ids. }
    split; [congruence|]. split; [cbn [length]; lia|congruence].
Qed.

Lemma pipeline_batches_drain (env : Env) :
  (∀ t, db_fault env t SelectUnextracted = None) →
  (∀ t id, db_fault env t (UpdateExtracted id) = None) →
  ∀ (num_batches : nat) (w : World) (c : Dashboard.pipeline_stage3),
    (length (SupabaseClient.unextracted (store w)) ≤ num_batches * 20)%nat →
    Forall (λ r, workable (as_dict r) = true)
      (SupabaseClient.unextracted (store w)) →
    ∃ w' c',
      Dashboard.pipeline_batches (SupabaseClient.client env) num_batches (w, c)
      = (Returns tt, (w', c'))
      ∧ SupabaseClient.unextracted (store w') = []
      ∧ snapshot_table (store w') = snapshot_table (store w)
      ∧ Dashboard.p3_total_failed c' = Dashboard.p3_total_failed c
      ∧ (Dashboard.p3_total_processed c' - Dashboard.p3_total_processed c
         = Dashboard.p3_total_successful c' - Dashboard.p3_total_successful c)%nat
      ∧ (Dashboard.p3_total_processed c ≤ Dashboard.p3_total_processed c'
         ≤ Dashboard.p3_total_processed c
           + length (SupabaseClient.unextracted (store w)))%nat
      ∧ (Dashboard.p3_total_successful c ≤ Dashboard.p3_total_successful c')%nat.
Proof.
  intros Hfetch Hmark. induction num_batches as [|n IH]; intros w c Hlen Hok.
  - exists w, c. cbn. split_and!; try done; try lia. apply nil_length_inv. lia.
  - cbn [Dashboard.pipeline_batches get_unextracted_responses
           SupabaseClient.client].
    unfold mbind at 1, action_bind at 1. unfold call at 1.
    rewrite get_unextracted_responses_eq, Hfetch.
    unfold SupabaseClient.range. rewrite drop_0. fold as_dict.
    set (pending := SupabaseClient.unextracted (store w)) in *.
    destruct (take 20 pending) as [|r0 page'] eqn:Hpage.
    + exists (tick w), c. cbn. split_and!; try done; try lia.
      fold pending. destruct pending; [done|done].
    + rewrite <- Hpage.
      assert (Hpage_ok : Forall (λ d, workable d = true) (as_dict <$> take 20 pending)).
      { apply Forall_fmap. eapply Forall_impl;
          [apply Forall_take; exact Hok|]. by intros r Hr. }
      destruct (pipeline_rows_marked env (as_dict <$> take 20 pending) Hmark
                  Hpage_ok (tick w) c)
        as (w1 & c1 & Hrun & Hs1 & Hr1 & Ht1 & Hsu1 & Hf1).
      rewrite tick_store in Hs1, Hr1.
      rewrite <- list_fmap_compose in Hr1.
      change (rd_snapshot_id ∘ as_dict) with response_snapshot_id in Hr1.
      destruct (unextracted_after_page (store w) (store w1) 20 Hr1)
        as [Hnext Hless].
      fold pending in Hnext, Hless.
      rewrite length_fmap in Hsu1.
      assert (Hlenpage : length (take 20 pending) = Nat.min 20 (length pending))
        by apply length_take.
      destruct (IH w1 (Dashboard.p3_add_processed
                         (length (as_dict <$> take 20 pending)) c1))
        as (w2 & c2 & Hloop & Hnone & Hs2 & Hf2 & Hd2 & Hp2 & Hsu2).
      * lia.
      * rewrite Hnext. apply Forall_forall. intros r [_ Hr]%list_elem_of_filter.
        rewrite Forall_forall in Hok. apply Hok.
        by apply (subseteq_drop 20 pending).
      * exists w2, c2. split.
        { destruct (as_dict <$> take 20 pending) as [|d0 ds] eqn:Hds.
          - rewrite Hpage in Hds. done.
          - unfold mbind, action_bind. rewrite Hrun.
            unfold update at 1. exact Hloop. }
        rewrite length_fmap in Hd2, Hp2, Hsu2. cbn in Hd2, Hp2, Hsu2, Hf2.
        split; [done|]. split; [congruence|]. split; [congruence|].
        split; [lia|]. split; [lia|lia].
Qed.

(** X15.  The extraction stage of the automated pipeline on the store,
    when the count, the fetch and the update of the flag do not fail and
    each row to extract has an identifier and a response that is not
    empty: the number of pages it allows itself, worked out from the count
    it takes first, is enough.  The stage returns with no row left to
    extract, none counted as failed, every row worked on counted as
    successful, and the snapshot table as before. *)
Theorem pipeline_extraction_drains (env : Env) (w : World) :
  db_fault env (now w) CountUnextracted = None →
  (∀ t, db_fault env t SelectUnextracted = None) →
  (∀ t id, db_fault env t (UpdateExtracted id) = None) →
  Forall (λ r, workable (as_dict r) = true)
    (SupabaseClient.unextracted (store w)) →
  ∃ stats w',
    Dashboard.pipeline_extract (SupabaseClient.client env) w
    = (Returns stats, w')
    ∧ SupabaseClient.unextracted (store w') = []
    ∧ snapshot_table (store w') = snapshot_table (store w)
    ∧ Dashboard.p3_total_failed stats = 0%nat
    ∧ Dashboard.p3_total_successful stats = Dashboard.p3_total_processed stats
    ∧ (Dashboard.p3_total_processed stats
       ≤ length (SupabaseClient.unextracted (store w)))%nat.
Proof.
  intros Hcount Hfetch Hmark Hok.
  unfold Dashboard.pipeline_extract.
  cbn [count_unextracted_responses SupabaseClient.client].
  unfold SupabaseClient.count_unextracted_responses. unfold_action.
  rewrite Hcount. destruct w as [st t]. cbn [store now] in *.
  destruct (length (SupabaseClient.unextracted st) =? 0)%nat eqn:Hzero.
  - apply Nat.eqb_eq in Hzero.
    exists (Dashboard.PipelineStage3 0 0 0 0 0), (MkWorld st (S t)).
    cbn. split_and!; try done; try lia. by apply nil_length_inv.
  - unfold with_locals.
    destruct (pipeline_batches_drain env Hfetch Hmark
                ((length (SupabaseClient.unextracted st) + 20 - 1) / 20)
                (MkWorld st (S t)) (Dashboard.PipelineStage3 0 0 0 0 0))
      as (w' & c' & -> & Hnone & Hs & Hf & Hd & Hp & Hsu).
    + cbn [store].
      pose proof (ceil_div_covers (length (SupabaseClient.unextracted st)) 20
                    ltac:(lia)) as Hcover.
      unfold ceil_div in Hcover. lia.
    + done.
    + exists c', w'. cbn in *. split_and!; try done; lia.
Qed.

Lemma pipeline_extraction_drains_witness :
  ∃ stats w',
    Dashboard.pipeline_extract
      (SupabaseClient.client (answering results_payload)) stored_world
    = (Returns stats, w')
    ∧ SupabaseClient.unextracted (store w') = []
    ∧ snapshot_table (store w') = snapshot_table (store stored_world)
    ∧ Dashboard.p3_total_failed stats = 0%nat
    ∧ Dashboard.p3_total_successful stats = Dashboard.p3_total_processed stats
    ∧ (Dashboard.p3_total_processed stats
       ≤ length (SupabaseClient.unextracted (store stored_world)))%nat.
Proof.
  apply (pipeline_extraction_drains (answering results_payload) stored_world);
    [reflexivity|reflexivity|reflexivity|].
  vm_compute. repeat constructor.
Defined.

(** ** The dashboard's extraction pass on the store *)

Lemma extraction_emails_keep_responses (env : Env) (emails : list string)
    (w : World) (c : App.extraction_locals) :
  ∃ w' c',
    for_each emails (App.extraction_email (SupabaseClient.client env))
      (w, c) = (Returns tt, (w', c'))
    ∧ snapshot_table (store w') = snapshot_table (store w)
    ∧ response_table (store w') = response_table (store w)
    ∧ App.x_total_processed c' = App.x_total_processed c
    ∧ App.x_total_successful c' = App.x_total_successful c
    ∧ App.x_total_failed c' = App.x_total_failed c.
Proof.
  destruct (for_each_keeps
    (λ s s' : World * App.extraction_locals,
       snapshot_table (store s'.1) = snapshot_table (store s.1)
       ∧ response_table (store s'.1) = response_table (store s.1)
       ∧ App.x_total_processed s'.2 = App.x_total_processed s.2
       ∧ App.x_total_successful s'.2 = App.x_total_successful s.2
       ∧ App.x_total_failed s'.2 = App.x_total_failed s.2)
    (App.extraction_email (SupabaseClient.client env)) emails)
    with (s := (w, c)) as ([w' c'] & Hrun & H); [done| | |by exists w', c'].
  - intros s1 s2 s3 (? & ? & ? & ? & ?) (? & ? & ? & ? & ?).
    split_and!; congruence.
  - intros email [w0 c0]. unfold App.extraction_email.
    cbn [save_email SupabaseClient.client].
    destruct (save_email_keeps_responses env email w0)
      as ([ok err] & w1 & Hsave & Hs1 & Hr1).
    unfold mbind, action_bind, call. rewrite Hsave.
    destruct ok; [by eexists|].
    destruct (String.eqb err "duplicate"); by eexists.
Qed.

Lemma extraction_rows_marked (env : Env) (rows : list response_dict) :
  (∀ t id, db_fault env t (UpdateExtracted id) = None) →
  Forall (λ d, workable d = true) rows →
  ∀ (w : World) (c : App.extraction_locals),
  ∃ w' c',
    for_each rows (App.extraction_row (SupabaseClient.client env)) (w, c)
    = (Returns tt, (w', c'))
    ∧ snapshot_table (store w') = snapshot_table (store w)
    ∧ response_table (store w')
      = mark_ids (rd_snapshot_id <$> rows) (response_table (store w))
    ∧ App.x_total_processed c' = (App.x_total_processed c + length rows)%nat
    ∧ App.x_total_successful c' = (App.x_total_successful c + length rows)%nat
    ∧ App.x_total_failed c' = App.x_total_failed c.
Proof.
  intros Hmark. induction rows as [|d rows IH]; intros Hok w c.
  - exists w, c. cbn. rewrite mark_ids_nil. split_and!; try done; lia.
  - apply Forall_cons in Hok as [Hd Hok].
    unfold workable in Hd. apply andb_true_iff in Hd as [Hid Hdata].
    cbn [for_each]. unfold mbind, action_bind.
    unfold App.extraction_row at 1. rewrite Hid, Hdata. cbn [negb orb].
    cbn [mark_email_extracted SupabaseClient.client].
    unfold mbind, action_bind.
    match goal with
    | |- context [for_each ?emails (App.extraction_email _) _] =>
        destruct (extraction_emails_keep_responses env emails w c)
          as (w1 & c1 & -> & Hs1 & Hr1 & Ht1 & Hsu1 & Hf1)
    end.
    unfold call. rewrite mark_email_extracted_eq, Hmark.
    unfold update.
    match goal with
    | |- context [for_each rows _ (?w2, ?c2)] =>
        destruct (IH Hok w2 c2) as (w3 & c3 & -> & Hs3 & Hr3 & Ht3 & Hsu3 & Hf3)
    end.
    cbn in Hs3, Ht3, Hsu3, Hf3.
    cbn [store response_table] in Hr3.
    exists w3, c3. split; [done|].
    split; [congruence|]. split.
    { rewrite Hr3, Hr1, set_extracted_mark_ids, fmap_cons.
      apply (mark_ids_mark_ids [rd_snapshot_id d]). }
    split; [cbn [length]; lia|]. split; [cbn [length]; lia|congruence].
Qed.

Lemma extraction_batches_drain (env : Env) :
  (∀ t, db_fault env t SelectUnextracted = None) →
  (∀ t id, db_fault env t (UpdateExtracted id) = None) →
  ∀ (num_batches : nat) (w : World) (c : App.extraction_locals),
    (length (SupabaseClient.unextracted (store w)) ≤ num_batches * 20)%nat →
    Forall (λ r, workable (as_dict r) = true)
      (SupabaseClient.unextracted (store w)) →
    ∃ w' c',
      App.extraction_batches (SupabaseClient.client env) num_batches (w, c)
      = (Returns tt, (w', c'))
      ∧ SupabaseClient.unextracted (store w') = []
      ∧ snapshot_table (store w') = snapshot_table (store w)
      ∧ App.x_total_failed c' = App.x_total_failed c
      ∧ (App.x_total_processed c' - App.x_total_processed c
         = App.x_total_successful c' - App.x_total_successful c)%nat
      ∧ (App.x_total_processed c ≤ App.x_total_processed c'
         ≤ App.x_total_processed c
           + length (SupabaseClient.unextracted (store w)))%nat
      ∧ (App.x_total_successful c ≤ App.x_total_successful c')%nat.
Proof.
  intros Hfetch Hmark. induction num_batches as [|n IH]; intros w c Hlen Hok.
  - exists w, c. cbn. split_and!; try done; try lia. apply nil_length_inv. lia.
  - cbn [App.extraction_batches get_unextracted_responses
           SupabaseClient.client].
    unfold mbind at 1, action_bind at 1. unfold call at 1.
    rewrite get_unextracted_responses_eq, Hfetch.
    unfold SupabaseClient.range. rewrite drop_0. fold as_dict.
    set (pending := SupabaseClient.unextracted (store w)) in *.
    destruct (take 20 pending) as [|r0 page'] eqn:Hpage.
    + exists (tick w), c. cbn. split_and!; try done; try lia.
      fold pending. destruct pending; [done|done].
    + rewrite <- Hpage.
      assert (Hpage_ok : Forall (λ d, workable d = true) (as_dict <$> take 20 pending)).
      { apply Forall_fmap. eapply Forall_impl;
          [apply Forall_take; exact Hok|]. by intros r Hr. }
      destruct (extraction_rows_marked env (as_dict <$> take 20 pending) Hmark
                  Hpage_ok (tick w) (App.x_new_batch c))
        as (w1 & c1 & Hrun & Hs1 & Hr1 & Ht1 & Hsu1 & Hf1).
      rewrite tick_store in Hs1, Hr1.
      rewrite <- list_fmap_compose in Hr1.
      change (rd_snapshot_id ∘ as_dict) with response_snapshot_id in Hr1.
      destruct (unextracted_after_page (store w) (store w1) 20 Hr1)
        as [Hnext Hless].
      fold pending in Hnext, Hless.
      rewrite length_fmap in Ht1, Hsu1.
      assert (Hlenpage : length (take 20 pending) = Nat.min 20 (length pending))
        by apply length_take.
      destruct (IH w1 (App.x_update_totals c1))
        as (w2 & c2 & Hloop & Hnone & Hs2 & Hf2 & Hd2 & Hp2 & Hsu2).
      * lia.
      * rewrite Hnext. apply Forall_forall. intros r [_ Hr]%list_elem_of_filter.
        rewrite Forall_forall in Hok. apply Hok.
        by apply (subseteq_drop 20 pending).
      * exists w2, c2. split.
        { destruct (as_dict <$> take 20 pending) as [|d0 ds] eqn:Hds.
          - rewrite Hpage in Hds. done.
          - unfold mbind, action_bind. unfold update at 1. rewrite Hrun.
            unfold update at 1. exact Hloop. }
        cbn in Hd2, Hp2, Hsu2, Hf2, Ht1, Hsu1, Hf1.
        split; [done|]. split; [congruence|]. split; [congruence|].
        split; [lia|]. split; [lia|lia].
Qed.

(** X16.  [process_all_responses_for_emails(total_count)] on the store,
    called, as the dashboard calls it, with a count that is not below the
    number of rows to extract, when neither the fetch nor the update of
    the flag fails and each row to extract has an identifier and a response
    that is not empty: it returns with no row left to extract, none counted
    as failed, and every row worked on counted as successful. *)
Theorem dashboard_extraction_drains (env : Env) (total_count : nat)
    (w : World) :
  (length (SupabaseClient.unextracted (store w)) ≤ total_count)%nat →
  (∀ t, db_fault env t SelectUnextracted = None) →
  (∀ t id, db_fault env t (UpdateExtracted id) = None) →
  Forall (λ r, workable (as_dict r) = true)
    (SupabaseClient.unextracted (store w)) →
  ∃ stats w',
    App.process_all_responses_for_emails (SupabaseClient.client env)
      total_count w = (Returns stats, w')
    ∧ SupabaseClient.unextracted (store w') = []
    ∧ snapshot_table (store w') = snapshot_table (store w)
    ∧ App.x_total_failed stats = 0%nat
    ∧ App.x_total_successful stats = App.x_total_processed stats
    ∧ (App.x_total_processed stats
       ≤ length (SupabaseClient.unextracted (store w)))%nat.
Proof.
  intros Hcount Hfetch Hmark Hok.
  unfold App.process_all_responses_for_emails, try_except.
  unfold mbind, action_bind, with_locals.
  destruct (extraction_batches_drain env Hfetch Hmark
              ((total_count + 20 - 1) / 20) w
              (App.ExtractionLocals 0 0 0 0 0 0 0 0 0))
    as (w' & c' & -> & Hnone & Hs & Hf & Hd & Hp & Hsu).
  - pose proof (ceil_div_covers total_count 20 ltac:(lia)) as Hcover.
    unfold ceil_div in Hcover. lia.
  - done.
  - exists c', w'. cbn in *. split_and!; try done; lia.
Qed.

Lemma dashboard_extraction_drains_witness :
  ∃ stats w',
    App.process_all_responses_for_emails
      (SupabaseClient.client (answering results_payload)) 1 stored_world
    = (Returns stats, w')
    ∧ SupabaseClient.unextracted (store w') = []
    ∧ snapshot_table (store w') = snapshot_table (store stored_world)
    ∧ App.x_total_failed stats = 0%nat
    ∧ App.x_total_successful stats = App.x_total_processed stats
    ∧ (App.x_total_processed stats
       ≤ length (SupabaseClient.unextracted (store stored_world)))%nat.
Proof.
  apply (dashboard_extraction_drains (answering results_payload) 1 stored_world);
    [vm_compute; lia|reflexivity|reflexivity|].
  vm_compute. repeat constructor.
Defined.

(** ** What the retrieval stage of the automated pipeline writes *)

Lemma only_processes_refl (table : list snapshot_row) :
  only_processes table table.
Proof. unfold only_processes. induction table; by constructor. Qed.

Lemma only_processes_trans (t1 t2 t3 : list snapshot_row) :
  only_processes t1 t2 → only_processes t2 t3 → only_processes t1 t3.
Proof.
  unfold only_processes. intros H12. revert t3.
  induction H12 as [|r1 r2 t1 t2 (? & ? & ?) _ IH]; intros t3 H23.
  - by apply Forall2_nil_inv_l in H23 as ->.
  - apply Forall2_cons_inv_l in H23 as (r3 & t3' & (? & ? & ?) & H23 & ->).
    constructor; [|by apply IH]. split_and!; [congruence|congruence|tauto].
Qed.

Lemma only_processes_set_processed (id : string) (table : list snapshot_row) :
  only_processes table (SupabaseClient.set_processed id <$> table).
Proof.
  unfold only_processes. induction table as [|r table IH]; [constructor|].
  rewrite fmap_cons. constructor; [|exact IH].
  unfold SupabaseClient.set_processed.
  by destruct (String.eqb (snapshot_id r) id).
Qed.

(** The mark of a snapshot on the store: it may fail, and touches nothing
    but the processed flags. *)
Lemma mark_as_processed_effect (env : Env) (id : string) (w : World) :
  ∃ marked w',
    SupabaseClient.mark_as_processed env id w = (Returns marked, w')
    ∧ only_processes (snapshot_table (store w)) (snapshot_table (store w'))
    ∧ response_table (store w') = response_table (store w)
    ∧ email_table (store w') = email_table (store w).
Proof.
  rewrite mark_as_processed_eq.
  destruct (db_fault env (now w) (UpdateProcessed id)).
  - eexists _, _. split; [reflexivity|]. cbn. split_and!; try done.
    apply only_processes_refl.
  - eexists _, _. split; [reflexivity|]. cbn. split_and!; try done.
    apply only_processes_set_processed.
Qed.

(** The insert of a response on the store: either it goes through and
    appends the row, under an identifier the table did not have, or it
    fails and changes nothing. *)
Lemma save_response_effect (env : Env) (id : string) (data : json) (w : World) :
  ∃ ok err w',
    SupabaseClient.save_response env id data w = (Returns (ok, err), w')
    ∧ snapshot_table (store w') = snapshot_table (store w)
    ∧ email_table (store w') = email_table (store w)
    ∧ ((ok = true
        ∧ response_table (store w')
          = response_table (store w) ++ [ResponseRow id data false]
        ∧ SupabaseClient.has_response id (store w) = false)
       ∨ (ok = false ∧ response_table (store w') = response_table (store w))).
Proof.
  unfold SupabaseClient.save_response. unfold_action.
  destruct (db_fault env (now w) (InsertResponse id));
    [eexists _, _, _; split; [reflexivity|]; cbn; by eauto|].
  destruct (SupabaseClient.has_response id (store w)) eqn:Hhas;
    eexists _, _, _; (split; [reflexivity|]); cbn; by eauto 10.
Qed.

(** One snapshot in the retrieval stage of the pipeline: the body
    returns, moves one counter by one, and stores at most one response,
    which then is a payload the validator accepts and that is not empty. *)
Lemma pipeline_snapshot_effect (env : Env) (snap : snapshot_dict)
    (w : World) (c : Dashboard.pipeline_stage2) :
  ∃ w' c' new,
    Dashboard.pipeline_snapshot (BrightdataClient.client env)
      (SupabaseClient.client env) snap (w, c) = (Returns tt, (w', c'))
    ∧ response_table (store w') = response_table (store w) ++ new
    ∧ email_table (store w') = email_table (store w)
    ∧ only_processes (snapshot_table (store w)) (snapshot_table (store w'))
    ∧ Forall (λ r, response_snapshot_id r = sd_snapshot_id snap
                   ∧ is_email_extracted r = false
                   ∧ classify (response r) = Valid
                   ∧ Json.truthy (response r) = true
                   ∧ SupabaseClient.has_response (sd_snapshot_id snap) (store w)
                     = false) new
    ∧ (length new ≤ 1)%nat
    ∧ Dashboard.p2_total c' = Dashboard.p2_total c
    ∧ Dashboard.p2_successful c'
      = (Dashboard.p2_successful c + length new)%nat
    ∧ (Dashboard.p2_successful c' + Dashboard.p2_failed c'
       + Dashboard.p2_skipped c' + Dashboard.p2_invalid_responses c'
       = S (Dashboard.p2_successful c + Dashboard.p2_failed c
            + Dashboard.p2_skipped c + Dashboard.p2_invalid_responses c))%nat.
Proof.
  assert (Hnone : ∀ w' c',
    response_table (store w') = response_table (store w) →
    email_table (store w') = email_table (store w) →
    only_processes (snapshot_table (store w)) (snapshot_table (store w')) →
    Dashboard.p2_total c' = Dashboard.p2_total c →
    Dashboard.p2_successful c' = Dashboard.p2_successful c →
    (Dashboard.p2_successful c' + Dashboard.p2_failed c'
     + Dashboard.p2_skipped c' + Dashboard.p2_invalid_responses c'
     = S (Dashboard.p2_successful c + Dashboard.p2_failed c
          + Dashboard.p2_skipped c + Dashboard.p2_invalid_responses c))%nat →
    ∃ w'' c'' new,
      (Returns tt, (w', c')) = (Returns tt, (w'', c''))
      ∧ response_table (store w'') = response_table (store w) ++ new
      ∧ email_table (store w'') = email_table (store w)
      ∧ only_processes (snapshot_table (store w)) (snapshot_table (store w''))
      ∧ Forall (λ r, response_snapshot_id r = sd_snapshot_id snap
                     ∧ is_email_extracted r = false
                     ∧ classify (response r) = Valid
                     ∧ Json.truthy (response r) = true
                     ∧ SupabaseClient.has_response (sd_snapshot_id snap) (store w)
                       = false) new
      ∧ (length new ≤ 1)%nat
      ∧ Dashboard.p2_total c'' = Dashboard.p2_total c
      ∧ Dashboard.p2_successful c''
        = (Dashboard.p2_successful c + length new)%nat
      ∧ (Dashboard.p2_successful c'' + Dashboard.p2_failed c''
         + Dashboard.p2_skipped c'' + Dashboard.p2_invalid_responses c''
         = S (Dashboard.p2_successful c + Dashboard.p2_failed c
              + Dashboard.p2_skipped c + Dashboard.p2_invalid_responses c))%nat).
  { intros w' c' Hr He Hs Ht Hsu Hsum. exists w', c', [].
    rewrite app_nil_r. cbn [length]. split_and!; try done; lia. }
  unfold Dashboard.pipeline_snapshot.
  cbn [get_snapshot_data save_response mark_as_processed
         BrightdataClient.client SupabaseClient.client].
  unfold try_except at 1. unfold mbind at 1, action_bind at 1. unfold call at 1.
  unfold BrightdataClient.get_snapshot_data.
  destruct (http_get env (now w) (sd_snapshot_id snap)) as [data|e|e|e];
    try (apply Hnone; cbn; try done; try apply only_processes_refl; lia).
  destruct (BrightdataClient.validate_response data)
    as [[is_running is_valid] reason] eqn:Hflags.
  destruct is_valid; cbn [negb];
    [|apply Hnone; cbn; try done; try apply only_processes_refl; lia].
  assert (Hvalid : classify data = Valid).
  { unfold classify. by rewrite Hflags. }
  destruct (Json.truthy data) eqn:Hdata;
    [|apply Hnone; cbn; try done; try apply only_processes_refl; lia].
  unfold mbind at 1, action_bind at 1. unfold call at 1.
  destruct (save_response_effect env (sd_snapshot_id snap) data (tick w))
    as (ok & err & w1 & -> & Hs1 & He1 & Hcase).
  rewrite tick_store in Hs1, He1, Hcase.
  destruct Hcase as [(-> & Hr1 & Hfresh)|(-> & Hr1)].
  - unfold mbind, action_bind, call.
    destruct (mark_as_processed_effect env (sd_snapshot_id snap) w1)
      as (marked & w2 & -> & Hs2 & Hr2 & He2).
    unfold update.
    eexists w2, _, [ResponseRow (sd_snapshot_id snap) data false].
    split; [reflexivity|]. cbn. rewrite Hs1 in Hs2.
    split_and!; try done; try congruence; try lia.
    by repeat constructor.
  - destruct (String.eqb err "duplicate").
    + unfold mbind, action_bind, call.
      destruct (mark_as_processed_effect env (sd_snapshot_id snap) w1)
        as (marked & w2 & -> & Hs2 & Hr2 & He2).
      rewrite Hs1 in Hs2.
      apply Hnone; cbn; try done; try congruence; lia.
    + apply Hnone; cbn; try done; try congruence; try lia.
      rewrite Hs1. apply only_processes_refl.
Qed.

Lemma has_response_false (id : string) (st : Store) :
  SupabaseClient.has_response id st = false →
  id ∉ response_snapshot_id <$> response_table st.
Proof.
  unfold SupabaseClient.has_response.
  induction (response_table st) as [|r table IH]; cbn [existsb].
  - intros _. apply not_elem_of_nil.
  - intros [Hr Hrest]%orb_false_iff. rewrite fmap_cons.
    apply not_elem_of_cons. split; [|by apply IH].
    apply String.eqb_neq in Hr. congruence.
Qed.

Lemma pipeline_snapshots_effect (env : Env) (snapshots : list snapshot_dict) :
  ∀ (w : World) (c : Dashboard.pipeline_stage2),
  ∃ w' c' new,
    for_each snapshots
      (Dashboard.pipeline_snapshot (BrightdataClient.client env)
         (SupabaseClient.client env)) (w, c) = (Returns tt, (w', c'))
    ∧ response_table (store w') = response_table (store w) ++ new
    ∧ email_table (store w') = email_table (store w)
    ∧ only_processes (snapshot_table (store w)) (snapshot_table (store w'))
    ∧ Forall (λ r, response_snapshot_id r ∈ sd_snapshot_id <$> snapshots
                   ∧ is_email_extracted r = false
                   ∧ classify (response r) = Valid
                   ∧ Json.truthy (response r) = true) new
    ∧ (NoDup (response_snapshot_id <$> response_table (store w)) →
       NoDup (response_snapshot_id <$> response_table (store w')))
    ∧ Dashboard.p2_total c' = Dashboard.p2_total c
    ∧ Dashboard.p2_successful c'
      = (Dashboard.p2_successful c + length new)%nat
    ∧ (Dashboard.p2_successful c' + Dashboard.p2_failed c'
       + Dashboard.p2_skipped c' + Dashboard.p2_invalid_responses c'
       = Dashboard.p2_successful c + Dashboard.p2_failed c
         + Dashboard.p2_skipped c + Dashboard.p2_invalid_responses c
         + length snapshots)%nat.
Proof.
  induction snapshots as [|snap snapshots IH]; intros w c.
  - exists w, c, []. rewrite app_nil_r. cbn.
    split_and!; try done; try lia. apply only_processes_refl.
  - cbn [for_each]. unfold mbind, action_bind.
    destruct (pipeline_snapshot_effect env snap w c)
      as (w1 & c1 & new1 & -> & Hr1 & He1 & Hs1 & Hn1 & Hone & Ht1 & Hsu1 & Hsum1).
    destruct (IH w1 c1)
      as (w2 & c2 & new2 & -> & Hr2 & He2 & Hs2 & Hn2 & Hk2 & Ht2 & Hsu2 & Hsum2).
    exists w2, c2, (new1 ++ new2). split; [done|].
    split; [by rewrite Hr2, Hr1, app_assoc|].
    split; [congruence|].
    split; [by eapply only_processes_trans|].
    split.
    { apply Forall_app. split.
      - eapply Forall_impl; [exact Hn1|]. intros r (Hid & ? & ? & ? & _).
        split_and!; try done. rewrite Hid, fmap_cons. apply list_elem_of_here.
      - eapply Forall_impl; [exact Hn2|]. intros r (Hid & ? & ? & ?).
        split_and!; try done. rewrite fmap_cons. by apply list_elem_of_further. }
    split.
    { intros Hnd. apply Hk2. rewrite Hr1, fmap_app.
      destruct new1 as [|r1 [|r1' new1']].
      - by rewrite app_nil_r.
      - apply Forall_cons in Hn1 as [(Hid & _ & _ & _ & Hfresh) _].
        apply NoDup_app. split; [done|]. split.
        + intros x Hx [->|?%elem_of_nil]%elem_of_cons; [|done].
          rewrite Hid in Hx. by apply has_response_false in Hfresh.
        + cbn. apply NoDup_singleton.
      - cbn [length] in Hone. lia. }
    split; [congruence|]. split; [rewrite length_app; lia|].
    cbn [length]. lia.
Qed.

Lemma pipeline_retrieve_effect (env : Env) (w : World) :
  ∃ stats w' new,
    Dashboard.pipeline_retrieve (BrightdataClient.client env)
      (SupabaseClient.client env) w = (Returns stats, w')
    ∧ response_table (store w') = response_table (store w) ++ new
    ∧ length new = Dashboard.p2_successful stats
    ∧ Forall (λ r, is_email_extracted r = false
                   ∧ classify (response r) = Valid
                   ∧ Json.truthy (response r) = true
                   ∧ response_snapshot_id r
                     ∈ snapshot_id <$> SupabaseClient.unprocessed (store w)) new
    ∧ (NoDup (response_snapshot_id <$> response_table (store w)) →
       NoDup (response_snapshot_id <$> response_table (store w')))
    ∧ email_table (store w') = email_table (store w)
    ∧ only_processes (snapshot_table (store w)) (snapshot_table (store w'))
    ∧ (Dashboard.p2_successful stats + Dashboard.p2_failed stats
       + Dashboard.p2_skipped stats + Dashboard.p2_invalid_responses stats
       = Dashboard.p2_total stats)%nat
    ∧ (Dashboard.p2_total stats
       ≤ length (SupabaseClient.unprocessed (store w)))%nat.
Proof.
  unfold Dashboard.pipeline_retrieve.
  cbn [get_unprocessed_snapshots SupabaseClient.client].
  unfold mbind at 1, action_bind at 1.
  rewrite get_unprocessed_snapshots_eq.
  set (pending := match db_fault env (now w) SelectUnprocessed with
                  | Some _ => []
                  | None => (λ r, SnapshotDict (snapshot_id r) (query r))
                              <$> SupabaseClient.unprocessed (store w)
                  end).
  assert (Hids : ∀ id, id ∈ sd_snapshot_id <$> pending →
            id ∈ snapshot_id <$> SupabaseClient.unprocessed (store w)).
  { subst pending. destruct (db_fault env (now w) SelectUnprocessed).
    - by intros id ?%elem_of_nil.
    - intros id. by rewrite <- list_fmap_compose. }
  assert (Hlen : (length pending ≤ length (SupabaseClient.unprocessed (store w)))%nat).
  { subst pending. destruct (db_fault env (now w) SelectUnprocessed).
    - cbn. lia.
    - by rewrite length_fmap. }
  destruct pending as [|snap pending'] eqn:Hpending.
  - exists (Dashboard.PipelineStage2 0 0 0 0 0), (tick w), [].
    rewrite app_nil_r. cbn. split_and!; try done; try lia.
    apply only_processes_refl.
  - unfold mbind, action_bind, with_locals.
    destruct (pipeline_snapshots_effect env (snap :: pending') (tick w)
                (Dashboard.PipelineStage2 (length (snap :: pending')) 0 0 0 0))
      as (w' & c' & new & -> & Hr & He & Hs & Hn & Hk & Ht & Hsu & Hsum).
    rewrite tick_store in Hr, He, Hs, Hk.
    exists c', w', new. cbn in Ht, Hsu, Hsum.
    cbn [mret action_ret]. split; [done|]. split; [done|].
    split; [lia|]. split.
    { eapply Forall_impl; [exact Hn|]. intros r (Hid & ? & ? & ?).
      split_and!; try done. by apply Hids. }
    split; [done|]. split; [done|]. split; [done|].
    split; [cbn [length]; lia|]. rewrite Ht. exact Hlen.
Qed.

(** X17.  Whatever the service and the store do, the retrieval stage of
    the automated pipeline returns.  It only appends to the response
    table, one row per snapshot it counts as successful; each appended row
    is unextracted, belongs to a snapshot that was pending, and holds a
    payload that the validator accepts and that is not empty; identifiers
    that were unique in the response table stay unique.  It leaves the
    e-mail table alone, keeps every snapshot row with its identifier and
    queries, never turns a processed snapshot back to pending, and counts
    each pending snapshot under exactly one of [successful], [failed],
    [skipped] and [invalid_responses]. *)
Theorem pipeline_retrieval_effect (env : Env) (w : World) :
  ∃ stats w' new,
    Dashboard.pipeline_retrieve (BrightdataClient.client env)
      (SupabaseClient.client env) w = (Returns stats, w')
    ∧ response_table (store w') = response_table (store w) ++ new
    ∧ length new = Dashboard.p2_successful stats
    ∧ Forall (λ r, is_email_extracted r = false
                   ∧ classify (response r) = Valid
                   ∧ Json.truthy (response r) = true
                   ∧ response_snapshot_id r
                     ∈ snapshot_id <$> SupabaseClient.unprocessed (store w)) new
    ∧ (NoDup (response_snapshot_id <$> response_table (store w)) →
       NoDup (response_snapshot_id <$> response_table (store w')))
    ∧ email_table (store w') = email_table (store w)
    ∧ only_processes (snapshot_table (store w)) (snapshot_table (store w'))
    ∧ (Dashboard.p2_successful stats + Dashboard.p2_failed stats
       + Dashboard.p2_skipped stats + Dashboard.p2_invalid_responses stats
       = Dashboard.p2_total stats)%nat
    ∧ (Dashboard.p2_total stats
       ≤ length (SupabaseClient.unprocessed (store w)))%nat.
Proof. apply pipeline_retrieve_effect. Qed.

(** ** What the retrieval service writes *)

Lemma service_snapshot_effect (env : Env) (snap : snapshot_dict)
    (w : World) (c : Stage2Service.run_stats) :
  ∃ w' c' new,
    Stage2Service.run_once_body (BrightdataClient.client env)
      (SupabaseClient.client env) snap (w, c) = (Returns tt, (w', c'))
    ∧ response_table (store w') = response_table (store w) ++ new
    ∧ email_table (store w') = email_table (store w)
    ∧ only_processes (snapshot_table (store w)) (snapshot_table (store w'))
    ∧ Forall (λ r, response_snapshot_id r = sd_snapshot_id snap
                   ∧ is_email_extracted r = false
                   ∧ classify (response r) = Valid
                   ∧ Json.truthy (response r) = true
                   ∧ SupabaseClient.has_response (sd_snapshot_id snap) (store w)
                     = false) new
    ∧ (length new ≤ 1)%nat
    ∧ Stage2Service.rs_saved c' = (Stage2Service.rs_saved c + length new)%nat
    ∧ (Stage2Service.rs_saved c' + Stage2Service.rs_failed c'
       + Stage2Service.rs_skipped c' + Stage2Service.rs_invalid c'
       = S (Stage2Service.rs_saved c + Stage2Service.rs_failed c
            + Stage2Service.rs_skipped c + Stage2Service.rs_invalid c))%nat.
Proof.
  assert (Hnone : ∀ w' c',
    response_table (store w') = response_table (store w) →
    email_table (store w') = email_table (store w) →
    only_processes (snapshot_table (store w)) (snapshot_table (store w')) →
    Stage2Service.rs_saved c' = Stage2Service.rs_saved c →
    (Stage2Service.rs_saved c' + Stage2Service.rs_failed c'
     + Stage2Service.rs_skipped c' + Stage2Service.rs_invalid c'
     = S (Stage2Service.rs_saved c + Stage2Service.rs_failed c
          + Stage2Service.rs_skipped c + Stage2Service.rs_invalid c))%nat →
    ∃ w'' c'' new,
      (Returns tt, (w', c')) = (Returns tt, (w'', c''))
      ∧ response_table (store w'') = response_table (store w) ++ new
      ∧ email_table (store w'') = email_table (store w)
      ∧ only_processes (snapshot_table (store w)) (snapshot_table (store w''))
      ∧ Forall (λ r, response_snapshot_id r = sd_snapshot_id snap
                     ∧ is_email_extracted r = false
                     ∧ classify (response r) = Valid
                     ∧ Json.truthy (response r) = true
                     ∧ SupabaseClient.has_response (sd_snapshot_id snap) (store w)
                       = false) new
      ∧ (length new ≤ 1)%nat
      ∧ Stage2Service.rs_saved c''
        = (Stage2Service.rs_saved c + length new)%nat
      ∧ (Stage2Service.rs_saved c'' + Stage2Service.rs_failed c''
         + Stage2Service.rs_skipped c'' + Stage2Service.rs_invalid c''
         = S (Stage2Service.rs_saved c + Stage2Service.rs_failed c
              + Stage2Service.rs_skipped c + Stage2Service.rs_invalid c))%nat).
  { intros w' c' Hr He Hs Hsu Hsum. exists w', c', [].
    rewrite app_nil_r. cbn [length]. split_and!; try done; lia. }
  unfold Stage2Service.run_once_body.
  cbn [get_snapshot_data save_response mark_as_processed
         BrightdataClient.client SupabaseClient.client].
  unfold try_except at 1. unfold mbind at 1, action_bind at 1. unfold call at 1.
  unfold BrightdataClient.get_snapshot_data.
  destruct (http_get env (now w) (sd_snapshot_id snap)) as [data|e|e|e];
    try (apply Hnone; cbn; try done; try apply only_processes_refl; lia).
  destruct (BrightdataClient.validate_response data)
    as [[is_running is_valid] reason] eqn:Hflags.
  unfold mbind at 1, action_bind at 1. unfold update at 1.
  destruct is_valid; cbn [negb];
    [|apply Hnone; cbn; try done; try apply only_processes_refl; lia].
  assert (Hvalid : classify data = Valid).
  { unfold classify. by rewrite Hflags. }
  destruct (Json.truthy data) eqn:Hdata; cbn [negb];
    [|apply Hnone; cbn; try done; try apply only_processes_refl; lia].
  unfold mbind at 1, action_bind at 1. unfold call at 1.
  destruct (save_response_effect env (sd_snapshot_id snap) data (tick w))
    as (ok & err & w1 & -> & Hs1 & He1 & Hcase).
  rewrite tick_store in Hs1, He1, Hcase.
  destruct Hcase as [(-> & Hr1 & Hfresh)|(-> & Hr1)].
  - unfold mbind, action_bind, call.
    destruct (mark_as_processed_effect env (sd_snapshot_id snap) w1)
      as (marked & w2 & -> & Hs2 & Hr2 & He2).
    unfold update.
    eexists w2, _, [ResponseRow (sd_snapshot_id snap) data false].
    split; [reflexivity|]. cbn. rewrite Hs1 in Hs2.
    split_and!; try done; try congruence; try lia.
    by repeat constructor.
  - destruct (String.eqb err "duplicate").
    + unfold mbind, action_bind, call.
      destruct (mark_as_processed_effect env (sd_snapshot_id snap) w1)
        as (marked & w2 & -> & Hs2 & Hr2 & He2).
      rewrite Hs1 in Hs2.
      apply Hnone; cbn; try done; try congruence; lia.
    + apply Hnone; cbn; try done; try congruence; try lia.
      rewrite Hs1. apply only_processes_refl.
Qed.

Lemma service_snapshots_effect (env : Env) (stop : action World bool)
    (snapshots : list snapshot_dict) :
  (∀ w, ∃ set, stop w = (Returns set, w)) →
  ∀ (w : World) (c : Stage2Service.run_stats),
  ∃ w' c' new,
    Stage2Service.run_once_loop (BrightdataClient.client env)
      (SupabaseClient.client env) stop snapshots (w, c)
    = (Returns tt, (w', c'))
    ∧ response_table (store w') = response_table (store w) ++ new
    ∧ email_table (store w') = email_table (store w)
    ∧ only_processes (snapshot_table (store w)) (snapshot_table (store w'))
    ∧ Forall (λ r, response_snapshot_id r ∈ sd_snapshot_id <$> snapshots
                   ∧ is_email_extracted r = false
                   ∧ classify (response r) = Valid
                   ∧ Json.truthy (response r) = true) new
    ∧ (NoDup (response_snapshot_id <$> response_table (store w)) →
       NoDup (response_snapshot_id <$> response_table (store w')))
    ∧ Stage2Service.rs_saved c' = (Stage2Service.rs_saved c + length new)%nat
    ∧ (Stage2Service.rs_saved c' + Stage2Service.rs_failed c'
       + Stage2Service.rs_skipped c' + Stage2Service.rs_invalid c'
       ≤ Stage2Service.rs_saved c + Stage2Service.rs_failed c
         + Stage2Service.rs_skipped c + Stage2Service.rs_invalid c
         + length snapshots)%nat.
Proof.
  intros Hstop. induction snapshots as [|snap snapshots IH]; intros w c.
  - exists w, c, []. rewrite app_nil_r. cbn.
    split_and!; try done; try lia. apply only_processes_refl.
  - cbn [Stage2Service.run_once_loop]. unfold mbind at 1, action_bind at 1.
    unfold call at 1. destruct (Hstop w) as ([|] & ->).
    { exists w, c, []. rewrite app_nil_r. cbn.
      split_and!; try done; try lia. apply only_processes_refl. }
    unfold mbind, action_bind.
    destruct (service_snapshot_effect env snap w c)
      as (w1 & c1 & new1 & -> & Hr1 & He1 & Hs1 & Hn1 & Hone & Hsu1 & Hsum1).
    destruct (IH w1 c1)
      as (w2 & c2 & new2 & -> & Hr2 & He2 & Hs2 & Hn2 & Hk2 & Hsu2 & Hsum2).
    exists w2, c2, (new1 ++ new2). split; [done|].
    split; [by rewrite Hr2, Hr1, app_assoc|].
    split; [congruence|].
    split; [by eapply only_processes_trans|].
    split.
    { apply Forall_app. split.
      - eapply Forall_impl; [exact Hn1|]. intros r (Hid & ? & ? & ? & _).
        split_and!; try done. rewrite Hid, fmap_cons. apply list_elem_of_here.
      - eapply Forall_impl; [exact Hn2|]. intros r (Hid & ? & ? & ?).
        split_and!; try done. rewrite fmap_cons. by apply list_elem_of_further. }
    split.
    { intros Hnd. apply Hk2. rewrite Hr1, fmap_app.
      destruct new1 as [|r1 [|r1' new1']].
      - by rewrite app_nil_r.
      - apply Forall_cons in Hn1 as [(Hid & _ & _ & _ & Hfresh) _].
        apply NoDup_app. split; [done|]. split.
        + intros x Hx [->|?%elem_of_nil]%elem_of_cons; [|done].
          rewrite Hid in Hx. by apply has_response_false in Hfresh.
        + cbn. apply NoDup_singleton.
      - cbn [length] in Hone. lia. }
    split; [rewrite length_app; lia|].
    cbn [length]. lia.
Qed.

(** X18.  One run of the retrieval service on the store, whatever the
    service and the store answer and whenever the stop event is set: the
    run returns; it only appends to the response table, one row per
    snapshot it counts as saved; each appended row is unextracted, belongs
    to a snapshot that was pending, and holds a payload that the validator
    accepts and that is not empty; identifiers that were unique in the
    response table stay unique; the e-mail table is left alone, every
    snapshot row keeps its identifier and queries, and no processed
    snapshot turns pending.  No pending snapshot is counted twice. *)
Theorem service_retrieval_effect (env : Env) (stop : action World bool)
    (w : World) :
  (∀ w, ∃ set, stop w = (Returns set, w)) →
  ∃ stats w' new,
    Stage2Service.run_once (BrightdataClient.client env)
      (SupabaseClient.client env) stop w = (Returns stats, w')
    ∧ response_table (store w') = response_table (store w) ++ new
    ∧ length new = Stage2Service.rs_saved stats
    ∧ Forall (λ r, is_email_extracted r = false
                   ∧ classify (response r) = Valid
                   ∧ Json.truthy (response r) = true
                   ∧ response_snapshot_id r
                     ∈ snapshot_id <$> SupabaseClient.unprocessed (store w)) new
    ∧ (NoDup (response_snapshot_id <$> response_table (store w)) →
       NoDup (response_snapshot_id <$> response_table (store w')))
    ∧ email_table (store w') = email_table (store w)
    ∧ only_processes (snapshot_table (store w)) (snapshot_table (store w'))
    ∧ (Stage2Service.rs_saved stats + Stage2Service.rs_failed stats
       + Stage2Service.rs_skipped stats + Stage2Service.rs_invalid stats
       ≤ length (SupabaseClient.unprocessed (store w)))%nat.
Proof.
  intros Hstop. unfold Stage2Service.run_once.
  cbn [get_unprocessed_snapshots SupabaseClient.client].
  unfold mbind at 1, action_bind at 1.
  rewrite get_unprocessed_snapshots_eq.
  set (pending := match db_fault env (now w) SelectUnprocessed with
                  | Some _ => []
                  | None => (λ r, SnapshotDict (snapshot_id r) (query r))
                              <$> SupabaseClient.unprocessed (store w)
                  end).
  assert (Hids : ∀ id, id ∈ sd_snapshot_id <$> pending →
            id ∈ snapshot_id <$> SupabaseClient.unprocessed (store w)).
  { subst pending. destruct (db_fault env (now w) SelectUnprocessed).
    - by intros id ?%elem_of_nil.
    - intros id. by rewrite <- list_fmap_compose. }
  assert (Hlen : (length pending ≤ length (SupabaseClient.unprocessed (store w)))%nat).
  { subst pending. destruct (db_fault env (now w) SelectUnprocessed).
    - cbn. lia.
    - by rewrite length_fmap. }
  unfold mbind, action_bind, with_locals.
  destruct (service_snapshots_effect env stop pending Hstop (tick w)
              (Stage2Service.RunStats 0 0 0 0 0))
    as (w' & c' & new & -> & Hr & He & Hs & Hn & Hk & Hsu & Hsum).
  rewrite tick_store in Hr, He, Hs, Hk.
  exists c', w', new. cbn in Hsu, Hsum.
  cbn [mret action_ret]. split; [done|]. split; [done|].
  split; [lia|]. split.
  { eapply Forall_impl; [exact Hn|]. intros r (Hid & ? & ? & ?).
    split_and!; try done. by apply Hids. }
  split; [done|]. split; [done|]. split; [done|]. lia.
Qed.

Lemma service_retrieval_effect_witness :
  ∃ stats w' new,
    Stage2Service.run_once (BrightdataClient.client (answering results_payload))
      (SupabaseClient.client (answering results_payload)) never_stopped
      pending_world = (Returns stats, w')
    ∧ response_table (store w') = response_table (store pending_world) ++ new
    ∧ length new = Stage2Service.rs_saved stats
    ∧ Forall (λ r, is_email_extracted r = false
                   ∧ classify (response r) = Valid
                   ∧ Json.truthy (response r) = true
                   ∧ response_snapshot_id r
                     ∈ snapshot_id
                         <$> SupabaseClient.unprocessed (store pending_world)) new
    ∧ (NoDup (response_snapshot_id <$> response_table (store pending_world)) →
       NoDup (response_snapshot_id <$> response_table (store w')))
    ∧ email_table (store w') = email_table (store pending_world)
    ∧ only_processes (snapshot_table (store pending_world))
        (snapshot_table (store w'))
    ∧ (Stage2Service.rs_saved stats + Stage2Service.rs_failed stats
       + Stage2Service.rs_skipped stats + Stage2Service.rs_invalid stats
       ≤ length (SupabaseClient.unprocessed (store pending_world)))%nat.
Proof.
  apply (service_retrieval_effect (answering results_payload) never_stopped
           pending_world).
  intros w. exists false. reflexivity.
Defined.

(** ** The environment checks *)

Lemma unset_configured (getenv : string → option string) (name : string) :
  WorkerEnv.unset (getenv name) = false ↔ configured getenv name.
Proof.
  unfold WorkerEnv.unset, configured, nonempty.
  destruct (getenv name) as [value|].
  - destruct (String.eqb value EmptyString) eqn:E; cbn.
    + apply String.eqb_eq in E as ->. split; [done|].
      by intros (v & [= <-] & Hv).
    + apply String.eqb_neq in E. split; [|done]. intros _. by exists value.
  - split; [done|]. by intros (v & Hv & _).
Qed.

(** X19.  The worker's check accepts an environment exactly when the four
    variables it names are set to texts that are not empty, the
    dashboard's check exactly when the first three are; a variable set to
    the empty text counts as missing.  So every environment the worker
    accepts, the dashboard accepts.  A rejection names the missing
    variables, and only them. *)
Theorem environment_checks_agree (getenv : string → option string) :
  ((WorkerEnv.validate_env getenv).1 = true
   ↔ configured getenv "BRIGHTDATA_URL" ∧ configured getenv "SUPABASE_URL"
     ∧ configured getenv "SUPABASE_KEY"
     ∧ configured getenv "BRIGHTDATA_API_KEY")
  ∧ ((Dashboard.validate_environment getenv).1 = true
     ↔ configured getenv "BRIGHTDATA_URL" ∧ configured getenv "SUPABASE_URL"
       ∧ configured getenv "SUPABASE_KEY")
  ∧ ((WorkerEnv.validate_env getenv).1 = true →
     (Dashboard.validate_environment getenv).1 = true)
  ∧ ((WorkerEnv.validate_env getenv).1 = false →
     ∃ missing,
       (WorkerEnv.validate_env getenv).2
       = "Missing env vars: " +:+ WorkerEnv.join ", " missing
       ∧ ∀ name, name ∈ missing
                 ↔ name ∈ ["BRIGHTDATA_URL"; "SUPABASE_URL"; "SUPABASE_KEY";
                           "BRIGHTDATA_API_KEY"]
                   ∧ ¬ configured getenv name).
Proof.
  pose proof (unset_configured getenv "BRIGHTDATA_URL") as H1.
  pose proof (unset_configured getenv "SUPABASE_URL") as H2.
  pose proof (unset_configured getenv "SUPABASE_KEY") as H3.
  pose proof (unset_configured getenv "BRIGHTDATA_API_KEY") as H4.
  unfold WorkerEnv.validate_env, Dashboard.validate_environment,
    WorkerEnv.missing_keys.
  cbn [List.filter snd].
  split; [|split; [|split]].
  - destruct (WorkerEnv.unset (getenv "BRIGHTDATA_URL"));
    destruct (WorkerEnv.unset (getenv "SUPABASE_URL"));
    destruct (WorkerEnv.unset (getenv "SUPABASE_KEY"));
    destruct (WorkerEnv.unset (getenv "BRIGHTDATA_API_KEY"));
    cbn [fmap list_fmap fst]; split; try done; try tauto;
    intros (?%H1 & ?%H2 & ?%H3 & ?%H4); done.
  - destruct (WorkerEnv.unset (getenv "BRIGHTDATA_URL"));
    destruct (WorkerEnv.unset (getenv "SUPABASE_URL"));
    destruct (WorkerEnv.unset (getenv "SUPABASE_KEY"));
    cbn [fmap list_fmap fst]; split; try done; try tauto;
    intros (?%H1 & ?%H2 & ?%H3); done.
  - destruct (WorkerEnv.unset (getenv "BRIGHTDATA_URL"));
    destruct (WorkerEnv.unset (getenv "SUPABASE_URL"));
    destruct (WorkerEnv.unset (getenv "SUPABASE_KEY"));
    destruct (WorkerEnv.unset (getenv "BRIGHTDATA_API_KEY"));
    cbn [fmap list_fmap fst]; done.
  - assert (Hno : ∀ name, WorkerEnv.unset (getenv name) = true →
              ¬ configured getenv name).
    { intros name Hu Hc. apply unset_configured in Hc. congruence. }
    destruct (WorkerEnv.unset (getenv "BRIGHTDATA_URL")) eqn:E1;
    destruct (WorkerEnv.unset (getenv "SUPABASE_URL")) eqn:E2;
    destruct (WorkerEnv.unset (getenv "SUPABASE_KEY")) eqn:E3;
    destruct (WorkerEnv.unset (getenv "BRIGHTDATA_API_KEY")) eqn:E4;
    cbn [fmap list_fmap fst]; try done;
    intros _; (eexists; split; [reflexivity|]);
    intros name; rewrite !elem_of_cons, elem_of_nil;
    (split;
     [ intros Hn; destruct_or!; subst name; try done;
       (split; [tauto|by apply Hno])
     | intros [Hn Hc]; destruct_or!; subst name; try done; try tauto;
       exfalso; apply Hc; tauto ]).
Qed.

(** ** Serialized payloads are ASCII *)

Lemma all_chars_app (cls : ascii → bool) (a b : string) :
  all_chars cls (a +:+ b) = all_chars cls a && all_chars cls b.
Proof.
  induction a as [|c a IH]; [done|].
  change (String c a +:+ b) with (String c (a +:+ b)).
  cbn [all_chars]. by rewrite IH, andb_assoc.
Qed.

Lemma escape_char_printable (c : ascii) :
  all_chars printable (Json.escape_char c) = true.
Proof. destruct c as [[] [] [] [] [] [] [] []]; vm_compute; reflexivity. Qed.

Lemma quote_printable (s : string) : all_chars printable (Json.quote s) = true.
Proof.
  unfold Json.quote. cbn [all_chars]. rewrite all_chars_app.
  assert (H : all_chars printable (Json.escape s) = true).
  { induction s as [|c s IH]; [done|]. cbn [Json.escape].
    by rewrite all_chars_app, escape_char_printable, IH. }
  by rewrite H.
Qed.

Lemma of_Z_printable (z : Z) : all_chars printable (Str.of_Z z) = true.
Proof.
  assert (H : ∀ d, all_chars printable (NilEmpty.string_of_uint d) = true).
  { induction d; cbn [NilEmpty.string_of_uint all_chars]; by rewrite ?IHd. }
  assert (H0 : ∀ d, all_chars printable (NilZero.string_of_uint d) = true).
  { intros d. destruct d; try apply H. done. }
  unfold Str.of_Z. destruct (Z.to_int z); cbn [NilZero.string_of_int all_chars];
    by rewrite H0.
Qed.

Lemma dumps_printable : ∀ j, all_chars printable (Json.dumps j) = true.
Proof.
  fix IH 1. intros [|b|z|s|items|fields]; cbn [Json.dumps].
  - done.
  - by destruct b.
  - apply of_Z_printable.
  - apply quote_printable.
  - change ("[" +:+ ?x) with (String "[" x). cbn [all_chars].
    rewrite all_chars_app. cbn.
    rewrite andb_true_r.
    induction items as [|x items IHitems]; [done|].
    destruct items as [|y items]; [apply IH|].
    rewrite !all_chars_app, IH. cbn [andb]. exact IHitems.
  - change ("{" +:+ ?x) with (String "{" x). cbn [all_chars].
    rewrite all_chars_app. cbn.
    rewrite andb_true_r.
    induction fields as [|[k v] fields IHfields]; [done|].
    destruct fields as [|y fields].
    + by rewrite !all_chars_app, quote_printable, IH.
    + rewrite !all_chars_app, quote_printable, IH. cbn [andb]. exact IHfields.
Qed.

Lemma printable_utf8_length (s : string) :
  all_chars printable s = true → Str.utf8_length s = String.length s.
Proof.
  induction s as [|c s IH]; [done|]. cbn [all_chars Str.utf8_length String.length].
  intros [Hc Hs]%andb_true_iff. rewrite (IH Hs).
  unfold printable in Hc. apply andb_true_iff in Hc as [_ Hc].
  apply N.leb_le in Hc.
  destruct (Str.code c <? 128)%N eqn:E; [done|].
  apply N.ltb_ge in E. lia.
Qed.

(** X20.  What [json.dumps] produces holds printable ASCII characters
    only, whatever the value: so the size in bytes that
    [get_snapshot_data] compares with 2000 is the number of characters of
    the serialized payload, and the request body [create_payload] builds
    is ASCII whatever the keywords hold. *)
Theorem serialized_payloads_are_ascii :
  (∀ data, all_chars printable (Json.dumps data) = true)
  ∧ (∀ data, Str.utf8_length (Json.dumps data)
             = String.length (Json.dumps data))
  ∧ (∀ keywords,
       all_chars printable (BrightdataClient.create_payload keywords) = true).
Proof.
  split_and!.
  - apply dumps_printable.
  - intros data. apply printable_utf8_length, dumps_printable.
  - intros keywords. apply dumps_printable.
Qed.

(** ** The CSV loader *)

Lemma rev_app_append (s acc : string) :
  String.rev_app s acc = String.rev s +:+ acc.
Proof.
  unfold String.rev. revert acc.
  induction s as [|c s IH]; intros acc; [done|].
  cbn [String.rev_app]. rewrite (IH (String c acc)), (IH (String c EmptyString)).
  by rewrite string_app_assoc.
Qed.

Lemma rev_cons (c : ascii) (s : string) :
  String.rev (String c s) = String.rev s +:+ String c EmptyString.
Proof. unfold String.rev at 1. cbn [String.rev_app]. apply rev_app_append. Qed.

Lemma string_app_nil_r (s : string) : s +:+ EmptyString = s.
Proof.
  induction s as [|c s IH]; [done|].
  change (String c (s +:+ EmptyString) = String c s). by rewrite IH.
Qed.

Lemma rev_append (a b : string) :
  String.rev (a +:+ b) = String.rev b +:+ String.rev a.
Proof.
  induction a as [|c a IH].
  - change (String.rev EmptyString) with EmptyString.
    by rewrite string_app_nil_r.
  - change (String c a +:+ b) with (String c (a +:+ b)).
    by rewrite !rev_cons, IH, string_app_assoc.
Qed.

Lemma rev_involutive (s : string) : String.rev (String.rev s) = s.
Proof.
  induction s as [|c s IH]; [done|].
  by rewrite rev_cons, rev_append, IH.
Qed.

Lemma lstrip_suffix (s : string) :
  ∃ blanks, s = blanks +:+ Str.lstrip s.
Proof.
  induction s as [|c s (blanks & IH)]; [by exists EmptyString|].
  cbn [Str.lstrip]. destruct (Str.is_space c).
  - exists (String c blanks).
    change (String c s = String c (blanks +:+ Str.lstrip s)). by rewrite <- IH.
  - by exists EmptyString.
Qed.

Lemma lstrip_shorter (s : string) :
  (String.length (Str.lstrip s) ≤ String.length s)%nat.
Proof.
  induction s as [|c s IH]; [done|]. cbn [Str.lstrip].
  destruct (Str.is_space c); cbn [String.length]; lia.
Qed.

(** What [lstrip] returns does not start with white space. *)
Lemma lstrip_head (s : string) :
  match Str.lstrip s with
  | EmptyString => True
  | String c _ => Str.is_space c = false
  end.
Proof.
  induction s as [|c s IH]; [done|]. cbn [Str.lstrip].
  by destruct (Str.is_space c) eqn:E.
Qed.

Lemma lstrip_fixed (s : string) :
  match s with
  | EmptyString => True
  | String c _ => Str.is_space c = false
  end →
  Str.lstrip s = s.
Proof.
  destruct s as [|c s]; [done|]. intros Hc.
  change (Str.lstrip (String c s))
    with (if Str.is_space c then Str.lstrip s else String c s).
  by rewrite Hc.
Qed.

(** What [strip] returns starts and ends with a character that is not
    white space, unless it is empty. *)
Lemma strip_ends (s : string) :
  Str.lstrip (Str.strip s) = Str.strip s
  ∧ Str.lstrip (String.rev (Str.strip s)) = String.rev (Str.strip s).
Proof.
  unfold Str.strip.
  set (t := Str.lstrip s).
  set (u := Str.lstrip (String.rev t)).
  split.
  - apply lstrip_fixed.
    destruct (lstrip_suffix (String.rev t)) as (blanks & Hrev). fold u in Hrev.
    apply (f_equal String.rev) in Hrev.
    rewrite rev_involutive, rev_append in Hrev.
    destruct (String.rev u) as [|c x]; [done|].
    pose proof (lstrip_head s) as Hhead. fold t in Hhead.
    rewrite Hrev in Hhead. exact Hhead.
  - rewrite rev_involutive. apply lstrip_fixed.
    subst u. apply lstrip_head.
Qed.

Lemma strip_idempotent (s : string) : Str.strip (Str.strip s) = Str.strip s.
Proof.
  destruct (strip_ends s) as [H1 H2].
  unfold Str.strip at 1. by rewrite H1, H2, rev_involutive.
Qed.

Lemma is_space_char_lower (c : ascii) :
  Str.is_space (Str.char_lower c) = Str.is_space c.
Proof. destruct c as [[] [] [] [] [] [] [] []]; vm_compute; reflexivity. Qed.

Lemma lstrip_keeps_visible (a b : string) (c : ascii) :
  Str.is_space c = false →
  nonempty (Str.lstrip (a +:+ String c b)) = true.
Proof.
  intros Hc. induction a as [|x a IH].
  - change (EmptyString +:+ String c b) with (String c b).
    cbn [Str.lstrip]. by rewrite Hc.
  - change (String x a +:+ String c b) with (String x (a +:+ String c b)).
    cbn [Str.lstrip]. by destruct (Str.is_space x).
Qed.

Lemma nonempty_rev (s : string) : nonempty (String.rev s) = nonempty s.
Proof.
  destruct s as [|c s]; [done|]. rewrite rev_cons.
  by destruct (String.rev s).
Qed.

(** A text that starts with a character that is not white space is not
    blank once lower-cased and trimmed. *)
Lemma normalize_visible (c : ascii) (s : string) :
  Str.is_space c = false → nonempty (normalize (String c s)) = true.
Proof.
  intros Hc. unfold normalize, Str.strip. cbn [Str.lower Str.lstrip].
  rewrite is_space_char_lower, Hc, nonempty_rev, rev_cons.
  apply lstrip_keeps_visible. by rewrite is_space_char_lower.
Qed.

Lemma first_cells_members (rows : list (list string)) (q : string) :
  q ∈ Dashboard.first_cells rows
  ↔ ∃ cell rest, (cell :: rest) ∈ rows ∧ q = Str.strip cell
                 ∧ nonempty q = true.
Proof.
  induction rows as [|row rows IH]; cbn [Dashboard.first_cells].
  - split; [by intros ?%elem_of_nil|]. by intros (? & ? & ?%elem_of_nil & _).
  - destruct row as [|cell rest].
    + rewrite IH. split; intros (cell & rest & Hrow & Hq).
      * exists cell, rest. split; [by apply list_elem_of_further|done].
      * apply elem_of_cons in Hrow as [?|Hrow]; [done|]. by exists cell, rest.
    + destruct (nonempty (Str.strip cell)) eqn:Hne.
      * rewrite elem_of_cons, IH. split.
        -- intros [->|(cell' & rest' & Hrow & Hq)].
           ++ exists cell, rest. split; [apply list_elem_of_here|done].
           ++ exists cell', rest'. split; [by apply list_elem_of_further|done].
        -- intros (cell' & rest' & Hrow & Hq & Hne').
           apply elem_of_cons in Hrow as [[= -> ->]|Hrow]; [by left|].
           right. by exists cell', rest'.
      * rewrite IH. split; intros (cell' & rest' & Hrow & Hq & Hne').
        -- exists cell', rest'. split; [by apply list_elem_of_further|done].
        -- apply elem_of_cons in Hrow as [[= -> ->]|Hrow]; [congruence|].
           by exists cell', rest'.
Qed.

Lemma first_cells_length (rows : list (list string)) :
  (length (Dashboard.first_cells rows) ≤ length rows)%nat.
Proof.
  induction rows as [|row rows IH]; [done|]. cbn [Dashboard.first_cells].
  destruct row as [|cell rest]; [cbn [length]; lia|].
  destruct (nonempty (Str.strip cell)); cbn [length]; lia.
Qed.

(** Among first occurrences, every query that is not blank is
    represented: by itself or by an earlier query with the same normalized
    form. *)
Lemma first_occurrences_covers (queries : list string) :
  ∀ seen q,
    q ∈ queries → nonempty (normalize q) = true →
    normalize q ∈ seen
    ∨ ∃ q', q' ∈ first_occurrences seen queries ∧ normalize q' = normalize q.
Proof.
  induction queries as [|p rest IH]; intros seen q Hq Hne;
    [by apply elem_of_nil in Hq|].
  cbn [first_occurrences].
  apply elem_of_cons in Hq as [->|Hq].
  - rewrite Hne. cbn [andb].
    destruct (decide (normalize p ∈ seen)) as [Hin|Hout]; [by left|].
    rewrite bool_decide_eq_true_2 by done. right. exists p.
    split; [apply list_elem_of_here|done].
  - destruct (nonempty (normalize p) && bool_decide (normalize p ∉ seen)).
    + destruct (IH ({[normalize p]} ∪ seen) q Hq Hne) as [Hin|(q' & Hq' & Heq)].
      * apply elem_of_union in Hin as [Hin%elem_of_singleton|Hin]; [|by left].
        right. exists p. split; [apply list_elem_of_here|done].
      * right. exists q'. split; [by apply list_elem_of_further|done].
    + by apply IH.
Qed.

(** X21.  [load_csv_queries] never hands on the header row, a blank first
    cell or a row without cells: it returns nothing for a file without
    rows or when reading fails, at most one query per row after the header,
    and each query is the trimmed first cell of such a row, is not empty,
    and has no white space left at either end.  None of the loaded queries
    is blank for [filter_queries], so the deduplicator keeps each of them
    or an earlier query with the same normalized form. *)
Theorem loaded_queries_are_trimmed (csv_rows : option (list (list string))) :
  let queries := Dashboard.load_csv_queries csv_rows in
  (length queries ≤ pred (length (default [] csv_rows)))%nat
  ∧ (∀ q, q ∈ queries ↔
          ∃ cell rest, (cell :: rest) ∈ drop 1 (default [] csv_rows)
                       ∧ q = Str.strip cell ∧ nonempty q = true)
  ∧ (∀ q, q ∈ queries → nonempty q = true ∧ Str.strip q = q)
  ∧ (∀ q existing,
       q ∈ queries →
       ∃ q', q' ∈ first_occurrences ∅ queries
             ∧ normalize q' = normalize q
             ∧ (q' ∈ App.new_queries (App.filter_queries queries existing)
                ∨ q' ∈ App.existing_in_db (App.filter_queries queries existing))).
Proof.
  cbv zeta.
  assert (Hshape : ∀ q, q ∈ Dashboard.load_csv_queries csv_rows →
            nonempty q = true ∧ Str.strip q = q).
  { intros q Hq. destruct csv_rows as [[|header rows]|];
      try by apply elem_of_nil in Hq.
    apply first_cells_members in Hq as (cell & rest & _ & -> & Hne).
    split; [done|apply strip_idempotent]. }
  split_and!.
  - destruct csv_rows as [[|header rows]|]; cbn; try lia.
    apply first_cells_length.
  - intros q. destruct csv_rows as [[|header rows]|]; cbn [default drop].
    + split; [by intros ?%elem_of_nil|]. by intros (? & ? & ?%elem_of_nil & _).
    + rewrite ?drop_0. apply first_cells_members.
    + split; [by intros ?%elem_of_nil|]. by intros (? & ? & ?%elem_of_nil & _).
  - exact Hshape.
  - intros q existing Hq.
    destruct (Hshape q Hq) as [Hne Hstrip].
    assert (Hvisible : nonempty (normalize q) = true).
    { destruct (strip_ends q) as [Hhead _]. rewrite Hstrip in Hhead.
      destruct q as [|c x]; [done|].
      apply normalize_visible.
      pose proof (lstrip_head (String c x)) as H. by rewrite Hhead in H. }
    destruct (first_occurrences_covers _ ∅ q Hq Hvisible)
      as [Hin|(q' & Hq' & Heq)]; [by apply elem_of_empty in Hin|].
    exists q'. split; [done|]. split; [done|].
    rewrite filter_queries_unfold. cbv zeta.
    cbn [App.new_queries App.existing_in_db].
    rewrite !list_elem_of_filter.
    destruct (decide (normalize q' ∈ existing)); [right|left]; done.
Qed.

(** ** The automated pipeline never forgets *)

Lemma only_extracts_refl (table : list response_row) :
  only_extracts table table.
Proof. unfold only_extracts. induction table; by constructor. Qed.

Lemma only_extracts_trans (t1 t2 t3 : list response_row) :
  only_extracts t1 t2 → only_extracts t2 t3 → only_extracts t1 t3.
Proof.
  unfold only_extracts. intros H12. revert t3.
  induction H12 as [|r1 r2 t1 t2 (? & ? & ?) _ IH]; intros t3 H23.
  - by apply Forall2_nil_inv_l in H23 as ->.
  - apply Forall2_cons_inv_l in H23 as (r3 & t3' & (? & ? & ?) & H23 & ->).
    constructor; [|by apply IH]. split_and!; [congruence|congruence|tauto].
Qed.

Lemma only_extracts_set_extracted (id : string) (table : list response_row) :
  only_extracts table (SupabaseClient.set_extracted id <$> table).
Proof.
  unfold only_extracts. induction table as [|r table IH]; [constructor|].
  rewrite fmap_cons. constructor; [|exact IH].
  unfold SupabaseClient.set_extracted.
  by destruct (String.eqb (response_snapshot_id r) id).
Qed.

Lemma never_forgets_refl (st : Store) : never_forgets st st.
Proof.
  split_and!.
  - exists (snapshot_table st), []. rewrite app_nil_r.
    split; [done|apply only_processes_refl].
  - exists (response_table st), []. rewrite app_nil_r.
    split; [done|apply only_extracts_refl].
  - exists []. by rewrite app_nil_r.
Qed.

Lemma never_forgets_trans (st1 st2 st3 : Store) :
  never_forgets st1 st2 → never_forgets st2 st3 → never_forgets st1 st3.
Proof.
  intros ((k1 & x1 & Hs1 & Hk1) & (l1 & y1 & Hr1 & Hl1) & (e1 & He1))
         ((k2 & x2 & Hs2 & Hk2) & (l2 & y2 & Hr2 & Hl2) & (e2 & He2)).
  split_and!.
  - rewrite Hs1 in Hk2. unfold only_processes in Hk2.
    apply Forall2_app_inv_l in Hk2 as (k2a & k2b & Ha & Hb & ->).
    exists k2a, (k2b ++ x2). split; [by rewrite Hs2, app_assoc|].
    by eapply only_processes_trans.
  - rewrite Hr1 in Hl2. unfold only_extracts in Hl2.
    apply Forall2_app_inv_l in Hl2 as (l2a & l2b & Ha & Hb & ->).
    exists l2a, (l2b ++ y2). split; [by rewrite Hr2, app_assoc|].
    by eapply only_extracts_trans.
  - exists (e1 ++ e2). by rewrite He2, He1, app_assoc.
Qed.

(** A store whose snapshot table was only marked, whose response table
    was only appended to or marked, and whose e-mail table was only
    appended to has forgotten nothing. *)
Lemma never_forgets_intro (st st' : Store) (snaps : list snapshot_row)
    (kept extra : list response_row) (emails : list string) :
  (∃ kept_snaps, snapshot_table st' = kept_snaps ++ snaps
                 ∧ only_processes (snapshot_table st) kept_snaps) →
  response_table st' = kept ++ extra →
  only_extracts (response_table st) kept →
  email_table st' = email_table st ++ emails →
  never_forgets st st'.
Proof.
  intros (kept_snaps & Hs & Hk) Hr Hx He. split_and!.
  - by exists kept_snaps, snaps.
  - by exists kept, extra.
  - by exists emails.
Qed.

Lemma save_email_never_forgets (env : Env) (email : string) (w : World) :
  ∃ r w',
    SupabaseClient.save_email env email w = (Returns r, w')
    ∧ never_forgets (store w) (store w').
Proof.
  unfold SupabaseClient.save_email. unfold_action.
  destruct (db_fault env (now w) (InsertEmail email));
    [eexists _, _; split; [reflexivity|]; apply never_forgets_refl|].
  destruct (SupabaseClient.has_email email (store w));
    [eexists _, _; split; [reflexivity|]; apply never_forgets_refl|].
  eexists _, _; split; [reflexivity|]. cbn [store].
  apply (never_forgets_intro _ _ [] (response_table (store w)) [] [email]);
    cbn; rewrite ?app_nil_r; try done.
  - exists (snapshot_table (store w)). rewrite app_nil_r.
    split; [done|apply only_processes_refl].
  - apply only_extracts_refl.
Qed.

Lemma mark_email_extracted_never_forgets (env : Env) (id : string) (w : World) :
  ∃ marked w',
    SupabaseClient.mark_email_extracted env id w = (Returns marked, w')
    ∧ never_forgets (store w) (store w').
Proof.
  rewrite mark_email_extracted_eq.
  destruct (db_fault env (now w) (UpdateExtracted id)).
  - eexists _, _. split; [reflexivity|]. apply never_forgets_refl.
  - eexists _, _. split; [reflexivity|]. cbn [store].
    apply (never_forgets_intro _ _ []
             (SupabaseClient.set_extracted id <$> response_table (store w)) [] []);
      cbn; rewrite ?app_nil_r; try done.
    + exists (snapshot_table (store w)). rewrite app_nil_r.
      split; [done|apply only_processes_refl].
    + apply only_extracts_set_extracted.
Qed.

Lemma pipeline_row_never_forgets (env : Env) (d : response_dict)
    (s : World * Dashboard.pipeline_stage3) :
  ∃ s',
    Dashboard.pipeline_row (SupabaseClient.client env) d s = (Returns tt, s')
    ∧ never_forgets (store s.1) (store s'.1).
Proof.
  destruct s as [w c]. unfold Dashboard.pipeline_row.
  destruct (negb (nonempty (rd_snapshot_id d))
            || negb (Json.truthy (rd_response d))).
  { eexists. split; [reflexivity|]. apply never_forgets_refl. }
  unfold mbind at 1, action_bind at 1.
  destruct (for_each_keeps
    (λ s s' : World * Dashboard.pipeline_stage3,
       never_forgets (store s.1) (store s'.1))
    (Dashboard.pipeline_email (SupabaseClient.client env))
    (extract_emails_from_json (rd_response d)))
    with (s := (w, c)) as ([w1 c1] & -> & H1).
  - intros s. apply never_forgets_refl.
  - intros s1 s2 s3. apply never_forgets_trans.
  - intros email [w0 c0]. unfold Dashboard.pipeline_email.
    cbn [save_email SupabaseClient.client].
    destruct (save_email_never_forgets env email w0)
      as ([ok err] & w2 & Hsave & H2).
    unfold mbind, action_bind, call. rewrite Hsave.
    destruct ok; [by eexists|].
    destruct (String.eqb err "duplicate"); by eexists.
  - cbn [mark_email_extracted SupabaseClient.client].
    unfold mbind, action_bind, call.
    destruct (mark_email_extracted_never_forgets env (rd_snapshot_id d) w1)
      as (marked & w2 & -> & H2).
    destruct marked; (eexists; split; [reflexivity|]);
      cbn in *; by eapply never_forgets_trans.
Qed.

Lemma pipeline_batches_never_forget (env : Env) (num_batches : nat) :
  ∀ s : World * Dashboard.pipeline_stage3,
  ∃ s',
    Dashboard.pipeline_batches (SupabaseClient.client env) num_batches s
    = (Returns tt, s')
    ∧ never_forgets (store s.1) (store s'.1).
Proof.
  induction num_batches as [|n IH]; intros [w c].
  - eexists. split; [reflexivity|]. apply never_forgets_refl.
  - cbn [Dashboard.pipeline_batches get_unextracted_responses
           SupabaseClient.client].
    unfold mbind at 1, action_bind at 1. unfold call at 1.
    rewrite get_unextracted_responses_eq.
    match goal with
    | |- context [match ?fetched with [] => _ | _ :: _ => _ end] =>
        destruct fetched as [|d rows] eqn:Hrows
    end.
    + eexists. split; [reflexivity|]. apply never_forgets_refl.
    + destruct (for_each_keeps
        (λ s s' : World * Dashboard.pipeline_stage3,
           never_forgets (store s.1) (store s'.1))
        (Dashboard.pipeline_row (SupabaseClient.client env)) (d :: rows))
        with (s := (tick w, c)) as ([w1 c1] & Hrun & H1).
      * intros s. apply never_forgets_refl.
      * intros s1 s2 s3. apply never_forgets_trans.
      * intros d0 s0. apply pipeline_row_never_forgets.
      * unfold mbind, action_bind. rewrite Hrun. unfold update at 1.
        destruct (IH (w1, Dashboard.p3_add_processed (length (d :: rows)) c1))
          as (s2 & -> & H2).
        exists s2. split; [done|]. cbn in *. by eapply never_forgets_trans.
Qed.

Lemma pipeline_extract_never_forgets (env : Env) (w : World) :
  ∃ stats w',
    Dashboard.pipeline_extract (SupabaseClient.client env) w
    = (Returns stats, w')
    ∧ never_forgets (store w) (store w').
Proof.
  unfold Dashboard.pipeline_extract.
  cbn [count_unextracted_responses SupabaseClient.client].
  unfold mbind at 1, action_bind at 1.
  assert (Hcount : ∃ n,
    SupabaseClient.count_unextracted_responses env w = (Returns n, tick w)).
  { unfold SupabaseClient.count_unextracted_responses. unfold_action.
    destruct (db_fault env (now w) CountUnextracted); [by eexists|].
    destruct w as [[? ? ?] ?]. by eexists. }
  destruct Hcount as (n & ->).
  destruct (n =? 0)%nat.
  - eexists _, _. split; [reflexivity|]. apply never_forgets_refl.
  - unfold mbind, action_bind, with_locals.
    destruct (pipeline_batches_never_forget env ((n + 20 - 1) / 20)
                (tick w, Dashboard.PipelineStage3 0 0 0 0 0))
      as ([w' c'] & -> & H).
    by eexists _, _.
Qed.

(** X22.  Whatever the service and the store do, and whatever the key,
    the batch size and the queries, [process_automated_pipeline] never
    raises, and the store it leaves has forgotten nothing: every snapshot
    row is still there with its identifier and queries, every response row
    with its identifier and payload, every e-mail; a snapshot that was
    processed is still processed, a response that was extracted still
    extracted; whatever is new was appended. *)
Theorem pipeline_never_forgets (env : Env) (api_key : string)
    (batch_size : Z) (queries : list string) (w : World) :
  ∃ result w',
    Dashboard.process_automated_pipeline (BrightdataClient.client env)
      (SupabaseClient.client env) api_key batch_size queries w
    = (Returns result, w')
    ∧ never_forgets (store w) (store w').
Proof.
  unfold Dashboard.process_automated_pipeline, try_except.
  destruct (nonempty api_key); cbn [negb].
  2: { eexists _, _. split; [reflexivity|]. apply never_forgets_refl. }
  unfold mbind at 1, action_bind at 1.
  destruct (submission_effect env queries batch_size w)
    as (r1 & w1 & rows & -> & Hs1 & Hr1 & He1 & _).
  assert (H1 : never_forgets (store w) (store w1)).
  { apply (never_forgets_intro _ _ rows (response_table (store w)) [] []);
      rewrite ?app_nil_r; try done.
    - exists (snapshot_table (store w)). split; [done|apply only_processes_refl].
    - apply only_extracts_refl. }
  destruct r1 as [stats1|e]; [|by eexists _, _].
  destruct (EmailScraperEngine.successful_snapshots stats1 =? 0)%nat;
    [by eexists _, _|].
  unfold mbind at 1, action_bind at 1.
  destruct (poll_effect env Dashboard.MAX_POLL_ATTEMPTS 0 w1)
    as (r2 & w2 & -> & Hstore2 & _).
  destruct r2 as [attempts|e];
    [|eexists _, _; split; [reflexivity|]; by rewrite Hstore2].
  unfold mbind at 1, action_bind at 1.
  destruct (pipeline_retrieve_effect env w2)
    as (stats2 & w3 & new & -> & Hr3 & _ & _ & _ & He3 & Hs3 & _).
  assert (H3 : never_forgets (store w2) (store w3)).
  { apply (never_forgets_intro _ _ [] (response_table (store w2)) new []);
      rewrite ?app_nil_r; try done.
    - exists (snapshot_table (store w3)). by rewrite app_nil_r.
    - apply only_extracts_refl. }
  unfold mbind at 1, action_bind at 1.
  destruct (pipeline_extract_never_forgets env w3) as (stats3 & w4 & -> & H4).
  eexists _, _. split; [reflexivity|].
  eapply never_forgets_trans; [exact H1|]. rewrite <- Hstore2.
  by eapply never_forgets_trans.
Qed.
